(** * Trackmania Exchange Browser: query building, result mapping and the
      favorites store of [exchangeBrowser.py]

    The Python program is embedded shallowly.  Every value that reaches the
    code from a JSON document (an API response, the favorites file) is a
    [json] term; Python operations that can raise are functions into
    [result]; the methods of the window that read and write its attributes,
    the favorites file and the console are functions on an explicit state
    record.

    Modelling conventions.
    - JSON numbers are integers ([Z]); the identifiers, counts and lengths
      the program handles are integers.  Fractional numbers are outside the
      model.  Python refuses to turn an integer of more than 4300 digits
      into text or back: the encoder of the favorites file has this limit
      ([Json.intstr]); [Py.str] and the decoder do not.
    - A Python [str] is a [string]: the bytes of its UTF-8 encoding, a
      lone surrogate, which a [str] can hold and UTF-8 cannot, being the
      three bytes the same scheme gives its code unit ([utf8]).
    - A Python [dict] built from a JSON object is an association list in
      insertion order whose keys are pairwise distinct ([json_wf]). *)

From Stdlib Require Import ZArith String Ascii List Bool Lia.
From Stdlib Require Import DecimalString DecimalFacts DecimalZ.
From stdpp Require Import gmap strings list.

Local Open Scope string_scope.
Local Open Scope Z_scope.
#[local] Arguments String.append !_ _ / : simpl nomatch.

(** ** JSON values as Python sees them *)

#[local] Unset Elimination Schemes.
Inductive json : Type :=
| JNull
| JBool (b : bool)
| JNum (n : Z)
| JStr (s : string)
| JList (l : list json)
| JDict (d : list (string * json)).
#[local] Set Elimination Schemes.

(** The exceptions the modelled code can raise. *)
Inductive exn : Type :=
| TypeError
| KeyError
| AttributeError
| IndexError
| JSONDecodeError
| OSError
| ValueError
| UnicodeEncodeError
| UnicodeDecodeError.

Inductive result (A : Type) : Type :=
| Ok (a : A)
| Raise (e : exn).
Arguments Ok {A} a.
Arguments Raise {A} e.

Definition rbind {A B} (r : result A) (k : A -> result B) : result B :=
  match r with
  | Ok a => k a
  | Raise e => Raise e
  end.

Notation "x <- r ;; k" := (rbind r (fun x => k))
  (at level 100, r at next level, right associativity).

Definition is_ok {A} (r : result A) : bool :=
  match r with Ok _ => true | Raise _ => false end.

Module Py.

(** [isinstance(v, dict)] *)
Definition isinstance_dict (v : json) : bool :=
  match v with JDict _ => true | _ => false end.

Definition bool_to_Z (b : bool) : Z := if b then 1 else 0.

(** Lookup in the association list of a dict. *)
Fixpoint dict_lookup (key : string) (d : list (string * json)) : option json :=
  match d with
  | [] => None
  | (k, v) :: d' => if String.eqb k key then Some v else dict_lookup key d'
  end.

(** [v.get(key, default)]: only a dict has the method. *)
Definition get (v : json) (key : string) (default : json) : result json :=
  match v with
  | JDict d => Ok (match dict_lookup key d with Some x => x | None => default end)
  | _ => Raise AttributeError
  end.

(** [v[key]] for a string key. *)
Definition getitem (v : json) (key : string) : result json :=
  match v with
  | JDict d => match dict_lookup key d with Some x => Ok x | None => Raise KeyError end
  | _ => Raise TypeError
  end.

(** Truth value of [v] in a condition. *)
Definition truthy (v : json) : bool :=
  match v with
  | JNull => false
  | JBool b => b
  | JNum n => negb (n =? 0)
  | JStr s => negb (String.eqb s "")
  | JList l => match l with [] => false | _ => true end
  | JDict d => match d with [] => false | _ => true end
  end.

(** The characters of a text: a byte that starts a character of two,
    three or four bytes takes that many bytes with it. *)
Fixpoint chars (s : string) : list string :=
  match s with
  | EmptyString => []
  | String a r =>
      if (N_of_ascii a <? 192)%N then String a "" :: chars r
      else
        match r with
        | String b r2 =>
            if (N_of_ascii a <? 224)%N then String a (String b "") :: chars r2
            else
              match r2 with
              | String c r3 =>
                  if (N_of_ascii a <? 240)%N
                  then String a (String b (String c "")) :: chars r3
                  else
                    match r3 with
                    | String d r4 =>
                        String a (String b (String c (String d ""))) :: chars r4
                    | EmptyString => [s]
                    end
              | EmptyString => [s]
              end
        | EmptyString => [s]
        end
  end.

(** [len(v)] *)
Definition len (v : json) : result Z :=
  match v with
  | JStr s => Ok (Z.of_nat (length (chars s)))
  | JList l => Ok (Z.of_nat (length l))
  | JDict d => Ok (Z.of_nat (length d))
  | _ => Raise TypeError
  end.

(** [v[0]] *)
Definition getitem0 (v : json) : result json :=
  match v with
  | JList (x :: _) => Ok x
  | JList [] => Raise IndexError
  | JStr s =>
      match chars s with
      | c :: _ => Ok (JStr c)
      | [] => Raise IndexError
      end
  | JDict _ => Raise KeyError
  | _ => Raise TypeError
  end.

(** [a == b].  A bool is the integer 0 or 1; lists compare element by
    element, dicts as finite maps. *)
Fixpoint eq (a b : json) {struct a} : bool :=
  match a, b with
  | JNull, JNull => true
  | JBool x, JBool y => Bool.eqb x y
  | JBool x, JNum n => bool_to_Z x =? n
  | JNum n, JBool y => n =? bool_to_Z y
  | JNum n, JNum m => n =? m
  | JStr s, JStr t => String.eqb s t
  | JList l, JList l' =>
      (fix eq_list (l l' : list json) {struct l} : bool :=
         match l, l' with
         | [], [] => true
         | x :: r, y :: r' => eq x y && eq_list r r'
         | _, _ => false
         end) l l'
  | JDict d, JDict d' =>
      (length d =? length d')%nat &&
      (fix eq_items (d : list (string * json)) {struct d} : bool :=
         match d with
         | [] => true
         | (k, v) :: r =>
             match dict_lookup k d' with
             | Some v' => eq v v'
             | None => false
             end && eq_items r
         end) d
  | _, _ => false
  end.

(** [x in xs] for a list [xs]. *)
Definition contains (x : json) (xs : list json) : bool :=
  existsb (fun y => eq y x) xs.

(** [repr(s)] of a text: between single quotes, or between double quotes
    when it has a single quote and no double quote; the quote, the
    backslash and the control characters of ASCII are escaped.  A
    character outside ASCII is shown as it is: of these Python escapes
    the ones it does not count as printable, which the model does not. *)
Definition has_char (c : ascii) (s : string) : bool :=
  existsb (Ascii.eqb c) (list_ascii_of_string s).

Definition repr_quote (s : string) : ascii :=
  if has_char "'" s && negb (has_char "034" s) then "034"%char else "'"%char.

Definition hex_char (n : N) : ascii :=
  ascii_of_N (if (n <? 10)%N then 48 + n else 87 + n)%N.

Definition repr_char (quote c : ascii) : string :=
  let n := N_of_ascii c in
  if Ascii.eqb c quote || Ascii.eqb c "\" then String "\" (String c "")
  else if (n =? 9)%N then "\t"
  else if (n =? 10)%N then "\n"
  else if (n =? 13)%N then "\r"
  else if (n <? 32)%N || (n =? 127)%N then
    String "\" (String "x" (String (hex_char (n / 16)) (String (hex_char (n mod 16)) "")))
  else String c "".

Definition repr_str (s : string) : string :=
  let quote := repr_quote s in
  String quote
    (fold_right (fun c acc => repr_char quote c ++ acc) (String quote "")
       (list_ascii_of_string s)).

(** [repr(v)] *)
Fixpoint repr (v : json) : string :=
  match v with
  | JNull => "None"
  | JBool true => "True"
  | JBool false => "False"
  | JNum n => NilZero.string_of_int (Z.to_int n)
  | JStr s => repr_str s
  | JList l =>
      "[" ++
      (fix repr_items (l : list json) : string :=
         match l with
         | [] => ""
         | x :: r =>
             repr x ++ match r with [] => "" | _ => ", " ++ repr_items r end
         end) l ++ "]"
  | JDict d =>
      "{" ++
      (fix repr_pairs (d : list (string * json)) : string :=
         match d with
         | [] => ""
         | (k, x) :: r =>
             repr_str k ++ ": " ++ repr x ++
             match r with [] => "" | _ => ", " ++ repr_pairs r end
         end) d ++ "}"
  end.

(** [str(v)], what an f-string shows for [v]. *)
Definition str (v : json) : string :=
  match v with
  | JStr s => s
  | _ => repr v
  end.

(** [v // k] for an integer constant [k]. *)
Definition floordiv (v : json) (k : Z) : result Z :=
  match v with
  | JNum n => Ok (n / k)
  | JBool b => Ok (bool_to_Z b / k)
  | _ => Raise TypeError
  end.

(** [v > 0] *)
Definition gt0 (v : json) : result bool :=
  match v with
  | JNum n => Ok (0 <? n)
  | JBool b => Ok b
  | _ => Raise TypeError
  end.

(** [v.append(x)]: only a list has the method. *)
Definition append (v : json) (x : json) : result json :=
  match v with
  | JList l => Ok (JList (l ++ [x]))
  | _ => Raise AttributeError
  end.

(** Iterating over [v] in a [for] or a comprehension. *)
Definition iter (v : json) : result (list json) :=
  match v with
  | JList l => Ok l
  | JDict d => Ok (map (fun kv => JStr (fst kv)) d)
  | JStr s => Ok (map JStr (chars s))
  | _ => Raise TypeError
  end.

End Py.

(** ** Result mapping: [MapInfo] *)

Record MapInfo : Type := {
  TrackID : json;
  Name : json;
  GbxMapName : json;
  Username : json;
  UserID : json;
  AuthorLogin : json;
  EnvironmentName : string;
  DifficultyName : string;
  VehicleName : json;
  MapType : json;
  TitlePack : json;
  Mood : json;
  Length : json;
  LengthName : string;
  AwardCount : json;
  CommentCount : json;
  DownloadCount : json;
  ReplayCount : json;
  TrackValue : json;
  ReplayWRTime : json;
  ReplayWRUsername : json;
  UploadedAt : json;
  UpdatedAt : json;
  HasThumbnail : json;
  HasImages : json;
  Downloadable : bool
}.

Definition environment_names : gmap Z string :=
  <[0 := "Stadium"]> (<[1 := "Snow"]> (<[2 := "Rally"]> (<[3 := "Desert"]> ∅))).

Definition difficulty_names : gmap Z string :=
  <[0 := "Beginner"]> (<[1 := "Intermediate"]> (<[2 := "Advanced"]>
    (<[3 := "Expert"]> (<[4 := "Expert+"]> ∅)))).

Definition enum_map (enum_type : string) : option (gmap Z string) :=
  if String.eqb enum_type "environment" then Some environment_names
  else if String.eqb enum_type "difficulty" then Some difficulty_names
  else None.

(** The key under which [value] is looked up in a dict with integer keys:
    hashing a list or a dict raises, [None] and strings match no key. *)
Definition enum_key (value : json) : result (option Z) :=
  match value with
  | JNum n => Ok (Some n)
  | JBool b => Ok (Some (Py.bool_to_Z b))
  | JNull | JStr _ => Ok None
  | JList _ | JDict _ => Raise TypeError
  end.

Definition get_enum_name (value : json) (enum_type : string) : result string :=
  match enum_map enum_type with
  | Some table =>
      k <- enum_key value ;;
      match k ≫= (λ n, table !! n) with
      | Some name => Ok name
      | None => Ok (Py.str value)
      end
  | None => Ok (Py.str value)
  end.

Definition get_length_name (length_ms : json) : result string :=
  if Py.eq length_ms (JNum 0) then Ok "0-30 sec"
  else
    seconds <- Py.floordiv length_ms 1000 ;;
    if seconds <? 30 then Ok "0-30 sec"
    else if seconds <? 60 then Ok "30-60 sec"
    else if seconds <? 120 then Ok "1-2 min"
    else if seconds <? 300 then Ok "2-5 min"
    else Ok "5+ min".

(** The name and the id read from [uploader = json_data.get("Uploader", {})],
    each guarded by [isinstance(uploader, dict)]. *)
Definition uploader_name (uploader : json) : json :=
  match uploader with
  | JDict d => match Py.dict_lookup "Name" d with Some x => x | None => JStr "" end
  | _ => JStr ""
  end.

Definition uploader_id (uploader : json) : json :=
  match uploader with
  | JDict d => match Py.dict_lookup "UserId" d with Some x => x | None => JNull end
  | _ => JNull
  end.

(** [self.AuthorLogin] from [authors = json_data.get("Authors", [])]: the
    first element is asked for its ["User"] without a check of its type. *)
Definition author_login (authors : json) : result json :=
  if Py.truthy authors then
    n <- Py.len authors ;;
    if 0 <? n then
      first <- Py.getitem0 authors ;;
      author_user <- Py.get first "User" (JDict []) ;;
      if Py.isinstance_dict author_user
      then Py.get author_user "Name" (JStr "")
      else Ok (JStr "")
    else Ok (JStr "")
  else Ok (JStr "").

(** [self.ReplayWRTime] and [self.ReplayWRUsername] from
    [online_wr = json_data.get("OnlineWR", {})]. *)
Definition world_record (online_wr : json) : json * json :=
  match online_wr with
  | JDict d =>
      (match Py.dict_lookup "RecordTime" d with Some t => t | None => JNum 0 end,
       match Py.dict_lookup "User" d with
       | Some (JDict u) =>
           match Py.dict_lookup "Name" u with Some x => x | None => JStr "" end
       | Some _ => JStr ""
       | None => JStr ""
       end)
  | _ => (JNum 0, JStr "")
  end.

(** [MapInfo.__init__].  The final [print] has no effect on the record. *)
Definition MapInfo_init (json_data : json) : result MapInfo :=
  track_id <- Py.get json_data "MapId" JNull ;;
  name <- Py.get json_data "Name" (JStr "") ;;
  gbx <- Py.get json_data "GbxMapName" (JStr "") ;;
  uploader <- Py.get json_data "Uploader" (JDict []) ;;
  authors <- Py.get json_data "Authors" (JList []) ;;
  login <- author_login authors ;;
  env_raw <- Py.get json_data "Environment" JNull ;;
  env_name <- get_enum_name env_raw "environment" ;;
  diff_raw <- Py.get json_data "Difficulty" JNull ;;
  diff_name <- get_enum_name diff_raw "difficulty" ;;
  vehicle <- Py.get json_data "VehicleName" (JStr "") ;;
  map_type <- Py.get json_data "MapType" (JStr "") ;;
  title_pack <- Py.get json_data "TitlePack" (JStr "") ;;
  mood <- Py.get json_data "Mood" (JStr "") ;;
  len <- Py.get json_data "Length" (JNum 0) ;;
  len_name <- get_length_name len ;;
  awards <- Py.get json_data "AwardCount" (JNum 0) ;;
  comments <- Py.get json_data "CommentCount" (JNum 0) ;;
  downloads <- Py.get json_data "DownloadCount" (JNum 0) ;;
  replays <- Py.get json_data "ReplayCount" (JNum 0) ;;
  track_value <- Py.get json_data "TrackValue" (JNum 0) ;;
  online_wr <- Py.get json_data "OnlineWR" (JDict []) ;;
  uploaded <- Py.get json_data "UploadedAt" (JStr "") ;;
  updated <- Py.get json_data "UpdatedAt" (JStr "") ;;
  has_thumb <- Py.get json_data "HasThumbnail" (JBool false) ;;
  has_images <- Py.get json_data "HasImages" (JBool false) ;;
  Ok {| TrackID := track_id; Name := name; GbxMapName := gbx;
        Username := uploader_name uploader; UserID := uploader_id uploader;
        AuthorLogin := login;
        EnvironmentName := env_name; DifficultyName := diff_name;
        VehicleName := vehicle; MapType := map_type; TitlePack := title_pack;
        Mood := mood; Length := len; LengthName := len_name;
        AwardCount := awards; CommentCount := comments;
        DownloadCount := downloads; ReplayCount := replays;
        TrackValue := track_value;
        ReplayWRTime := fst (world_record online_wr);
        ReplayWRUsername := snd (world_record online_wr);
        UploadedAt := uploaded; UpdatedAt := updated;
        HasThumbnail := has_thumb; HasImages := has_images;
        Downloadable := true |}.

(** What [SearchWorker.run] does with a decoded response: a dict with a
    ["Results"] member yields one [MapInfo] per element, anything else the
    empty list. *)
Fixpoint map_results (ms : list json) : result (list MapInfo) :=
  match ms with
  | [] => Ok []
  | m :: rest =>
      info <- MapInfo_init m ;;
      infos <- map_results rest ;;
      Ok (info :: infos)
  end.

Definition search_results (data : json) : result (list MapInfo) :=
  match data with
  | JDict d =>
      match Py.dict_lookup "Results" d with
      | Some results => ms <- Py.iter results ;; map_results ms
      | None => Ok []
      end
  | _ => Ok []
  end.

(** ** Query builder: [search_browse] and [SearchWorker.run] *)

Definition COMMON_FIELDS : list string :=
  ["MapId"; "Name"; "GbxMapName"; "Uploader.UserId"; "Uploader.Name";
   "Environment"; "Difficulty"; "Length"; "Vehicle"; "MapType";
   "CommentCount"; "DownloadCount"; "ReplayCount"; "AwardCount";
   "UploadedAt"; "UpdatedAt"; "ActivityAt"; "HasThumbnail";
   "HasImages"; "TrackValue"; "OnlineWR"; "TitlePack";
   "Style"; "Mood"; "Routes"; "Type"; "Authors"; "Tags"].

(** [sep.join(parts)] *)
Fixpoint join (sep : string) (parts : list string) : string :=
  match parts with
  | [] => ""
  | [p] => p
  | p :: rest => p ++ sep ++ join sep rest
  end.

(** The bytes of a code point: UTF-8, extended to the surrogate code
    units. *)
Definition utf8 (cp : N) : string :=
  if (cp <? 128)%N then String (ascii_of_N cp) ""
  else if (cp <? 2048)%N then
    String (ascii_of_N (192 + cp / 64))
      (String (ascii_of_N (128 + cp mod 64)) "")
  else if (cp <? 65536)%N then
    String (ascii_of_N (224 + cp / 4096))
      (String (ascii_of_N (128 + (cp / 64) mod 64))
         (String (ascii_of_N (128 + cp mod 64)) ""))
  else
    String (ascii_of_N (240 + cp / 262144))
      (String (ascii_of_N (128 + (cp / 4096) mod 64))
         (String (ascii_of_N (128 + (cp / 64) mod 64))
            (String (ascii_of_N (128 + cp mod 64)) ""))).

(** The code points [str.isspace] holds for; [str.strip()] removes these
    characters: the ASCII ones, U+0085, U+00A0, U+1680, U+2000 to U+200A,
    U+2028, U+2029, U+202F, U+205F and U+3000. *)
Definition whitespace : list N :=
  [9; 10; 11; 12; 13; 28; 29; 30; 31; 32; 133; 160; 5760;
   8192; 8193; 8194; 8195; 8196; 8197; 8198; 8199; 8200; 8201; 8202;
   8232; 8233; 8239; 8287; 12288]%N.

(** [w] is one whitespace character. *)
Definition is_space (w : string) : bool :=
  existsb (String.eqb w) (map utf8 whitespace).

(** [s.lstrip()]: a whitespace character has one, two or three bytes. *)
Fixpoint lstrip (s : string) : string :=
  match s with
  | String a r =>
      if is_space (String a "") then lstrip r
      else
        match r with
        | String b r2 =>
            if is_space (String a (String b "")) then lstrip r2
            else
              match r2 with
              | String c r3 =>
                  if is_space (String a (String b (String c ""))) then lstrip r3 else s
              | EmptyString => s
              end
        | EmptyString => s
        end
  | EmptyString => EmptyString
  end.

(** [s.rstrip()]: what is kept of [s] does not end with a whitespace
    character. *)
Fixpoint rstrip (s : string) : string :=
  match s with
  | EmptyString => EmptyString
  | String c r =>
      let kept := String c (rstrip r) in
      if is_space kept then EmptyString else kept
  end.

Definition strip (s : string) : string := rstrip (lstrip s).

(** What a UTF-8 decoder expects next: the start of a character, one, two
    or three continuation bytes, or the second byte of a character whose
    first byte narrows it ([E0]: no overlong form, [ED]: no surrogate,
    [F0]: no overlong form, [F4]: nothing past U+10FFFF). *)
Inductive utf8_state : Type :=
| Start
| Cont1
| Cont2
| Cont3
| AfterE0
| AfterED
| AfterF0
| AfterF4
| Invalid.

Definition utf8_step (st : utf8_state) (c : ascii) : utf8_state :=
  let n := N_of_ascii c in
  let between (lo hi : N) := ((lo <=? n) && (n <=? hi))%N in
  match st with
  | Start =>
      if (n <? 128)%N then Start
      else if between 194%N 223%N then Cont1
      else if (n =? 224)%N then AfterE0
      else if (n =? 237)%N then AfterED
      else if between 225%N 239%N then Cont2
      else if (n =? 240)%N then AfterF0
      else if between 241%N 243%N then Cont3
      else if (n =? 244)%N then AfterF4
      else Invalid
  | Cont1 => if between 128%N 191%N then Start else Invalid
  | Cont2 => if between 128%N 191%N then Cont1 else Invalid
  | Cont3 => if between 128%N 191%N then Cont2 else Invalid
  | AfterE0 => if between 160%N 191%N then Cont1 else Invalid
  | AfterED => if between 128%N 159%N then Cont1 else Invalid
  | AfterF0 => if between 144%N 191%N then Cont2 else Invalid
  | AfterF4 => if between 128%N 143%N then Cont2 else Invalid
  | Invalid => Invalid
  end.

Fixpoint utf8_run (st : utf8_state) (s : string) : utf8_state :=
  match s with
  | EmptyString => st
  | String c r => utf8_run (utf8_step st c) r
  end.

(** The bytes are UTF-8: the text of a [str] that holds no lone surrogate,
    which is what the codec [utf-8] encodes and what it decodes. *)
Definition valid_utf8 (s : string) : bool :=
  match utf8_run Start s with
  | Start => true
  | _ => false
  end.

(** A [QSpinBox]: Qt keeps the value inside the range, on [setRange] and on
    every [setValue] (typed input is validated against the same range). *)
Record QSpinBox : Type := {
  sb_minimum : Z;
  sb_maximum : Z;
  sb_value : Z
}.

Definition qBound (lo v hi : Z) : Z := Z.max lo (Z.min hi v).

Definition QSpinBox_new : QSpinBox :=
  {| sb_minimum := 0; sb_maximum := 99; sb_value := 0 |}.

Definition QSpinBox_setRange (lo hi : Z) (sb : QSpinBox) : QSpinBox :=
  let hi' := Z.max lo hi in
  {| sb_minimum := lo; sb_maximum := hi'; sb_value := qBound lo (sb_value sb) hi' |}.

Definition QSpinBox_setValue (v : Z) (sb : QSpinBox) : QSpinBox :=
  {| sb_minimum := sb_minimum sb; sb_maximum := sb_maximum sb;
     sb_value := qBound (sb_minimum sb) v (sb_maximum sb) |}.

(** The limit spin box as [create_browse_tab] sets it up, for a configured
    [DEFAULT_LIMIT]. *)
Definition create_limit_spin (DEFAULT_LIMIT : Z) : QSpinBox :=
  QSpinBox_setValue DEFAULT_LIMIT (QSpinBox_setRange 10 100 QSpinBox_new).

(** The filter widgets of the browse tab that [search_browse] reads: the
    text of the two line edits, the current text of the four combo boxes
    and the limit spin box. *)
Record SearchFilters : Type := {
  name_input : string;
  author_input : string;
  sort_combo : string;
  env_combo : string;
  difficulty_combo : string;
  length_combo : string;
  limit_spin : QSpinBox
}.

Definition sort_options : gmap string Z :=
  list_to_map
    [("Uploaded (Newest)", 6); ("Uploaded (Oldest)", 5); ("Updated (Newest)", 8);
     ("Name (A-Z)", 1); ("Name (Z-A)", 2);
     ("Awards (Most)", 12); ("Awards (Least)", 11);
     ("Difficulty (Hardest)", 16); ("Difficulty (Easiest)", 15);
     ("Length (Longest)", 18); ("Length (Shortest)", 17);
     ("Downloads (Most)", 20); ("Downloads (Least)", 19);
     ("Rating (Most)", 30); ("Rating (Least)", 29)].

(** The items of the combo boxes, in the order [create_browse_tab] adds
    them; a combo box is not editable, its current text is one of them. *)
Definition sort_items : list string :=
  ["Uploaded (Newest)"; "Uploaded (Oldest)"; "Updated (Newest)";
   "Name (A-Z)"; "Name (Z-A)"; "Awards (Most)"; "Awards (Least)";
   "Difficulty (Hardest)"; "Difficulty (Easiest)";
   "Length (Longest)"; "Length (Shortest)";
   "Downloads (Most)"; "Downloads (Least)"; "Rating (Most)"; "Rating (Least)"].
Definition env_items : list string := ["All"; "Stadium"; "Snow"; "Rally"; "Desert"].
Definition difficulty_items : list string :=
  ["All"; "Beginner"; "Intermediate"; "Advanced"; "Expert"].
Definition length_items : list string :=
  ["All"; "0-30 sec"; "30-60 sec"; "1-2 min"; "2-5 min"; "5+ min"].

Definition env_map : gmap string Z :=
  list_to_map [("Stadium", 0); ("Snow", 1); ("Rally", 2); ("Desert", 3)].

Definition diff_map : gmap string Z :=
  list_to_map [("Beginner", 0); ("Intermediate", 1); ("Advanced", 2); ("Expert", 3)].

Definition length_map : gmap string (Z * Z) :=
  list_to_map
    [("0-30 sec", (0, 30000)); ("30-60 sec", (30000, 60000));
     ("1-2 min", (60000, 120000)); ("2-5 min", (120000, 300000));
     ("5+ min", (300000, 999999999))].

(** The [params] dict at the end of [search_browse]. *)
Definition search_browse (f : SearchFilters) : gmap string json :=
  let params : gmap string json := ∅ in
  let name := strip (name_input f) in
  let params := if String.eqb name "" then params else <["name" := JStr name]> params in
  let author := strip (author_input f) in
  let params :=
    if String.eqb author "" then params else <["author" := JStr author]> params in
  let params :=
    match sort_options !! sort_combo f with
    | Some o => <["order1" := JNum o]> params
    | None => params
    end in
  let params :=
    if String.eqb (env_combo f) "All" then params
    else match env_map !! env_combo f with
         | Some e => <["environment" := JNum e]> params
         | None => params
         end in
  let params :=
    if String.eqb (difficulty_combo f) "All" then params
    else match diff_map !! difficulty_combo f with
         | Some d => <["difficulty" := JNum d]> params
         | None => params
         end in
  let params :=
    if String.eqb (length_combo f) "All" then params
    else match length_map !! length_combo f with
         | Some (min_len, max_len) =>
             <["lengthmax" := JNum max_len]> (<["lengthmin" := JNum min_len]> params)
         | None => params
         end in
  <["count" := JNum (sb_value (limit_spin f))]> params.

(** The query [SearchWorker.run] sends: the params with the projection. *)
Definition search_query (f : SearchFilters) : gmap string json :=
  <["fields" := JStr (join "," COMMON_FIELDS)]> (search_browse f).

(** The states of the limit spin box: set up by [create_browse_tab], then
    changed by the user, which is a [setValue]. *)
Inductive LimitSpin : QSpinBox -> Prop :=
| LimitSpin_created (DEFAULT_LIMIT : Z) : LimitSpin (create_limit_spin DEFAULT_LIMIT)
| LimitSpin_changed (v : Z) (sb : QSpinBox) :
    LimitSpin sb -> LimitSpin (QSpinBox_setValue v sb).

(** The filter keys of a query, as opposed to the projection, the count
    and the sort order. *)
Definition filter_keys : list string :=
  ["name"; "author"; "environment"; "difficulty"; "lengthmin"; "lengthmax"].

(** The browse tab as the window opens it. *)
Definition default_filters (DEFAULT_LIMIT : Z) : SearchFilters :=
  {| name_input := ""; author_input := ""; sort_combo := "Uploaded (Newest)";
     env_combo := "All"; difficulty_combo := "All"; length_combo := "All";
     limit_spin := create_limit_spin DEFAULT_LIMIT |}.

(** ** The JSON codec of the favorites file

    [json.dump(obj, f, indent=2, ensure_ascii=False)] and [json.load(f)] of
    Python's standard library, on the values of [json].  The decoder
    rejects what the model has no value for: numbers with a fraction or an
    exponent and the constants [NaN] and [Infinity].  The limits of the
    interpreter (the depth of recursion, the 4300 digits of an integer
    literal) are not part of the decoder. *)

Module Json.

Definition dquote : ascii := "034"%char.
Definition backslash : ascii := "\"%char.
Definition newline : ascii := "010"%char.

Fixpoint spaces (n : nat) : string :=
  match n with
  | O => ""
  | S n' => String " " (spaces n')
  end.

(** The newline and indentation that precede an item at nesting [lvl]. *)
Definition nl (lvl : nat) : string := String newline (spaces (2 * lvl)).

Definition hex_digit (n : N) : ascii :=
  ascii_of_N (if (n <? 10)%N then 48 + n else 87 + n)%N.

(** The replacement of one character inside a string literal
    ([ESCAPE_DCT] of [json.encoder], used when [ensure_ascii] is false). *)
Definition escape_char (c : ascii) : string :=
  let n := N_of_ascii c in
  if (n =? 34)%N then String backslash (String dquote "")
  else if (n =? 92)%N then String backslash (String backslash "")
  else if (n =? 10)%N then String backslash "n"
  else if (n =? 13)%N then String backslash "r"
  else if (n =? 9)%N then String backslash "t"
  else if (n =? 8)%N then String backslash "b"
  else if (n =? 12)%N then String backslash "f"
  else if (n <? 32)%N then
    String backslash
      (String "u" (String "0" (String "0"
         (String (hex_digit (n / 16)) (String (hex_digit (n mod 16)) "")))))
  else String c "".

Fixpoint escape (s : string) : string :=
  match s with
  | EmptyString => ""
  | String c r => escape_char c ++ escape r
  end.

Definition encode_basestring (s : string) : string :=
  String dquote (escape s ++ String dquote "").

Definition int_str (n : Z) : string := NilZero.string_of_int (Z.to_int n).

(** The text of [v] when it starts at nesting level [lvl]. *)
Fixpoint encode (lvl : nat) (v : json) : string :=
  match v with
  | JNull => "null"
  | JBool true => "true"
  | JBool false => "false"
  | JNum n => int_str n
  | JStr s => encode_basestring s
  | JList [] => "[]"
  | JList l =>
      "[" ++ nl (S lvl) ++
      join ("," ++ nl (S lvl)) (map (encode (S lvl)) l) ++
      nl lvl ++ "]"
  | JDict [] => "{}"
  | JDict d =>
      "{" ++ nl (S lvl) ++
      join ("," ++ nl (S lvl))
        (map (fun kv => match kv with
                        | (k, x) => encode_basestring k ++ ": " ++ encode (S lvl) x
                        end) d) ++
      nl lvl ++ "}"
  end.

Definition dumps (v : json) : string := encode 0 v.

(** [int.__repr__(n)]: an integer of more than 4300 digits is not
    converted ([sys.int_info.default_max_str_digits]). *)
Definition intstr (n : Z) : result string :=
  if (4300 <? String.length (int_str (Z.abs n)))%nat then Raise ValueError
  else Ok (int_str n).

(** The text of a value that is neither a list nor a dict. *)
Definition scalar_chunk (v : json) : option (result string) :=
  match v with
  | JNull => Some (Ok "null")
  | JBool true => Some (Ok "true")
  | JBool false => Some (Ok "false")
  | JNum n => Some (intstr n)
  | JStr s => Some (Ok (encode_basestring s))
  | JList _ | JDict _ => None
  end.

Definition glue (buf : string) (c : result string) : result string :=
  match c with
  | Ok text => Ok (buf ++ text)
  | Raise e => Raise e
  end.

(** The chunks the encoder yields, in order ([_make_iterencode] with
    [indent=2]); [json.dump] writes each to the file as it comes.  In a
    list the bracket or the separator is one chunk with the element that
    follows it, unless that is a list or a dict; in a dict the separator,
    the key, the colon and the value are chunks of their own.  A chunk that
    cannot be made is the exception. *)
Fixpoint iterencode (lvl : nat) (v : json) : list (result string) :=
  match v with
  | JList [] => [Ok "[]"]
  | JList (x :: r) =>
      let elem (buf : string) (x : json) :=
        match scalar_chunk x with
        | Some c => [glue buf c]
        | None => Ok buf :: iterencode (S lvl) x
        end in
      elem ("[" ++ nl (S lvl)) x ++ flat_map (elem ("," ++ nl (S lvl))) r ++
      [Ok (nl lvl); Ok "]"]
  | JDict [] => [Ok "{}"]
  | JDict ((k, x) :: r) =>
      Ok "{" :: Ok (nl (S lvl)) ::
      (Ok (encode_basestring k) :: Ok ": " :: iterencode (S lvl) x) ++
      flat_map (fun kv => Ok ("," ++ nl (S lvl)) ::
                          match kv with
                          | (k, x) =>
                              Ok (encode_basestring k) :: Ok ": " :: iterencode (S lvl) x
                          end) r ++
      [Ok (nl lvl); Ok "}"]
  | JNull => [Ok "null"]
  | JBool true => [Ok "true"]
  | JBool false => [Ok "false"]
  | JNum n => [intstr n]
  | JStr s => [Ok (encode_basestring s)]
  end.

(** *** Decoder *)

Definition is_ws (c : ascii) : bool :=
  let n := N_of_ascii c in
  ((n =? 32) || (n =? 10) || (n =? 13) || (n =? 9))%N.

Fixpoint skip_ws (s : string) : string :=
  match s with
  | String c r => if is_ws c then skip_ws r else s
  | EmptyString => EmptyString
  end.

Definition is_digit (c : ascii) : bool :=
  let n := N_of_ascii c in ((48 <=? n) && (n <=? 57))%N.

Definition hex_value (c : ascii) : option N :=
  let n := N_of_ascii c in
  if ((48 <=? n) && (n <=? 57))%N then Some (n - 48)%N
  else if ((97 <=? n) && (n <=? 102))%N then Some (n - 87)%N
  else if ((65 <=? n) && (n <=? 70))%N then Some (n - 55)%N
  else None.

Definition hex4 (a b c d : ascii) : option N :=
  match hex_value a, hex_value b, hex_value c, hex_value d with
  | Some x, Some y, Some z, Some w => Some (((x * 16 + y) * 16 + z) * 16 + w)%N
  | _, _, _, _ => None
  end.

(** The code units of a surrogate pair and the code point they stand
    for. *)
Definition high_surrogate (cp : N) : bool := ((55296 <=? cp) && (cp <=? 56319))%N.
Definition low_surrogate (cp : N) : bool := ((56320 <=? cp) && (cp <=? 57343))%N.
Definition join_surrogates (hi lo : N) : N :=
  (65536 + ((hi - 55296) * 1024 + (lo - 56320)))%N.

Definition unescape_simple (e : ascii) : option ascii :=
  let n := N_of_ascii e in
  if (n =? 34)%N then Some dquote
  else if (n =? 92)%N then Some backslash
  else if (n =? 47)%N then Some "/"%char
  else if (n =? 98)%N then Some "008"%char
  else if (n =? 102)%N then Some "012"%char
  else if (n =? 110)%N then Some "010"%char
  else if (n =? 114)%N then Some "013"%char
  else if (n =? 116)%N then Some "009"%char
  else None.

Definition prepend (p : string) (r : option (string * string)) : option (string * string) :=
  match r with
  | Some (s, rest) => Some (p ++ s, rest)
  | None => None
  end.

(** The body of a string literal, after its opening quote: the decoded
    text and what follows the closing quote. *)
Fixpoint parse_string_body (s : string) : option (string * string) :=
  match s with
  | EmptyString => None
  | String c r =>
      if Ascii.eqb c dquote then Some ("", r)
      else if Ascii.eqb c backslash then
        match r with
        | EmptyString => None
        | String e r' =>
            if Ascii.eqb e "u" then
              match r' with
              | String h1 (String h2 (String h3 (String h4 r''))) =>
                  match hex4 h1 h2 h3 h4 with
                  | Some cp =>
                      if high_surrogate cp then
                        (* a low surrogate escaped right after it makes
                           one character of the two *)
                        match r'' with
                        | String b (String u (String g1 (String g2 (String g3
                            (String g4 r3))))) =>
                            if Ascii.eqb b backslash && Ascii.eqb u "u" then
                              match hex4 g1 g2 g3 g4 with
                              | Some cp2 =>
                                  if low_surrogate cp2
                                  then prepend (utf8 (join_surrogates cp cp2))
                                         (parse_string_body r3)
                                  else prepend (utf8 cp) (parse_string_body r'')
                              | None => None
                              end
                            else prepend (utf8 cp) (parse_string_body r'')
                        | _ => prepend (utf8 cp) (parse_string_body r'')
                        end
                      else prepend (utf8 cp) (parse_string_body r'')
                  | None => None
                  end
              | _ => None
              end
            else
              match unescape_simple e with
              | Some ch => prepend (String ch "") (parse_string_body r')
              | None => None
              end
        end
      else if (N_of_ascii c <? 32)%N then None
      else prepend (String c "") (parse_string_body r)
  end.

Fixpoint span_digits (s : string) : string * string :=
  match s with
  | String c r =>
      if is_digit c then let '(ds, rest) := span_digits r in (String c ds, rest)
      else ("", s)
  | EmptyString => ("", "")
  end.

Definition starts_fraction (s : string) : bool :=
  match s with
  | String c _ => Ascii.eqb c "." || Ascii.eqb c "e" || Ascii.eqb c "E"
  | EmptyString => false
  end.

(** The digits of an integer literal: [0], or digits that do not start
    with [0]; a fraction or an exponent after them makes a float. *)
Definition parse_digits (s : string) : option (Z * string) :=
  let '(ds, rest) := span_digits s in
  match ds with
  | EmptyString => None
  | String d ds' =>
      if Ascii.eqb d "0" && negb (String.eqb ds' "") then None
      else if starts_fraction rest then None
      else
        match NilEmpty.uint_of_string ds with
        | Some u => Some (Z.of_uint u, rest)
        | None => None
        end
  end.

Definition parse_number (s : string) : option (Z * string) :=
  match s with
  | String c r =>
      if Ascii.eqb c "-" then
        match parse_digits r with
        | Some (n, rest) => Some (- n, rest)
        | None => None
        end
      else parse_digits s
  | EmptyString => None
  end.

(** What follows the literal [p] at the start of [s]. *)
Fixpoint strip_prefix (p s : string) : option string :=
  match p with
  | EmptyString => Some s
  | String a p' =>
      match s with
      | String b s' => if Ascii.eqb a b then strip_prefix p' s' else None
      | EmptyString => None
      end
  end.

(** [d[k] = v] on the association list of a dict. *)
Fixpoint dict_set (k : string) (v : json) (d : list (string * json)) : list (string * json) :=
  match d with
  | [] => [(k, v)]
  | (k', v') :: r => if String.eqb k' k then (k', v) :: r else (k', v') :: dict_set k v r
  end.

(** The dict built from the members of an object, in reading order. *)
Definition dict_of_pairs (ms : list (string * json)) : list (string * json) :=
  fold_left (fun d kv => dict_set (fst kv) (snd kv) d) ms [].

Fixpoint parse_value (fuel : nat) (s : string) : option (json * string) :=
  match fuel with
  | O => None
  | S f =>
      match skip_ws s with
      | EmptyString => None
      | String c r =>
          if Ascii.eqb c "[" then
            match skip_ws r with
            | String c' r' =>
                if Ascii.eqb c' "]" then Some (JList [], r')
                else match parse_elems f (String c' r') with
                     | Some (l, rest) => Some (JList l, rest)
                     | None => None
                     end
            | EmptyString => None
            end
          else if Ascii.eqb c "{" then
            match skip_ws r with
            | String c' r' =>
                if Ascii.eqb c' "}" then Some (JDict [], r')
                else match parse_members f (String c' r') with
                     | Some (ms, rest) => Some (JDict (dict_of_pairs ms), rest)
                     | None => None
                     end
            | EmptyString => None
            end
          else if Ascii.eqb c dquote then
            match parse_string_body r with
            | Some (t, rest) => Some (JStr t, rest)
            | None => None
            end
          else if Ascii.eqb c "n" then
            match strip_prefix "ull" r with
            | Some rest => Some (JNull, rest)
            | None => None
            end
          else if Ascii.eqb c "t" then
            match strip_prefix "rue" r with
            | Some rest => Some (JBool true, rest)
            | None => None
            end
          else if Ascii.eqb c "f" then
            match strip_prefix "alse" r with
            | Some rest => Some (JBool false, rest)
            | None => None
            end
          else
            match parse_number (String c r) with
            | Some (n, rest) => Some (JNum n, rest)
            | None => None
            end
      end
  end
with parse_elems (fuel : nat) (s : string) : option (list json * string) :=
  match fuel with
  | O => None
  | S f =>
      match parse_value f s with
      | Some (v, r) =>
          match skip_ws r with
          | String c r' =>
              if Ascii.eqb c "," then
                match parse_elems f r' with
                | Some (l, rest) => Some (v :: l, rest)
                | None => None
                end
              else if Ascii.eqb c "]" then Some ([v], r')
              else None
          | EmptyString => None
          end
      | None => None
      end
  end
with parse_members (fuel : nat) (s : string) : option (list (string * json) * string) :=
  match fuel with
  | O => None
  | S f =>
      match skip_ws s with
      | String q r =>
          if Ascii.eqb q dquote then
            match parse_string_body r with
            | Some (k, r1) =>
                match skip_ws r1 with
                | String c r2 =>
                    if Ascii.eqb c ":" then
                      match parse_value f r2 with
                      | Some (v, r3) =>
                          match skip_ws r3 with
                          | String c' r4 =>
                              if Ascii.eqb c' "," then
                                match parse_members f r4 with
                                | Some (ms, rest) => Some ((k, v) :: ms, rest)
                                | None => None
                                end
                              else if Ascii.eqb c' "}" then Some ([(k, v)], r4)
                              else None
                          | EmptyString => None
                          end
                      | None => None
                      end
                    else None
                | EmptyString => None
                end
            | None => None
            end
          else None
      | EmptyString => None
      end
  end.

(** [json.loads]: one value, then nothing but whitespace.  The text is
    longer than any nesting it can hold, so its length is fuel enough. *)
Definition loads (s : string) : result json :=
  match parse_value (S (String.length s)) s with
  | Some (v, rest) =>
      match skip_ws rest with
      | EmptyString => Ok v
      | _ => Raise JSONDecodeError
      end
  | None => Raise JSONDecodeError
  end.

End Json.

(** Keys pairwise distinct in every dict of [v]: what every Python value
    satisfies. *)
Fixpoint distinct (ks : list string) : bool :=
  match ks with
  | [] => true
  | k :: r => negb (existsb (String.eqb k) r) && distinct r
  end.

Fixpoint json_wf (v : json) : bool :=
  match v with
  | JList l => forallb json_wf l
  | JDict d =>
      distinct (map fst d) &&
      forallb (fun kv => match kv with (_, x) => json_wf x end) d
  | _ => true
  end.

(** What [json.dump] can write to the UTF-8 file: no string with a lone
    surrogate, no integer of more than 4300 digits. *)
Fixpoint encodable (v : json) : bool :=
  match v with
  | JNum n => is_ok (Json.intstr n)
  | JStr s => valid_utf8 s
  | JList l => forallb encodable l
  | JDict d =>
      forallb (fun kv => match kv with (k, x) => valid_utf8 k && encodable x end) d
  | _ => true
  end.

(** How deep the lists and dicts of [v] are nested. *)
Fixpoint nesting (v : json) : nat :=
  match v with
  | JList l => S (list_max (map nesting l))
  | JDict d => S (list_max (map (fun kv => match kv with (_, x) => nesting x end) d))
  | _ => O
  end.

(** Nested far less deeply than the recursion limit of the interpreter
    allows; the encoder and the decoder of the model have no such limit. *)
Definition shallow (v : json) : bool := (nesting v <=? 100)%nat.

(** Nodes of [v], the recursion depth the decoder needs for its text. *)
Fixpoint size (v : json) : nat :=
  match v with
  | JList l => S (list_sum (map (fun x => S (size x)) l))
  | JDict d => S (list_sum (map (fun kv => match kv with (_, x) => S (size x) end) d))
  | _ => 1%nat
  end.

(** ** [MappackInfo] *)

Record MappackInfo : Type := {
  ID : json;
  PackName : json;
  PackUsername : json;
  TrackCount : json;
  Description : json;
  PackDownloadCount : json
}.

(** [MappackInfo.__init__]; the fields [Name], [Username] and
    [DownloadCount] of the class carry the prefix [Pack] here. *)
Definition MappackInfo_init (json_data : json) : result MappackInfo :=
  id <- Py.get json_data "MappackId" JNull ;;
  name <- Py.get json_data "Name" (JStr "") ;;
  owner <- Py.get json_data "Owner" (JDict []) ;;
  track_count <- Py.get json_data "TrackCount" (JNum 0) ;;
  description <- Py.get json_data "Description" (JStr "") ;;
  downloads <- Py.get json_data "DownloadCount" (JNum 0) ;;
  Ok {| ID := id; PackName := name; PackUsername := uploader_name owner;
        TrackCount := track_count; Description := description;
        PackDownloadCount := downloads |}.

(** ** The favorites store: [Config] *)

(** The dict [{"maps": ..., "mappacks": ...}] that [Config.load_favorites]
    returns and the window keeps in [self.favorites]. *)
Record Favorites : Type := {
  fav_maps : json;
  fav_mappacks : json
}.

Definition favorites_json (favs : Favorites) : json :=
  JDict [("maps", fav_maps favs); ("mappacks", fav_mappacks favs)].

Definition empty_favorites : Favorites :=
  {| fav_maps := JList []; fav_mappacks := JList [] |}.

(** Lines the store prints on the console. *)
Inductive log_line : Type :=
| FavoritesSaved              (* [CONFIG] Favorites saved *)
| FavoritesSavingError (e : exn)   (* [ERROR] Favorites saving error: e *)
| FavoritesLoadingError (e : exn). (* [ERROR] Favorites loading error: e *)

(** What is outside the process: the bytes of [FAVORITES_FILE], [None]
    when there is no such file, and the console.  Opening the file and
    writing to it succeed in this model unless a fault is injected or the
    text cannot be encoded. *)
Record World : Type := {
  favorites_file : option string;
  console : list log_line
}.

Definition print (line : log_line) (w : World) : World :=
  {| favorites_file := favorites_file w; console := console w ++ [line] |}.

(** [open(FAVORITES_FILE, 'w')]: the file exists and is empty from here. *)
Definition open_w (w : World) : World :=
  {| favorites_file := Some ""; console := console w |}.

(** [f.write(text)] on the file opened for writing. *)
Definition file_write (text : string) (w : World) : World :=
  {| favorites_file :=
       Some (match favorites_file w with Some old => old ++ text | None => text end);
     console := console w |}.

(** [json.dump(obj, f, indent=2, ensure_ascii=False)]: the encoder's text
    goes to the file piece by piece.  [fault = Some k] is a run in which an
    exception is raised once [k] characters are written, if the text is
    longer than that; [None] is a run without failure. *)
Definition json_dump (fault : option nat) (obj : json) (w : World) : World * option exn :=
  let text := Json.dumps obj in
  match fault with
  | Some k =>
      if (k <? String.length text)%nat
      then (file_write (String.substring 0 k text) w, Some OSError)
      else (file_write text w, None)
  | None => (file_write text w, None)
  end.

(** [Config.save_favorites], in a run with the given fault. *)
Definition save_favorites_with (fault : option nat) (favs : Favorites) (w : World) : World :=
  let w1 := open_w w in
  let '(w2, failure) := json_dump fault (favorites_json favs) w1 in
  match failure with
  | None => print FavoritesSaved w2
  | Some e => print (FavoritesSavingError e) w2
  end.

(** [Config.save_favorites] when nothing fails: the disk does not, and
    the store can be encoded ([save_favorites_utf8] below is the same
    function then, and says what happens otherwise). *)
Definition save_favorites (favs : Favorites) (w : World) : World :=
  save_favorites_with None favs w.

(** [fp.write(chunk)] for the chunks of [json.dump], one after the other:
    the file encodes what it is given, and a chunk with a lone surrogate
    makes [write] raise, as a chunk that cannot be made makes the encoder
    raise; what was written before stays in the file. *)
Fixpoint write_chunks (chunks : list (result string)) (w : World) : World * option exn :=
  match chunks with
  | [] => (w, None)
  | Ok text :: rest =>
      if valid_utf8 text then write_chunks rest (file_write text w)
      else (w, Some UnicodeEncodeError)
  | Raise e :: _ => (w, Some e)
  end.

(** [Config.save_favorites] with the encoding of the file and the limit on
    integers: a run in which the disk does not fail, whatever the store
    holds. *)
Definition save_favorites_utf8 (favs : Favorites) (w : World) : World :=
  let w1 := open_w w in
  let '(w2, failure) := write_chunks (Json.iterencode 0 (favorites_json favs)) w1 in
  match failure with
  | None => print FavoritesSaved w2
  | Some e => print (FavoritesSavingError e) w2
  end.

(** [Config.load_favorites]; [json_load] is what
    [open(FAVORITES_FILE, 'r', encoding='utf-8')] and [json.load(f)] make of
    the text of the file: the value, or the exception of either. *)
Definition load_favorites_with (json_load : string -> result json) (w : World) :
    Favorites * World :=
  match favorites_file w with
  | None => (empty_favorites, w)
  | Some text =>
      let loaded :=
        data <- json_load text ;;
        maps <- Py.get data "maps" (JList []) ;;
        mappacks <- Py.get data "mappacks" (JList []) ;;
        Ok {| fav_maps := maps; fav_mappacks := mappacks |} in
      match loaded with
      | Ok favs => (favs, w)
      | Raise e => (empty_favorites, print (FavoritesLoadingError e) w)
      end
  end.

(** [Config.load_favorites] with the decoder of the model on the bytes of
    the file. *)
Definition load_favorites (w : World) : Favorites * World :=
  load_favorites_with Json.loads w.

(** The file is decoded as UTF-8 before the JSON decoder sees its text. *)
Definition json_load_utf8 (text : string) : result json :=
  if valid_utf8 text then Json.loads text else Raise UnicodeDecodeError.

Definition load_favorites_utf8 (w : World) : Favorites * World :=
  load_favorites_with json_load_utf8 w.

(** ** The favorites tab of the window *)

(** An item of the favorites list.  The text of an item is an icon and
    the parts of [item_parts] separated by a bar and an icon; [item_id] is
    the data under [Qt.UserRole], [item_kind] the data under
    [Qt.UserRole + 1]. *)
Record FavItem : Type := {
  item_parts : list string;
  item_id : json;
  item_kind : string
}.

(** [fav.get("id") if isinstance(fav, dict) else fav] *)
Definition fav_identity (fav : json) : json :=
  match fav with
  | JDict d => match Py.dict_lookup "id" d with Some x => x | None => JNull end
  | _ => fav
  end.

(** [fav.get("name", "Unknown") if isinstance(fav, dict) else f"{kind} {fav}"] *)
Definition fav_name (kind : string) (fav : json) : json :=
  match fav with
  | JDict d => match Py.dict_lookup "name" d with Some x => x | None => JStr "Unknown" end
  | _ => JStr (kind ++ " " ++ Py.str fav)
  end.

(** [fav.get("author", "Unknown") if isinstance(fav, dict) else "Unknown"] *)
Definition fav_author (fav : json) : json :=
  match fav with
  | JDict d => match Py.dict_lookup "author" d with Some x => x | None => JStr "Unknown" end
  | _ => JStr "Unknown"
  end.

(** [fav.get("map_count", 0) if isinstance(fav, dict) else 0] *)
Definition fav_map_count (fav : json) : json :=
  match fav with
  | JDict d => match Py.dict_lookup "map_count" d with Some x => x | None => JNum 0 end
  | _ => JNum 0
  end.

Definition author_part (author : json) : list string :=
  if Py.eq author (JStr "Unknown") then [] else [Py.str author].

(** One turn of the loop over the favorite maps. *)
Definition map_item (fav : json) : FavItem :=
  {| item_parts := Py.str (fav_name "Map" fav) :: author_part (fav_author fav);
     item_id := fav_identity fav;
     item_kind := "map" |}.

(** One turn of the loop over the favorite mappacks. *)
Definition mappack_item (fav : json) : result FavItem :=
  let maps_count := fav_map_count fav in
  shown <- Py.gt0 maps_count ;;
  Ok {| item_parts :=
          Py.str (fav_name "Mappack" fav) :: author_part (fav_author fav) ++
          (if shown then [Py.str maps_count] else []);
        item_id := fav_identity fav;
        item_kind := "mappack" |}.

(** The items a loop has added when it ends or raises. *)
Fixpoint add_items (mk : json -> result FavItem) (favs : list json)
    (acc : list FavItem) : list FavItem * option exn :=
  match favs with
  | [] => (acc, None)
  | fav :: rest =>
      match mk fav with
      | Ok item => add_items mk rest (acc ++ [item])
      | Raise e => (acc, Some e)
      end
  end.

(** The favorites list after [TrackmaniaExchangeBrowser.load_favorites],
    and the exception that ended it, if any. *)
Definition render_favorites (favs : Favorites) : list FavItem * option exn :=
  match Py.iter (fav_maps favs) with
  | Raise e => ([], Some e)
  | Ok maps =>
      let '(items, failure) := add_items (fun fav => Ok (map_item fav)) maps [] in
      match failure with
      | Some e => (items, Some e)
      | None =>
          match Py.iter (fav_mappacks favs) with
          | Raise e => (items, Some e)
          | Ok mappacks => add_items mappack_item mappacks items
          end
      end
  end.

(** The text of the status label. *)
Inductive status : Type :=
| Ready
| AlreadyInFavorites        (* Already in favorites *)
| AddedToFavorites          (* Added to favorites *)
| MappackAddedToFavorites.  (* Mappack added to favorites *)

(** The attributes of the window the favorites operations use, with the
    world they act on.  [self.config.favorites] is the same dict as
    [self.favorites]. *)
Record Browser : Type := {
  favorites : Favorites;
  selected_map : option MapInfo;
  selected_mappack : option MappackInfo;
  status_label : status;
  favorites_list : list FavItem;
  current_item : option FavItem;
  world : World
}.

(** A method call ends with a state and, when an exception escaped, the
    exception. *)
Definition outcome : Type := Browser * option exn.

Definition refresh_favorites (b : Browser) : outcome :=
  let '(items, failure) := render_favorites (favorites b) in
  ({| favorites := favorites b; selected_map := selected_map b;
      selected_mappack := selected_mappack b; status_label := status_label b;
      favorites_list := items; current_item := None; world := world b |},
   failure).

Definition set_status (s : status) (b : Browser) : Browser :=
  {| favorites := favorites b; selected_map := selected_map b;
     selected_mappack := selected_mappack b; status_label := s;
     favorites_list := favorites_list b; current_item := current_item b;
     world := world b |}.

(** Assign the store and write it with [Config.save_favorites]. *)
Definition store_and_save (favs : Favorites) (b : Browser) : Browser :=
  {| favorites := favs; selected_map := selected_map b;
     selected_mappack := selected_mappack b; status_label := status_label b;
     favorites_list := favorites_list b; current_item := current_item b;
     world := save_favorites favs (world b) |}.

(** [[fav["id"] for fav in favs]] *)
Fixpoint ids_of (favs : list json) : result (list json) :=
  match favs with
  | [] => Ok []
  | fav :: rest =>
      id <- Py.getitem fav "id" ;;
      ids <- ids_of rest ;;
      Ok (id :: ids)
  end.

(** [[fav for fav in favs if fav["id"] != item_id]] *)
Fixpoint without_id (item_id : json) (favs : list json) : result (list json) :=
  match favs with
  | [] => Ok []
  | fav :: rest =>
      id <- Py.getitem fav "id" ;;
      kept <- without_id item_id rest ;;
      Ok (if Py.eq id item_id then kept else fav :: kept)
  end.

(** The [fav_entry] of a map and of a mappack. *)
Definition map_entry (m : MapInfo) : json :=
  JDict [("id", TrackID m); ("name", Name m); ("author", Username m)].

Definition mappack_entry (p : MappackInfo) : json :=
  JDict [("id", ID p); ("name", PackName p); ("author", PackUsername p);
         ("map_count", TrackCount p)].

Definition add_to_favorites (b : Browser) : outcome :=
  match selected_map b with
  | None => (b, None)
  | Some m =>
      let checked :=
        favs <- Py.iter (fav_maps (favorites b)) ;;
        map_ids <- ids_of favs ;;
        if Py.contains (TrackID m) map_ids then Ok None
        else
          let fav_entry := map_entry m in
          maps <- Py.append (fav_maps (favorites b)) fav_entry ;;
          Ok (Some maps) in
      match checked with
      | Raise e => (b, Some e)
      | Ok None => (set_status AlreadyInFavorites b, None)
      | Ok (Some maps) =>
          let favs := {| fav_maps := maps; fav_mappacks := fav_mappacks (favorites b) |} in
          refresh_favorites (set_status AddedToFavorites (store_and_save favs b))
      end
  end.

Definition add_mappack_to_favorites (b : Browser) : outcome :=
  match selected_mappack b with
  | None => (b, None)
  | Some p =>
      let checked :=
        favs <- Py.iter (fav_mappacks (favorites b)) ;;
        mappack_ids <- ids_of favs ;;
        if Py.contains (ID p) mappack_ids then Ok None
        else
          let fav_entry := mappack_entry p in
          mappacks <- Py.append (fav_mappacks (favorites b)) fav_entry ;;
          Ok (Some mappacks) in
      match checked with
      | Raise e => (b, Some e)
      | Ok None => (set_status AlreadyInFavorites b, None)
      | Ok (Some mappacks) =>
          let favs := {| fav_maps := fav_maps (favorites b); fav_mappacks := mappacks |} in
          refresh_favorites (set_status MappackAddedToFavorites (store_and_save favs b))
      end
  end.

Definition remove_favorite (b : Browser) : outcome :=
  match current_item b with
  | None => (b, None)
  | Some item =>
      let filtered :=
        if String.eqb (item_kind item) "map" then
          favs <- Py.iter (fav_maps (favorites b)) ;;
          kept <- without_id (item_id item) favs ;;
          Ok {| fav_maps := JList kept; fav_mappacks := fav_mappacks (favorites b) |}
        else
          favs <- Py.iter (fav_mappacks (favorites b)) ;;
          kept <- without_id (item_id item) favs ;;
          Ok {| fav_maps := fav_maps (favorites b); fav_mappacks := JList kept |} in
      match filtered with
      | Raise e => (b, Some e)
      | Ok favs => refresh_favorites (store_and_save favs b)
      end
  end.

(** The window as [__init__] leaves it: the store read from the file, the
    favorites tab filled from it. *)
Definition startup (w : World) : outcome :=
  let '(favs, w') := load_favorites w in
  refresh_favorites
    {| favorites := favs; selected_map := None; selected_mappack := None;
       status_label := Ready; favorites_list := []; current_item := None;
       world := w' |}.

(** The result record of the end-to-end scenario. *)
Definition scenario_record : json :=
  JDict [("MapId", JNum 42); ("Name", JStr "Test Track");
         ("Length", JNum 45000); ("Environment", JNum 1)].

(** ** Definitions used in the statements and proofs *)

Import Json.

(** Induction on JSON values, with the hypothesis for every element of a
    list and every member of a dict. *)
Section JsonInd.
Variable P : json -> Prop.
Hypothesis Hnull : P JNull.
Hypothesis Hbool : forall b, P (JBool b).
Hypothesis Hnum : forall n, P (JNum n).
Hypothesis Hstr : forall s, P (JStr s).
Hypothesis Hlist : forall l, Forall P l -> P (JList l).
Hypothesis Hdict : forall d, Forall (fun kv => P (snd kv)) d -> P (JDict d).

Fixpoint json_ind' (v : json) : P v :=
  match v with
  | JNull => Hnull
  | JBool b => Hbool b
  | JNum n => Hnum n
  | JStr s => Hstr s
  | JList l =>
      Hlist l ((fix all (l : list json) : Forall P l :=
                  match l with
                  | [] => List.Forall_nil P
                  | x :: r => @List.Forall_cons _ P x r (json_ind' x) (all r)
                  end) l)
  | JDict d =>
      Hdict d ((fix all (d : list (string * json)) : Forall (fun kv => P (snd kv)) d :=
                  match d with
                  | [] => List.Forall_nil _
                  | kv :: r => @List.Forall_cons _ _ kv r (json_ind' (snd kv)) (all r)
                  end) d)
  end.
End JsonInd.

(** What may follow a value in the text the encoder writes: the end, a
    comma or a newline. *)
Definition value_end (rest : string) : Prop :=
  match rest with
  | EmptyString => True
  | String c _ => c = ","%char \/ c = newline
  end.

(** The first character of an encoded value is neither whitespace nor a
    closing bracket. *)
Definition value_head (c : ascii) : Prop :=
  is_ws c = false /\ Ascii.eqb c "]" = false.

(** The decoder reads [v] back from its text, whatever the nesting level
    of the text and whatever follows it, with fuel for the nodes of [v]. *)
Definition parses (v : json) : Prop :=
  forall lvl fuel rest,
    json_wf v = true -> (size v <= fuel)%nat -> value_end rest ->
    parse_value fuel (encode lvl v ++ rest) = Some (v, rest).

(** Fuel for the elements of a list and for the members of a dict. *)
Definition elems_size (l : list json) : nat := list_sum (map (fun x => S (size x)) l).

(** The text of one member of a dict at nesting [lvl]. *)
Definition encode_item (lvl : nat) (kv : string * json) : string :=
  match kv with
  | (k, x) => encode_basestring k ++ ": " ++ encode (S lvl) x
  end.

(** What opens a list and what separates two items at nesting [lvl]. *)
Definition list_open (lvl : nat) : string := "[" ++ nl (S lvl).
Definition item_sep (lvl : nat) : string := "," ++ nl (S lvl).

(** The chunks of one element of a list after [buf], and of one member of
    a dict, at nesting [lvl]. *)
Definition chunks_elem (lvl : nat) (buf : string) (x : json) : list (result string) :=
  match scalar_chunk x with
  | Some c => [glue buf c]
  | None => Ok buf :: iterencode (S lvl) x
  end.

Definition chunks_item (lvl : nat) (kv : string * json) : list (result string) :=
  match kv with
  | (k, x) => Ok (encode_basestring k) :: Ok ": " :: iterencode (S lvl) x
  end.

(** The chunks are made, each can be written, and together they are
    [text]. *)
Definition chunks_of (chunks : list (result string)) (text : string) : Prop :=
  exists ts, chunks = map Ok ts /\ forallb valid_utf8 ts = true /\
             fold_right String.append "" ts = text.

Definition members_size (d : list (string * json)) : nat :=
  list_sum (map (fun kv => match kv with (_, x) => S (size x) end) d).

(** The part of the params that does not depend on the length filter. *)
Definition params_before_length (f : SearchFilters) : gmap string json :=
  let params : gmap string json := ∅ in
  let name := strip (name_input f) in
  let params := if String.eqb name "" then params else <["name" := JStr name]> params in
  let author := strip (author_input f) in
  let params :=
    if String.eqb author "" then params else <["author" := JStr author]> params in
  let params :=
    match sort_options !! sort_combo f with
    | Some o => <["order1" := JNum o]> params
    | None => params
    end in
  let params :=
    if String.eqb (env_combo f) "All" then params
    else match env_map !! env_combo f with
         | Some e => <["environment" := JNum e]> params
         | None => params
         end in
  if String.eqb (difficulty_combo f) "All" then params
  else match diff_map !! difficulty_combo f with
       | Some d => <["difficulty" := JNum d]> params
       | None => params
       end.

(** The table of the length buckets, as the specification gives it. *)
Definition length_table : list (string * (Z * Z)) :=
  [("0-30 sec", (0, 30000)); ("30-60 sec", (30000, 60000));
   ("1-2 min", (60000, 120000)); ("2-5 min", (120000, 300000));
   ("5+ min", (300000, 999999999))].

(** The browse tab with the second length bucket selected. *)
Definition medium_filters : SearchFilters :=
  {| name_input := ""; author_input := ""; sort_combo := "Uploaded (Newest)";
     env_combo := "All"; difficulty_combo := "All"; length_combo := "30-60 sec";
     limit_spin := create_limit_spin 25 |}.

(** The optional filters are absent: nothing but blanks in the two text
    fields, "All" in the three filter selectors. *)
Definition filters_absent (f : SearchFilters) : Prop :=
  strip (name_input f) = "" /\ strip (author_input f) = "" /\
  env_combo f = "All" /\ difficulty_combo f = "All" /\ length_combo f = "All".

(** The identities of the entries of one list of the store, in order. *)
Definition identities (favs : json) : result (list json) :=
  entries <- Py.iter favs ;; Ok (map fav_identity entries).

(** A store with a bare identifier and an object among its maps and a
    bare identifier among its mappacks, and a world without a file. *)
Definition sample_maps : list json :=
  [JNum 42; JDict [("id", JNum 7); ("name", JStr "Alpine"); ("author", JStr "ann")]].

Definition sample_mappacks : list json := [JStr "pack-3"].

Definition sample_favorites : Favorites :=
  {| fav_maps := JList sample_maps; fav_mappacks := JList sample_mappacks |}.

Definition no_file : World := {| favorites_file := None; console := [] |}.

(** A favorites file that names a map by an escaped lone surrogate, the
    store it decodes to, and the part of the store's text that comes
    before the name. *)
Definition quoted (s : string) : string := String Json.dquote (s ++ String Json.dquote "").

Definition surrogate_text : string :=
  "{" ++ quoted "maps" ++ ": [{" ++ quoted "id" ++ ": 7, " ++ quoted "name" ++ ": " ++
  quoted "\ud800" ++ "}], " ++ quoted "mappacks" ++ ": []}".

Definition surrogate_file : World :=
  {| favorites_file := Some surrogate_text; console := [] |}.

Definition surrogate_store : Favorites :=
  {| fav_maps := JList [JDict [("id", JNum 7); ("name", JStr (utf8 55296))]];
     fav_mappacks := JList [] |}.

Definition text_before_name : string :=
  "{" ++ Json.nl 1 ++ quoted "maps" ++ ": [" ++ Json.nl 2 ++ "{" ++ Json.nl 3 ++
  quoted "id" ++ ": 7," ++ Json.nl 3 ++ quoted "name" ++ ": ".

(** Worlds whose favorites file is cut off, is Latin-1 text with an
    accented letter, or holds a list. *)
Definition truncated_file : World :=
  {| favorites_file := Some "{maps: [1, 2"; console := [] |}.

Definition latin1_file : World :=
  {| favorites_file := Some (String "233" "t" ++ String "233" ""); console := [] |}.

Definition list_file : World :=
  {| favorites_file := Some "[1, 2]"; console := [] |}.

(** A world whose favorites file holds a good store. *)
Definition good_world : World := save_favorites sample_favorites no_file.

(** The same store with one more map. *)
Definition one_more : Favorites :=
  {| fav_maps := JList (sample_maps ++ [JDict [("id", JNum 8)]]);
     fav_mappacks := JList sample_mappacks |}.

(** An entry of the present format: an object with an "id". *)
Definition has_id (fav : json) : bool :=
  match fav with
  | JDict d => match Py.dict_lookup "id" d with Some _ => true | None => false end
  | _ => false
  end.

(** An entry of the older format: a bare identifier. *)
Definition legacy (fav : json) : bool := negb (Py.isinstance_dict fav).

(** An entry of the favorites file: of either format. *)
Definition favorite_entry (fav : json) : bool := legacy fav || has_id fav.

(** The list an operation works on: the maps for a map item, the mappacks
    for any other item. *)
Definition target_list (item : FavItem) (favs : Favorites) : json :=
  if String.eqb (item_kind item) "map" then fav_maps favs else fav_mappacks favs.

(** The window that opens on a favorites file of the older format. *)
Definition legacy_world : World :=
  {| favorites_file :=
       Some (Json.dumps (JDict [("maps", JList [JNum 1001]); ("mappacks", JList [JNum 5])]));
     console := [] |}.

Definition legacy_browser : Browser := fst (startup legacy_world).

(** [on_browse_item_selected] for a map and for a mappack, and the choice
    of an item of the favorites list. *)
Definition select_map (m : MapInfo) (b : Browser) : Browser :=
  {| favorites := favorites b; selected_map := Some m;
     selected_mappack := selected_mappack b; status_label := status_label b;
     favorites_list := favorites_list b; current_item := current_item b;
     world := world b |}.

Definition select_mappack (p : MappackInfo) (b : Browser) : Browser :=
  {| favorites := favorites b; selected_map := selected_map b;
     selected_mappack := Some p; status_label := status_label b;
     favorites_list := favorites_list b; current_item := current_item b;
     world := world b |}.

Definition select_item (i : nat) (b : Browser) : Browser :=
  {| favorites := favorites b; selected_map := selected_map b;
     selected_mappack := selected_mappack b; status_label := status_label b;
     favorites_list := favorites_list b; current_item := nth_error (favorites_list b) i;
     world := world b |}.

(** The record the constructor makes of [scenario_record], and a mappack. *)
Definition scenario_map : MapInfo :=
  {| TrackID := JNum 42; Name := JStr "Test Track"; GbxMapName := JStr "";
     Username := JStr ""; UserID := JNull; AuthorLogin := JStr "";
     EnvironmentName := "Snow"; DifficultyName := "None";
     VehicleName := JStr ""; MapType := JStr ""; TitlePack := JStr "";
     Mood := JStr ""; Length := JNum 45000; LengthName := "30-60 sec";
     AwardCount := JNum 0; CommentCount := JNum 0; DownloadCount := JNum 0;
     ReplayCount := JNum 0; TrackValue := JNum 0;
     ReplayWRTime := JNum 0; ReplayWRUsername := JStr "";
     UploadedAt := JStr ""; UpdatedAt := JStr "";
     HasThumbnail := JBool false; HasImages := JBool false;
     Downloadable := true |}.

Definition scenario_pack : MappackInfo :=
  {| ID := JNum 9; PackName := JStr "Pack"; PackUsername := JStr "ann";
     TrackCount := JNum 3; Description := JStr ""; PackDownloadCount := JNum 0 |}.

(** ** Times, and the workers of the searches *)

(** [v % k] for an integer constant [k]. *)
Definition Py_mod (v : json) (k : Z) : result Z :=
  match v with
  | JNum n => Ok (n mod k)
  | JBool b => Ok (Py.bool_to_Z b mod k)
  | _ => Raise TypeError
  end.

Fixpoint zeros (n : nat) : string :=
  match n with
  | O => ""
  | S n' => String "0" (zeros n')
  end.

(** [format(n, "0Wd")], the [{n:0Wd}] of an f-string: the decimal digits
    of [n], with zeros between the sign and the digits up to [width]
    characters. *)
Definition format_d (width : nat) (n : Z) : string :=
  let digits := Json.int_str (Z.abs n) in
  let sign := if n <? 0 then "-" else "" in
  sign ++ zeros (width - String.length sign - String.length digits) ++ digits.

(** [MapInfo.format_time] *)
Definition format_time (ms : json) : result string :=
  if Py.eq ms (JNum 0) then Ok "---"
  else
    seconds <- Py.floordiv ms 1000 ;;
    milliseconds <- Py_mod ms 1000 ;;
    let minutes := seconds / 60 in
    let seconds := seconds mod 60 in
    Ok (format_d 2 minutes ++ ":" ++ format_d 2 seconds ++ "." ++ format_d 3 milliseconds).

(** What [format_time] shows is read back as follows: the text before the
    colon, between the colon and the point, and after the point, each as a
    decimal number. *)
Fixpoint split_at (c : ascii) (s : string) : string * string :=
  match s with
  | EmptyString => ("", "")
  | String x r =>
      if Ascii.eqb x c then ("", r)
      else let '(a, b) := split_at c r in (String x a, b)
  end.

Definition dec_value (s : string) : option Z :=
  match NilEmpty.uint_of_string s with
  | Some u => Some (Z.of_uint u)
  | None => None
  end.

Definition read_time (s : string) : option Z :=
  let '(minutes, rest) := split_at ":" s in
  let '(seconds, milliseconds) := split_at "." rest in
  match dec_value minutes, dec_value seconds, dec_value milliseconds with
  | Some m, Some sec, Some ms => Some ((m * 60 + sec) * 1000 + ms)
  | _, _, _ => None
  end.

Fixpoint digit_string (s : string) : bool :=
  match s with
  | EmptyString => true
  | String c r => Json.is_digit c && digit_string r
  end.

(** ** The workers *)

Definition MAPPACK_FIELDS : list string :=
  ["MappackId"; "Name"; "Owner.UserId"; "Owner.Name"; "Description"; "DownloadCount"].

(** What a worker emits, once: [finished] with its result, or [error] with
    a message, which is "Map not found" or "Error: " and the text of the
    exception. *)
Inductive worker_error : Type :=
| MapNotFound
| Failure (e : exn).

Inductive signal (A : Type) : Type :=
| finished (a : A)
| error (msg : worker_error).
Arguments finished {A} a.
Arguments error {A} msg.

(** The [try ... except Exception] around the body of a [run]. *)
Definition emit {A} (r : result A) : signal A :=
  match r with
  | Ok a => finished a
  | Raise e => error (Failure e)
  end.

(** [SearchWorker.run] and [MappackMapsWorker.run] after the request:
    [response] is the decoded body, or the exception of the request, of
    [raise_for_status] or of [response.json()]. *)
Definition SearchWorker_run (response : result json) : signal (list MapInfo) :=
  emit (data <- response ;; search_results data).



(** [MapInfoWorker.run] after the request. *)
Definition MapInfoWorker_run (response : result json) : signal MapInfo :=
  let found :=
    data <- response ;;
    match data with
    | JDict d =>
        match Py.dict_lookup "Results" d with
        | Some results =>
            n <- Py.len results ;;
            if 0 <? n then
              first <- Py.getitem0 results ;;
              map_info <- MapInfo_init first ;;
              Ok (Some map_info)
            else Ok None
        | None => Ok None
        end
    | _ => Ok None
    end in
  match found with
  | Ok (Some map_info) => finished map_info
  | Ok None => error MapNotFound
  | Raise e => error (Failure e)
  end.

(** ** The queries and the projections *)

(** The keys a query for maps can have. *)
Definition query_keys : list string :=
  ["fields"; "count"; "order1"; "name"; "author"; "environment"; "difficulty";
   "lengthmin"; "lengthmax"].

(** The ordinals of the environments and of the difficulties of the
    filters. *)
Definition environment_table : list (string * Z) :=
  [("Stadium", 0); ("Snow", 1); ("Rally", 2); ("Desert", 3)].

Definition difficulty_table : list (string * Z) :=
  [("Beginner", 0); ("Intermediate", 1); ("Advanced", 2); ("Expert", 3)].

(** The last byte of a text. *)
Fixpoint last_char (s : string) : option ascii :=
  match s with
  | EmptyString => None
  | String c EmptyString => Some c
  | String _ r => last_char r
  end.

(** Nothing but whitespace characters. *)
Fixpoint blank (s : string) : bool :=
  match s with
  | String a r =>
      if is_space (String a "") then blank r
      else
        match r with
        | String b r2 =>
            if is_space (String a (String b "")) then blank r2
            else
              match r2 with
              | String c r3 => is_space (String a (String b (String c ""))) && blank r3
              | EmptyString => false
              end
        | EmptyString => false
        end
  | EmptyString => true
  end.

(** What follows the whitespace character [s] starts with, if it starts
    with one. *)
Definition drop_space (s : string) : option string :=
  match s with
  | String a r =>
      if is_space (String a "") then Some r
      else
        match r with
        | String b r2 =>
            if is_space (String a (String b "")) then Some r2
            else
              match r2 with
              | String c r3 =>
                  if is_space (String a (String b (String c ""))) then Some r3 else None
              | EmptyString => None
              end
        | EmptyString => None
        end
  | EmptyString => None
  end.

(** The params of [search_mappacks], if it starts a worker: none for a
    blank text. *)
Definition search_mappacks (mappack_search_input : string) : option (gmap string json) :=
  let query := strip mappack_search_input in
  if String.eqb query "" then None
  else Some (<["order1" := JNum 6]> (<["count" := JNum 25]> (<["name" := JStr query]> ∅))).

(** The query [MappackSearchWorker.run] sends for its params. *)
Definition mappack_query (params : gmap string json) : gmap string json :=
  <["fields" := JStr (join "," MAPPACK_FIELDS)]> params.

(** The member of a record a projected field belongs to: the field up to
    its first point. *)
Definition top_level (field : string) : string := fst (split_at "." field).

(** The members [MapInfo.__init__] and [MappackInfo.__init__] read. *)
Definition MapInfo_members : list string :=
  ["MapId"; "Name"; "GbxMapName"; "Uploader"; "Authors"; "Environment"; "Difficulty";
   "VehicleName"; "MapType"; "TitlePack"; "Mood"; "Length"; "AwardCount";
   "CommentCount"; "DownloadCount"; "ReplayCount"; "TrackValue"; "OnlineWR";
   "UploadedAt"; "UpdatedAt"; "HasThumbnail"; "HasImages"].

Definition MappackInfo_members : list string :=
  ["MappackId"; "Name"; "Owner"; "TrackCount"; "Description"; "DownloadCount"].

(** [params[k] = v] when there is a [v]. *)
Definition opt_insert (k : string) (o : option json) (m : gmap string json) :
    gmap string json :=
  match o with
  | Some v => <[k := v]> m
  | None => m
  end.

(** What each widget contributes to the params. *)
Definition name_param (f : SearchFilters) : option json :=
  if String.eqb (strip (name_input f)) "" then None
  else Some (JStr (strip (name_input f))).

Definition author_param (f : SearchFilters) : option json :=
  if String.eqb (strip (author_input f)) "" then None
  else Some (JStr (strip (author_input f))).

Definition order_param (f : SearchFilters) : option json :=
  JNum <$> (sort_options !! sort_combo f).

Definition environment_param (f : SearchFilters) : option json :=
  if String.eqb (env_combo f) "All" then None else JNum <$> (env_map !! env_combo f).

Definition difficulty_param (f : SearchFilters) : option json :=
  if String.eqb (difficulty_combo f) "All" then None
  else JNum <$> (diff_map !! difficulty_combo f).

Definition length_params (f : SearchFilters) : option (Z * Z) :=
  if String.eqb (length_combo f) "All" then None else length_map !! length_combo f.

(** A text for a query: not empty, no whitespace character at either
    end. *)
Definition trimmed (t : string) : Prop :=
  t <> "" /\
  forall w rest, is_space w = true -> t <> w ++ rest /\ t <> rest ++ w.

(** The members a projection asks for, and whether a record has only
    those. *)
Definition projected (fields : list string) (k : string) : bool :=
  existsb (String.eqb k) (map top_level fields).

Definition only_projected (fields : list string) (d : list (string * json)) : bool :=
  forallb (fun kv => projected fields (fst kv)) d.

(** Filters whose name has a no-break space before it and an em space
    after it, and whose author is an ideographic space. *)
Definition spaced_filters : SearchFilters :=
  {| name_input := utf8 160 ++ "ice" ++ utf8 8195; author_input := utf8 12288;
     sort_combo := "Uploaded (Newest)";
     env_combo := "All"; difficulty_combo := "All"; length_combo := "All";
     limit_spin := create_limit_spin 25 |}.

(** Filters with a name, a blank author and a choice in every selector. *)
Definition snow_expert_filters : SearchFilters :=
  {| name_input := "  ice  "; author_input := "   ";
     sort_combo := "Awards (Most)";
     env_combo := "Snow"; difficulty_combo := "Expert"; length_combo := "5+ min";
     limit_spin := create_limit_spin 25 |}.

(** ** Invariants of the favorites store *)

(** An identity that is neither a list nor an object. *)
Definition scalar (v : json) : bool :=
  match v with
  | JList _ | JDict _ => false
  | _ => true
  end.

(** Objects with ids, no two of them with equal ids. *)
Fixpoint unique_ids (favs : list json) : bool :=
  match favs with
  | [] => true
  | fav :: rest =>
      has_id fav && scalar (fav_identity fav) &&
      negb (Py.contains (fav_identity fav) (map fav_identity rest)) &&
      unique_ids rest
  end.

Definition store_unique (favs : Favorites) : bool :=
  match fav_maps favs, fav_mappacks favs with
  | JList maps, JList mappacks => unique_ids maps && unique_ids mappacks
  | _, _ => false
  end.

Definition selection_scalar (b : Browser) : bool :=
  match selected_map b with Some m => scalar (TrackID m) | None => true end &&
  match selected_mappack b with Some p => scalar (ID p) | None => true end.



(** The operations of the favorites store. *)
Definition operations : list (Browser -> outcome) :=
  [add_to_favorites; add_mappack_to_favorites; remove_favorite].

(** The count of a favorite mappack can be compared with 0. *)
Definition countable (fav : json) : bool := is_ok (Py.gt0 (fav_map_count fav)).


(** The window on a world without a favorites file. *)
Definition fresh_browser : Browser := fst (startup no_file).

(** ** Files, thumbnails, downloads and the game *)

(** The values read from [config.ini] that the functions below use. *)
Record Settings : Type := {
  MAPS_DIR : string;
  CACHE_DIR : string;
  API_BASE : string;
  AUTO_CACHE : bool;
  LAUNCH_HIDDEN : bool
}.

Definition API_DOWNLOAD (cfg : Settings) : string := API_BASE cfg ++ "/maps/download".
Definition API_THUMBNAIL (cfg : Settings) : string := API_BASE cfg ++ "/mapthumb".
Definition API_MAPPACK_THUMBNAIL (cfg : Settings) : string := API_BASE cfg ++ "/mappackthumb".

(** [os.path.join(a, b)] with [/] as the separator. *)
Definition starts_with_sep (b : string) : bool :=
  match b with
  | String c _ => Ascii.eqb c "/"
  | EmptyString => false
  end.

Definition ends_with_sep (a : string) : bool :=
  match last_char a with
  | Some c => Ascii.eqb c "/"
  | None => false
  end.

Definition os_path_join (a b : string) : string :=
  if starts_with_sep b then b
  else if String.eqb a "" || ends_with_sep a then a ++ b
  else a ++ "/" ++ b.

(** What a path names: a file with its content, or a directory.  The
    directories the program writes into exist. *)
Inductive node : Type :=
| File (content : string)
| Directory.

(** What the thumbnail label shows. *)
Inductive thumbnail_label : Type :=
| NoThumbnail                  (* "No thumbnail", as created *)
| Pixmap (content : string)    (* the image of a file with this content *)
| ThumbnailsDisabled           (* "Thumbnails disabled" *)
| NoImage.                     (* "No image" *)

(** What the status label shows after a launch. *)
Inductive launch_status : Type :=
| NothingLaunched
| MapFileNotFound              (* Map file not found *)
| TrackmaniaNotFound           (* Trackmania.exe not found *)
| Launched                     (* Launched *)
| LaunchFailed (e : exn)       (* the text of the exception *)
| NeedDownload                 (* Map file not found - need to download first *)
| LoadingMappackMaps.          (* Loading mappack maps... *)

(** The files and what the window shows and starts. *)
Record Desk : Type := {
  files : gmap string node;
  requested : list string;             (* URLs asked for, in order *)
  browse_thumbnail : thumbnail_label;
  tm_path_input : string;
  processes : list (list string);      (* command lines started, in order *)
  hidden : bool;
  launch_label : launch_status;
  mappack_maps_worker : option json    (* the mappack a worker was started for *)
}.

(** [os.path.exists(path)] *)
Definition os_path_exists (path : string) (d : Desk) : bool :=
  match files d !! path with
  | Some _ => true
  | None => false
  end.

(** The body of a response, or the exception of [requests.get] or of
    [raise_for_status]. *)
Definition network : Type := string -> result string.

(** [QPixmap(path)] for a path that exists. *)
Definition pixmap_of (n : node) : thumbnail_label :=
  match n with
  | File content => Pixmap content
  | Directory => Pixmap ""
  end.

Definition set_thumbnail (l : thumbnail_label) (d : Desk) : Desk :=
  {| files := files d; requested := requested d; browse_thumbnail := l;
     tm_path_input := tm_path_input d; processes := processes d; hidden := hidden d;
     launch_label := launch_label d; mappack_maps_worker := mappack_maps_worker d |}.

Definition request (url : string) (d : Desk) : Desk :=
  {| files := files d; requested := requested d ++ [url];
     browse_thumbnail := browse_thumbnail d;
     tm_path_input := tm_path_input d; processes := processes d; hidden := hidden d;
     launch_label := launch_label d; mappack_maps_worker := mappack_maps_worker d |}.

(** [with open(path, 'wb') as f: f.write(content)]: a directory cannot be
    opened for writing. *)
Definition write_file (path content : string) (d : Desk) : result Desk :=
  match files d !! path with
  | Some Directory => Raise OSError
  | _ =>
      Ok {| files := <[path := File content]> (files d); requested := requested d;
            browse_thumbnail := browse_thumbnail d;
            tm_path_input := tm_path_input d; processes := processes d;
            hidden := hidden d; launch_label := launch_label d;
            mappack_maps_worker := mappack_maps_worker d |}
  end.

(** The common body of [load_thumbnail] and [load_mappack_thumbnail]. *)
Definition show_thumbnail (cfg : Settings) (net : network)
    (thumbnail_path url : string) (d : Desk) : Desk :=
  match files d !! thumbnail_path with
  | Some n => set_thumbnail (pixmap_of n) d
  | None =>
      if negb (AUTO_CACHE cfg) then set_thumbnail ThumbnailsDisabled d
      else
        let sent := request url d in
        match net url with
        | Raise _ => set_thumbnail NoImage sent
        | Ok content =>
            match write_file thumbnail_path content sent with
            | Raise _ => set_thumbnail NoImage sent
            | Ok written => set_thumbnail (Pixmap content) written
            end
        end
  end.

Definition thumbnail_path (cfg : Settings) (map_id : json) : string :=
  os_path_join (CACHE_DIR cfg) (Py.str map_id ++ ".jpg").

Definition mappack_thumbnail_path (cfg : Settings) (mappack_id : json) : string :=
  os_path_join (CACHE_DIR cfg) ("mappack_" ++ Py.str mappack_id ++ ".jpg").

Definition thumbnail_url (cfg : Settings) (map_id : json) : string :=
  API_THUMBNAIL cfg ++ "/" ++ Py.str map_id.

Definition mappack_thumbnail_url (cfg : Settings) (mappack_id : json) : string :=
  API_MAPPACK_THUMBNAIL cfg ++ "/" ++ Py.str mappack_id.

Definition load_thumbnail (cfg : Settings) (net : network) (map_id : json) (d : Desk) : Desk :=
  show_thumbnail cfg net (thumbnail_path cfg map_id) (thumbnail_url cfg map_id) d.

Definition load_mappack_thumbnail (cfg : Settings) (net : network) (mappack_id : json)
    (d : Desk) : Desk :=
  show_thumbnail cfg net (mappack_thumbnail_path cfg mappack_id)
    (mappack_thumbnail_url cfg mappack_id) d.

(** A run of thumbnail loads, each with the network of its moment. *)
Inductive thumbnail_load : Type :=
| MapThumbnail (net : network) (map_id : json)
| MappackThumbnail (net : network) (mappack_id : json).

Definition run_load (cfg : Settings) (l : thumbnail_load) (d : Desk) : Desk :=
  match l with
  | MapThumbnail net map_id => load_thumbnail cfg net map_id d
  | MappackThumbnail net mappack_id => load_mappack_thumbnail cfg net mappack_id d
  end.

Definition run_loads (cfg : Settings) (ls : list thumbnail_load) (d : Desk) : Desk :=
  fold_left (fun d l => run_load cfg l d) ls d.

(** ** [DownloadWorker] *)

(** The response to a download: the outcome of
    [int(response.headers.get('content-length', 0))], the chunks
    [iter_content] yields and the exception that ends them, if any. *)
Record Response : Type := {
  content_length : result Z;
  chunks : list string;
  broken : option exn
}.

Definition map_file_path (cfg : Settings) (map_id : json) : string :=
  os_path_join (MAPS_DIR cfg) (Py.str map_id ++ ".Map.Gbx").

Definition download_url (cfg : Settings) (map_id : json) : string :=
  API_DOWNLOAD cfg ++ "/" ++ Py.str map_id.

(** [DownloadWorker.run]: the files after it and the signal it emits at
    its end.  The [progress] signal is left out. *)
Definition DownloadWorker_run (cfg : Settings) (net : string -> result Response)
    (map_id : json) (d : Desk) : Desk * signal string :=
  let url := download_url cfg map_id in
  let map_file := map_file_path cfg map_id in
  let sent := request url d in
  match net url with
  | Raise e => (sent, error (Failure e))
  | Ok response =>
      match content_length response with
      | Raise e => (sent, error (Failure e))
      | Ok _ =>
          match write_file map_file (String.concat "" (chunks response)) sent with
          | Raise e => (sent, error (Failure e))
          | Ok written =>
              match broken response with
              | Some e => (written, error (Failure e))
              | None => (written, finished map_file)
              end
          end
      end
  end.

(** ** Launching *)

Definition set_launch (s : launch_status) (d : Desk) : Desk :=
  {| files := files d; requested := requested d; browse_thumbnail := browse_thumbnail d;
     tm_path_input := tm_path_input d; processes := processes d; hidden := hidden d;
     launch_label := s; mappack_maps_worker := mappack_maps_worker d |}.

(** The command line [launch_map] gives to [subprocess.Popen]. *)
Definition command_line (tm_exe map_file : string) : list string :=
  [tm_exe; "/useexedir"; "/singleinst"; "/file=" ++ map_file].

(** [launch_map]; [popen] is what [subprocess.Popen] does with a command
    line: start it, or raise. *)
Definition launch_map (cfg : Settings) (popen : list string -> option exn)
    (map_file : string) (d : Desk) : Desk :=
  if negb (os_path_exists map_file d) then set_launch MapFileNotFound d
  else
    let tm_exe := tm_path_input d in
    if negb (os_path_exists tm_exe d) then set_launch TrackmaniaNotFound d
    else
      let args := command_line tm_exe map_file in
      match popen args with
      | Some e => set_launch (LaunchFailed e) d
      | None =>
          {| files := files d; requested := requested d;
             browse_thumbnail := browse_thumbnail d;
             tm_path_input := tm_path_input d; processes := processes d ++ [args];
             hidden := if LAUNCH_HIDDEN cfg then true else hidden d;
             launch_label := Launched; mappack_maps_worker := mappack_maps_worker d |}
      end.

Definition launch_selected (cfg : Settings) (popen : list string -> option exn)
    (selected_map : option MapInfo) (d : Desk) : Desk :=
  match selected_map with
  | None => d
  | Some m => launch_map cfg popen (map_file_path cfg (TrackID m)) d
  end.

(** [launch_favorite] up to the start of the worker for a mappack. *)
Definition launch_favorite (cfg : Settings) (popen : list string -> option exn)
    (current_item : option FavItem) (d : Desk) : Desk :=
  match current_item with
  | None => d
  | Some item =>
      if String.eqb (item_kind item) "mappack" then
        {| files := files d; requested := requested d;
           browse_thumbnail := browse_thumbnail d;
           tm_path_input := tm_path_input d; processes := processes d;
           hidden := hidden d; launch_label := LoadingMappackMaps;
           mappack_maps_worker := Some (item_id item) |}
      else
        let map_file := map_file_path cfg (item_id item) in
        if os_path_exists map_file d then launch_map cfg popen map_file d
        else set_launch NeedDownload d
  end.

(** Settings, a desk with the game installed and an empty cache. *)
Definition sample_settings : Settings :=
  {| MAPS_DIR := "./maps"; CACHE_DIR := "./cache";
     API_BASE := "https://trackmania.exchange";
     AUTO_CACHE := true; LAUNCH_HIDDEN := true |}.

Definition sample_desk : Desk :=
  {| files := <["C:/Trackmania.exe" := File "exe"]>
                (<["./maps" := Directory]> (<["./cache" := Directory]> ∅));
     requested := []; browse_thumbnail := NoThumbnail;
     tm_path_input := "C:/Trackmania.exe"; processes := []; hidden := false;
     launch_label := NothingLaunched; mappack_maps_worker := None |}.

Definition jpeg_network : network := fun _ => Ok "jpeg".
Definition no_network : network := fun _ => Raise OSError.

(** The directory part [os.path.join] puts before a relative name. *)
Definition dir_prefix (a : string) : string :=
  if String.eqb a "" || ends_with_sep a then a else a ++ "/".

(** A download that breaks after two chunks, and a [Popen] that starts
    what it is given. *)
Definition broken_response : Response :=
  {| content_length := Ok 100; chunks := ["GBX"; "half"]; broken := Some OSError |}.

Definition broken_network : string -> result Response := fun _ => Ok broken_response.

Definition popen_starts : list string -> option exn := fun _ => None.

(** * Properties *)

(** ** Strings *)

Lemma app_assoc_s (a b c : string) : (a ++ b) ++ c = a ++ (b ++ c).
Proof. induction a as [|x a IH]; simpl; [reflexivity | now rewrite IH]. Qed.

Lemma app_nil_r_s (a : string) : a ++ "" = a.
Proof. induction a as [|x a IH]; simpl; [reflexivity | now rewrite IH]. Qed.

Lemma length_app_s (a b : string) :
  String.length (a ++ b) = (String.length a + String.length b)%nat.
Proof. induction a as [|x a IH]; simpl; [reflexivity | now rewrite IH]. Qed.

Lemma skip_ws_spaces n s : skip_ws (spaces n ++ s) = skip_ws s.
Proof. induction n as [|n IH]; simpl; [reflexivity | exact IH]. Qed.

Lemma skip_ws_nl lvl s : skip_ws (nl lvl ++ s) = skip_ws s.
Proof. unfold nl. simpl. apply skip_ws_spaces. Qed.

(** ** String literals *)

Lemma parse_escape_char c tail :
  parse_string_body (escape_char c ++ tail) =
  prepend (String c "") (parse_string_body tail).
Proof.
  destruct c as [[] [] [] [] [] [] [] []]; reflexivity.
Qed.

Lemma parse_escape s rest :
  parse_string_body (escape s ++ String dquote rest) = Some (s, rest).
Proof.
  induction s as [|c s IH]; [reflexivity|].
  cbn [escape]. rewrite app_assoc_s, parse_escape_char, IH. reflexivity.
Qed.

(** ** Integer literals *)

Lemma value_end_span rest : value_end rest -> span_digits rest = ("", rest).
Proof. destruct rest as [|c r]; [reflexivity|]. intros [-> | ->]; reflexivity. Qed.

Lemma value_end_fraction rest : value_end rest -> starts_fraction rest = false.
Proof. destruct rest as [|c r]; [reflexivity|]. intros [-> | ->]; reflexivity. Qed.

Lemma span_digits_uint u rest :
  value_end rest ->
  span_digits (NilEmpty.string_of_uint u ++ rest) = (NilEmpty.string_of_uint u, rest).
Proof.
  intros H. induction u; simpl; rewrite ?IHu; auto using value_end_span.
Qed.

Lemma unorm_fix_D0 u : Decimal.unorm (Decimal.D0 u) = Decimal.D0 u -> u = Decimal.Nil.
Proof.
  rewrite unorm_D0. unfold Decimal.unorm.
  destruct (Decimal.nzhead u) eqn:E; intros H;
    try (injection H as ->; reflexivity);
    try (rewrite <- E in H; now apply nzhead_nonzero in H);
    try discriminate.
Qed.

Lemma parse_digits_uint u rest :
  u <> Decimal.Nil -> Decimal.unorm u = u -> value_end rest ->
  parse_digits (NilEmpty.string_of_uint u ++ rest) = Some (Z.of_uint u, rest).
Proof.
  intros Hnil Hnorm Hend. unfold parse_digits.
  rewrite span_digits_uint by assumption.
  rewrite (value_end_fraction rest Hend).
  pose proof (NilEmpty.usu u) as Hu.
  destruct u; try congruence;
    try (apply unorm_fix_D0 in Hnorm; subst; reflexivity);
    cbn [NilEmpty.string_of_uint Ascii.eqb Bool.eqb andb] in *;
    rewrite Hu; reflexivity.
Qed.

Lemma to_int_norm n : Decimal.norm (Z.to_int n) = Z.to_int n.
Proof. rewrite <- DecimalZ.to_of, DecimalZ.of_to. reflexivity. Qed.

Lemma parse_number_int n rest :
  value_end rest -> parse_number (int_str n ++ rest) = Some (n, rest).
Proof.
  intros Hend. unfold int_str.
  pose proof (DecimalZ.of_to n) as Hval.
  pose proof (to_int_norm n) as Hnorm.
  destruct (Z.to_int n) as [u | u]; cbn [Decimal.norm] in Hnorm; cbn [Z.of_int] in Hval.
  - assert (Hu : Decimal.unorm u = u) by congruence.
    assert (Hn : u <> Decimal.Nil) by (rewrite <- Hu; apply unorm_nonnil).
    pose proof (parse_digits_uint u rest Hn Hu Hend) as Hp.
    rewrite Hval in Hp.
    destruct u; try congruence; exact Hp.
  - assert (Hh : Decimal.nzhead u = u /\ u <> Decimal.Nil).
    { destruct (Decimal.nzhead u) eqn:E; try discriminate; split; congruence. }
    destruct Hh as [Hh Hn].
    assert (Hu : Decimal.unorm u = u).
    { rewrite unorm_nzhead; congruence. }
    pose proof (parse_digits_uint u rest Hn Hu Hend) as Hp.
    cbn [NilZero.string_of_int]. 
    replace (NilZero.string_of_uint u) with (NilEmpty.string_of_uint u)
      by (destruct u; [congruence | reflexivity..]).
    cbn. rewrite Hp, Hval. reflexivity.
Qed.

(** ** Values *)

Lemma int_str_head n :
  exists c s, int_str n = String c s /\ (is_digit c = true \/ c = "-"%char).
Proof.
  unfold int_str. pose proof (to_int_norm n) as Hnorm.
  destruct (Z.to_int n) as [u | u]; cbn [Decimal.norm] in Hnorm.
  - assert (Hn : u <> Decimal.Nil).
    { assert (Hu : Decimal.unorm u = u) by congruence.
      rewrite <- Hu; apply unorm_nonnil. }
    destruct u; try congruence; cbn; eauto.
  - cbn. eauto.
Qed.

Lemma parse_value_ws fuel s1 s2 :
  skip_ws s1 = skip_ws s2 -> parse_value fuel s1 = parse_value fuel s2.
Proof. intros H. destruct fuel; cbn [parse_value]; [reflexivity | now rewrite H]. Qed.

Lemma parse_elems_ws fuel s1 s2 :
  skip_ws s1 = skip_ws s2 -> parse_elems fuel s1 = parse_elems fuel s2.
Proof.
  intros H. destruct fuel; cbn [parse_elems]; [reflexivity|].
  now rewrite (parse_value_ws fuel s1 s2 H).
Qed.

Lemma parse_members_ws fuel s1 s2 :
  skip_ws s1 = skip_ws s2 -> parse_members fuel s1 = parse_members fuel s2.
Proof. intros H. destruct fuel; cbn [parse_members]; [reflexivity | now rewrite H]. Qed.

Lemma parse_value_dispatch f c tail :
  is_digit c = true \/ c = "-"%char ->
  parse_value (S f) (String c tail) =
  match parse_number (String c tail) with
  | Some (n, rest) => Some (JNum n, rest)
  | None => None
  end.
Proof.
  intros [Hc | ->]; [|reflexivity].
  destruct c as [[] [] [] [] [] [] [] []]; try discriminate Hc; reflexivity.
Qed.

Lemma parse_value_number f n rest :
  value_end rest -> parse_value (S f) (int_str n ++ rest) = Some (JNum n, rest).
Proof.
  intros Hend. pose proof (parse_number_int n rest Hend) as Hp.
  destruct (int_str_head n) as (c & s & E & Hc). rewrite E in *.
  cbn [String.append] in *.
  rewrite parse_value_dispatch by assumption. now rewrite Hp.
Qed.

Lemma encode_head lvl v : exists c s, encode lvl v = String c s /\ value_head c.
Proof.
  destruct v as [| [] | n | s | [|x r] | [|[k x] r]];
    try (cbn; do 2 eexists; split; [reflexivity | split; reflexivity]).
  destruct (int_str_head n) as (c & s & E & Hc).
  exists c, s. split; [exact E|].
  destruct Hc as [Hc | ->]; [|split; reflexivity].
  destruct c as [[] [] [] [] [] [] [] []]; try discriminate Hc; split; reflexivity.
Qed.

Ltac fuel_lia :=
  match goal with
  | H : (_ <= _)%nat |- _ => clear - H; cbn in *; lia
  end.

Lemma parse_elems_more f s v tail l rest :
  parse_value f s = Some (v, String "," tail) ->
  parse_elems f tail = Some (l, rest) ->
  parse_elems (S f) s = Some (v :: l, rest).
Proof.
  intros Hv Hl. cbn [parse_elems]. rewrite Hv.
  change (skip_ws (String "," tail)) with (String "," tail).
  cbv iota beta. change (Ascii.eqb "," ",") with true. cbv iota.
  now rewrite Hl.
Qed.

Lemma parse_elems_last f s v tail rest :
  parse_value f s = Some (v, tail) ->
  skip_ws tail = String "]" rest ->
  parse_elems (S f) s = Some ([v], rest).
Proof. intros Hv Ht. cbn [parse_elems]. rewrite Hv, Ht. reflexivity. Qed.

Lemma join_cons2 sep (a b : string) rest :
  join sep (a :: b :: rest) = a ++ sep ++ join sep (b :: rest).
Proof. reflexivity. Qed.

Lemma parse_elems_join r : forall x lvl fuel rest,
  Forall parses (x :: r) -> forallb json_wf (x :: r) = true ->
  (elems_size (x :: r) <= fuel)%nat ->
  parse_elems fuel
    (join ("," ++ nl (S lvl)) (map (encode (S lvl)) (x :: r)) ++ nl lvl ++ String "]" rest)
  = Some (x :: r, rest).
Proof.
  induction r as [|y r IH]; intros x lvl fuel rest HP Hwf Hfuel.
  - apply Forall_cons in HP as [Hx _].
    cbn in Hwf. rewrite andb_true_r in Hwf.
    unfold elems_size in Hfuel; cbn in Hfuel.
    destruct fuel as [|f]; [fuel_lia|].
    cbn [map join].
    eapply parse_elems_last.
    + apply Hx; [assumption | fuel_lia | cbn; auto].
    + now rewrite skip_ws_nl.
  - apply Forall_cons in HP as [Hx HP].
    cbn [forallb] in Hwf. apply andb_true_iff in Hwf as [Hwx Hwf].
    unfold elems_size in Hfuel; cbn [map list_sum] in Hfuel.
    destruct fuel as [|f]; [fuel_lia|].
    cbn [map]. rewrite join_cons2, !app_assoc_s.
    eapply parse_elems_more.
    + apply Hx; [assumption | fuel_lia | cbn; auto].
    + erewrite parse_elems_ws; [| apply skip_ws_nl].
      apply (IH y lvl f rest); [assumption | assumption |].
      unfold elems_size; cbn [map list_sum]. fuel_lia.
Qed.

Lemma parse_value_space fuel s : parse_value fuel (String " " s) = parse_value fuel s.
Proof. now apply parse_value_ws. Qed.

Lemma parse_members_more f s b k r2 v tail ms rest :
  skip_ws s = String dquote b ->
  parse_string_body b = Some (k, String ":" r2) ->
  parse_value f r2 = Some (v, String "," tail) ->
  parse_members f tail = Some (ms, rest) ->
  parse_members (S f) s = Some ((k, v) :: ms, rest).
Proof.
  intros Hs Hk Hv Hm. cbn [parse_members]. rewrite Hs.
  change (Ascii.eqb dquote dquote) with true. cbv iota. rewrite Hk.
  change (skip_ws (String ":" r2)) with (String ":" r2).
  cbv iota beta. change (Ascii.eqb ":" ":") with true. cbv iota. rewrite Hv.
  change (skip_ws (String "," tail)) with (String "," tail).
  cbv iota beta. change (Ascii.eqb "," ",") with true. cbv iota.
  now rewrite Hm.
Qed.

Lemma parse_members_last f s b k r2 v tail rest :
  skip_ws s = String dquote b ->
  parse_string_body b = Some (k, String ":" r2) ->
  parse_value f r2 = Some (v, tail) ->
  skip_ws tail = String "}" rest ->
  parse_members (S f) s = Some ([(k, v)], rest).
Proof.
  intros Hs Hk Hv Ht. cbn [parse_members]. rewrite Hs.
  change (Ascii.eqb dquote dquote) with true. cbv iota. rewrite Hk.
  change (skip_ws (String ":" r2)) with (String ":" r2).
  cbv iota beta. change (Ascii.eqb ":" ":") with true. cbv iota. rewrite Hv, Ht.
  reflexivity.
Qed.

Lemma item_text lvl k x tail :
  encode_item lvl (k, x) ++ tail =
  String dquote (escape k ++ String dquote (String ":" (String " " (encode (S lvl) x ++ tail)))).
Proof.
  unfold encode_item, encode_basestring.
  cbn [String.append]. rewrite !app_assoc_s. reflexivity.
Qed.

Lemma parse_members_join r : forall kx lvl fuel rest,
  Forall (fun kv => parses (snd kv)) (kx :: r) ->
  forallb (fun kv => match kv with (_, x) => json_wf x end) (kx :: r) = true ->
  (members_size (kx :: r) <= fuel)%nat ->
  parse_members fuel
    (join ("," ++ nl (S lvl)) (map (encode_item lvl) (kx :: r)) ++ nl lvl ++ String "}" rest)
  = Some (kx :: r, rest).
Proof.
  induction r as [|ky r IH]; intros [k x] lvl fuel rest HP Hwf Hfuel.
  - apply Forall_cons in HP as [Hx _]. cbn [snd] in Hx.
    cbn in Hwf. rewrite andb_true_r in Hwf.
    unfold members_size in Hfuel; cbn in Hfuel.
    destruct fuel as [|f]; [fuel_lia|].
    cbn [map join]. rewrite item_text.
    eapply parse_members_last.
    + reflexivity.
    + apply parse_escape.
    + rewrite parse_value_space.
      apply Hx; [assumption | fuel_lia | cbn; auto].
    + now rewrite skip_ws_nl.
  - apply Forall_cons in HP as [Hx HP]. cbn [snd] in Hx.
    cbn [forallb] in Hwf. apply andb_true_iff in Hwf as [Hwx Hwf].
    unfold members_size in Hfuel; cbn [map list_sum] in Hfuel.
    destruct fuel as [|f]; [fuel_lia|].
    cbn [map]. rewrite join_cons2, !app_assoc_s, item_text.
    eapply parse_members_more.
    + reflexivity.
    + apply parse_escape.
    + rewrite parse_value_space.
      apply Hx; [assumption | fuel_lia | cbn; auto].
    + erewrite parse_members_ws; [| apply skip_ws_nl].
      apply (IH ky lvl f rest); [assumption | assumption |].
      unfold members_size; cbn [map list_sum]. fuel_lia.
Qed.

(** ** The dict of distinct members *)

Lemma distinct_NoDup ks : distinct ks = true <-> NoDup ks.
Proof.
  induction ks as [|k r IH]; cbn [distinct].
  - split; [constructor | reflexivity].
  - rewrite andb_true_iff, negb_true_iff, NoDup_cons, IH.
    assert (existsb (String.eqb k) r = false <-> k ∉ r) as ->; [|reflexivity].
    rewrite <- not_true_iff_false, existsb_exists.
    split; intros H Hin; apply H.
    + exists k. split; [now apply list_elem_of_In | apply String.eqb_refl].
    + destruct Hin as (y & Hy & E). apply String.eqb_eq in E. subst.
      now apply list_elem_of_In.
Qed.

Lemma dict_set_fresh k v d :
  k ∉ map fst d -> dict_set k v d = (d ++ [(k, v)])%list.
Proof.
  induction d as [|[k' v'] d IH]; cbn [dict_set map fst app]; intros Hk; [reflexivity|].
  apply not_elem_of_cons in Hk as [Hne Hk].
  destruct (String.eqb_spec k' k) as [-> | _]; [congruence|].
  now rewrite IH.
Qed.

Lemma dict_of_pairs_acc ms : forall acc,
  NoDup (map fst (acc ++ ms)%list) ->
  fold_left (fun d kv => dict_set (fst kv) (snd kv) d) ms acc = (acc ++ ms)%list.
Proof.
  induction ms as [|[k v] ms IH]; intros acc Hnd; cbn [fold_left].
  - now rewrite app_nil_r.
  - cbn [fst snd]. rewrite dict_set_fresh.
    + rewrite IH; rewrite <- app_assoc; [reflexivity | exact Hnd].
    + rewrite map_app in Hnd. apply NoDup_app in Hnd as (_ & Hd & _).
      intros Hin. apply (Hd k Hin). cbn. left.
Qed.

Lemma dict_of_pairs_distinct d : distinct (map fst d) = true -> dict_of_pairs d = d.
Proof. intros H. apply (dict_of_pairs_acc d []), distinct_NoDup, H. Qed.

(** ** Decoding the encoder's text *)

Lemma parse_value_string f b t rest :
  parse_string_body b = Some (t, rest) ->
  parse_value (S f) (String dquote b) = Some (JStr t, rest).
Proof.
  intros H. cbn [parse_value].
  change (skip_ws (String dquote b)) with (String dquote b).
  cbv iota beta. change (Ascii.eqb dquote "[") with false.
  change (Ascii.eqb dquote "{") with false.
  change (Ascii.eqb dquote dquote) with true. cbv iota.
  now rewrite H.
Qed.

Lemma parse_value_list f s c t l rest :
  skip_ws s = String c t -> Ascii.eqb c "]" = false ->
  parse_elems f (String c t) = Some (l, rest) ->
  parse_value (S f) (String "[" s) = Some (JList l, rest).
Proof.
  intros Hs Hc Hp. cbn [parse_value].
  change (skip_ws (String "[" s)) with (String "[" s).
  cbv iota beta. change (Ascii.eqb "[" "[") with true. cbv iota.
  now rewrite Hs, Hc, Hp.
Qed.

Lemma parse_value_dict f s b ms rest :
  skip_ws s = String dquote b ->
  parse_members f (String dquote b) = Some (ms, rest) ->
  parse_value (S f) (String "{" s) = Some (JDict (dict_of_pairs ms), rest).
Proof.
  intros Hs Hp. cbn [parse_value].
  change (skip_ws (String "{" s)) with (String "{" s).
  cbv iota beta. change (Ascii.eqb "{" "[") with false.
  change (Ascii.eqb "{" "{") with true. cbv iota.
  rewrite Hs. change (Ascii.eqb dquote "}") with false. cbv iota.
  now rewrite Hp.
Qed.

Lemma join_head sep c s es tail :
  exists t, join sep (String c s :: es) ++ tail = String c t.
Proof. destruct es; cbn; eauto. Qed.

Lemma encode_list lvl x r :
  encode lvl (JList (x :: r)) =
  String "[" (nl (S lvl) ++
    join ("," ++ nl (S lvl)) (map (encode (S lvl)) (x :: r)) ++ nl lvl ++ "]").
Proof. reflexivity. Qed.

Lemma encode_dict lvl kx r :
  encode lvl (JDict (kx :: r)) =
  String "{" (nl (S lvl) ++
    join ("," ++ nl (S lvl)) (map (encode_item lvl) (kx :: r)) ++ nl lvl ++ "}").
Proof. reflexivity. Qed.

Theorem parse_encode v : parses v.
Proof.
  induction v as [| b | n | s | l IH | d IH] using json_ind';
    intros lvl fuel rest Hwf Hfuel Hend;
    (destruct fuel as [|f]; [cbn in Hfuel; lia|]).
  - reflexivity.
  - destruct b; reflexivity.
  - now apply parse_value_number.
  - cbn [encode]. unfold encode_basestring. cbn [String.append].
    rewrite app_assoc_s. apply parse_value_string, parse_escape.
  - destruct l as [|x r]; [reflexivity|].
    rewrite encode_list. set (sep := "," ++ nl (S lvl)).
    cbn [String.append]. rewrite !app_assoc_s. cbn [String.append].
    destruct (encode_head (S lvl) x) as (c & s & E & Hws & Hc).
    set (tail := nl lvl ++ String "]" rest).
    assert (Hj : exists t, join sep (map (encode (S lvl)) (x :: r)) ++ tail = String c t).
    { cbn [map]. rewrite E. apply join_head. }
    destruct Hj as (t & Hj).
    eapply (parse_value_list f _ c t).
    + rewrite skip_ws_nl, Hj. cbn [skip_ws]. now rewrite Hws.
    + exact Hc.
    + rewrite <- Hj. subst sep tail.
      apply parse_elems_join; [exact IH | exact Hwf |].
      cbn [size] in Hfuel. unfold elems_size. fuel_lia.
  - destruct d as [|[k x] r]; [reflexivity|].
    cbn [json_wf] in Hwf. apply andb_true_iff in Hwf as [Hkeys Hwf].
    rewrite encode_dict. set (sep := "," ++ nl (S lvl)).
    cbn [String.append]. rewrite !app_assoc_s. cbn [String.append].
    set (tail := nl lvl ++ String "}" rest).
    assert (Hj : exists t, join sep (map (encode_item lvl) ((k, x) :: r)) ++ tail
                           = String dquote t).
    { cbn [map]. unfold encode_item at 1, encode_basestring. apply join_head. }
    destruct Hj as (t & Hj).
    rewrite <- (dict_of_pairs_distinct ((k, x) :: r) Hkeys) at 2.
    eapply (parse_value_dict f _ t).
    + rewrite skip_ws_nl, Hj. reflexivity.
    + rewrite <- Hj. subst sep tail.
      apply parse_members_join; [exact IH | exact Hwf |].
      cbn [size] in Hfuel. unfold members_size. fuel_lia.
Qed.

(** ** The text is longer than the fuel it needs *)

Lemma join_length sep (es : list string) :
  (1 <= String.length sep)%nat ->
  (list_sum (map (fun e => S (String.length e)) es) <= String.length (join sep es) + 1)%nat.
Proof.
  intros Hsep. induction es as [|a [|b es] IH]; cbn [map list_sum fold_right join] in *.
  - lia.
  - lia.
  - rewrite !length_app_s. lia.
Qed.

Lemma size_le_length v : forall lvl, (size v <= String.length (encode lvl v))%nat.
Proof.
  induction v as [| b | n | s | l IH | d IH] using json_ind'; intros lvl.
  - cbn. lia.
  - destruct b; cbn; lia.
  - destruct (int_str_head n) as (c & s & E & _). cbn [encode size]. rewrite E. cbn. lia.
  - cbn. lia.
  - destruct l as [|x r]; [cbn; lia|].
    rewrite encode_list. cbn [size String.length]. rewrite !length_app_s.
    pose proof (join_length ("," ++ nl (S lvl)) (map (encode (S lvl)) (x :: r))) as Hj.
    assert (Hle : (list_sum (map (fun x => S (size x)) (x :: r)) <=
                   list_sum (map (fun e => S (String.length e)) (map (encode (S lvl)) (x :: r))))%nat).
    { clear Hj. unfold list_sum.
      induction IH as [|y ys Hy _ IHys]; cbn [map fold_right]; [lia|].
      specialize (Hy (S lvl)). lia. }
    cbn [String.length String.append nl] in *. lia.
  - destruct d as [|kx r]; [cbn; lia|].
    rewrite encode_dict. cbn [size String.length]. rewrite !length_app_s.
    pose proof (join_length ("," ++ nl (S lvl)) (map (encode_item lvl) (kx :: r))) as Hj.
    assert (Hle : (list_sum (map (fun kv => match kv with (_, x) => S (size x) end) (kx :: r)) <=
                   list_sum (map (fun e => S (String.length e)) (map (encode_item lvl) (kx :: r))))%nat).
    { clear Hj. unfold list_sum.
      induction IH as [|[k y] ys Hy _ IHys]; cbn [map fold_right]; [lia|].
      specialize (Hy (S lvl)). cbn [snd] in Hy. unfold encode_item at 1.
      rewrite !length_app_s. lia. }
    cbn [String.length String.append nl] in *. lia.
Qed.

(** ** Round trip *)

Example dumps_nested :
  dumps (JList [JNum 1; JNum (-20); JNull; JBool true; JList []; JList [JNum 0]]) =
  "[
  1,
  -20,
  null,
  true,
  [],
  [
    0
  ]
]".
Proof. reflexivity. Qed.

Example loads_spaced :
  loads " [1 ,
   [ ], -0, {  } , false ]  " =
  Ok (JList [JNum 1; JList []; JNum 0; JDict []; JBool false]).
Proof. reflexivity. Qed.

Example loads_rejects :
  loads "[01]" = Raise JSONDecodeError /\ loads "[1,]" = Raise JSONDecodeError /\
  loads "[1] 2" = Raise JSONDecodeError /\ loads "nul" = Raise JSONDecodeError /\
  loads "" = Raise JSONDecodeError.
Proof. repeat split. Qed.

Theorem loads_dumps v : json_wf v = true -> loads (dumps v) = Ok v.
Proof.
  intros Hwf. unfold loads, dumps.
  assert (H : parse_value (S (String.length (encode 0 v))) (encode 0 v ++ "") = Some (v, "")).
  { apply parse_encode; [exact Hwf | | exact I].
    pose proof (size_le_length v 0). lia. }
  rewrite app_nil_r_s in H. rewrite H. reflexivity.
Qed.

(** ** Result mapping *)

(** C6: the record of the end-to-end scenario maps to exactly one
    [MapInfo], with id 42, length bucket "30-60 sec", environment "Snow"
    and every count equal to zero. *)
Theorem scenario_one_record :
  exists info,
    search_results (JDict [("Results", JList [scenario_record])]) = Ok [info] /\
    TrackID info = JNum 42 /\
    LengthName info = "30-60 sec" /\
    EnvironmentName info = "Snow" /\
    AwardCount info = JNum 0 /\ CommentCount info = JNum 0 /\
    DownloadCount info = JNum 0 /\ ReplayCount info = JNum 0 /\
    TrackValue info = JNum 0.
Proof. eexists. split; [vm_compute; reflexivity | repeat split]. Qed.

(** The uploader and the world record are read behind type checks: any
    shape that is not an object gives the defaults. *)
Lemma uploader_degrades uploader :
  Py.isinstance_dict uploader = false ->
  uploader_name uploader = JStr "" /\ uploader_id uploader = JNull.
Proof. destruct uploader; try discriminate; auto. Qed.

Lemma world_record_degrades online_wr :
  Py.isinstance_dict online_wr = false -> world_record online_wr = (JNum 0, JStr "").
Proof. destruct online_wr; try discriminate; auto. Qed.

Lemma world_record_user_degrades d wr_user :
  Py.dict_lookup "User" d = Some wr_user -> Py.isinstance_dict wr_user = false ->
  snd (world_record (JDict d)) = JStr "".
Proof. intros H Hu. cbn. rewrite H. destruct wr_user; try discriminate; auto. Qed.

(** The author list degrades when it is absent, null or empty, and when
    its first element is an object. *)
Lemma author_login_falsy authors : Py.truthy authors = false -> author_login authors = Ok (JStr "").
Proof. intros H. unfold author_login. now rewrite H. Qed.

Lemma author_login_first_object d rest :
  exists login, author_login (JList (JDict d :: rest)) = Ok login.
Proof.
  unfold author_login. cbn [Py.truthy Py.len rbind].
  assert ((0 <? Z.of_nat (length (JDict d :: rest))) = true) as ->
    by (apply Z.ltb_lt; cbn [length]; lia).
  cbn [Py.getitem0 Py.get rbind].
  destruct (Py.dict_lookup "User" d) as [[]|]; cbn; eauto.
Qed.

(** When the constructor returns: exactly when the author list, the two
    enumerations and the length are of a shape the code can handle. *)
Lemma MapInfo_init_ok_iff d :
  let field key default :=
    match Py.dict_lookup key d with Some x => x | None => default end in
  is_ok (MapInfo_init (JDict d)) =
  is_ok (author_login (field "Authors" (JList []))) &&
  is_ok (get_enum_name (field "Environment" JNull) "environment") &&
  is_ok (get_enum_name (field "Difficulty" JNull) "difficulty") &&
  is_ok (get_length_name (field "Length" (JNum 0))).
Proof.
  intros field. unfold MapInfo_init. cbn [Py.get rbind]. fold (field "Authors" (JList [])).
  destruct (author_login _); [|reflexivity]. cbn [rbind is_ok andb].
  fold (field "Environment" JNull).
  destruct (get_enum_name _ "environment"); [|reflexivity]. cbn [rbind is_ok andb].
  fold (field "Difficulty" JNull).
  destruct (get_enum_name _ "difficulty"); [|reflexivity]. cbn [rbind is_ok andb].
  fold (field "Length" (JNum 0)).
  destruct (get_length_name _); reflexivity.
Qed.

(** A record without the members "Uploader", "Authors" and "OnlineWR",
    when it is constructed, has the empty user name, the empty author login
    and a world record time of zero. *)
Lemma MapInfo_init_missing_nested d info :
  Py.dict_lookup "Uploader" d = None ->
  Py.dict_lookup "Authors" d = None ->
  Py.dict_lookup "OnlineWR" d = None ->
  MapInfo_init (JDict d) = Ok info ->
  Username info = JStr "" /\ AuthorLogin info = JStr "" /\ ReplayWRTime info = JNum 0.
Proof.
  intros Hu Ha Hw. unfold MapInfo_init. cbn [Py.get rbind]. rewrite Hu, Ha, Hw.
  cbn [author_login Py.truthy rbind].
  destruct (get_enum_name _ "environment"); [|discriminate]. cbn [rbind].
  destruct (get_enum_name _ "difficulty"); [|discriminate]. cbn [rbind].
  destruct (get_length_name _); [|discriminate]. cbn [rbind].
  intros [= <-]. repeat split.
Qed.

(** C4: a record whose author list holds a name instead of an object makes
    the constructor raise; the lookup of "User" on the first author has no
    type check, unlike the lookups on the uploader and the world record. *)
Theorem MapInfo_init_author_string_raises :
  MapInfo_init (JDict [("MapId", JNum 42); ("Name", JStr "Test Track");
                       ("Authors", JList [JStr "someone"])])
  = Raise AttributeError.
Proof. vm_compute. reflexivity. Qed.

Example MapInfo_init_author_shapes :
  MapInfo_init (JDict [("Authors", JList [JNull])]) = Raise AttributeError /\
  MapInfo_init (JDict [("Authors", JNum 3)]) = Raise TypeError /\
  MapInfo_init (JDict [("Authors", JDict [("User", JNull)])]) = Raise KeyError /\
  MapInfo_init (JDict [("Authors", JStr "someone")]) = Raise AttributeError /\
  is_ok (MapInfo_init (JDict [("Authors", JNull)])) = true /\
  is_ok (MapInfo_init (JDict [("Authors", JList [])])) = true /\
  is_ok (MapInfo_init (JDict [("Uploader", JNum 1); ("OnlineWR", JStr "x")])) = true /\
  MapInfo_init (JDict [("Length", JNull)]) = Raise TypeError /\
  MapInfo_init (JDict [("Environment", JList [])]) = Raise TypeError.
Proof. vm_compute. repeat split. Qed.

(** ** Query builder *)

Lemma qBound_range lo v hi : lo <= hi -> lo <= qBound lo v hi <= hi.
Proof. unfold qBound. lia. Qed.

(** The limit spin box keeps its range of 10 to 100 and its value in it. *)
Lemma LimitSpin_range sb :
  LimitSpin sb -> sb_minimum sb = 10 /\ sb_maximum sb = 100 /\ 10 <= sb_value sb <= 100.
Proof.
  induction 1 as [d | v sb _ (Hmin & Hmax & _)].
  - cbn. repeat split; unfold qBound; lia.
  - cbn [QSpinBox_setValue sb_minimum sb_maximum sb_value]. rewrite Hmin, Hmax.
    repeat split; unfold qBound; lia.
Qed.

Lemma LimitSpin_clamps v sb :
  LimitSpin sb -> sb_value (QSpinBox_setValue v sb) = Z.max 10 (Z.min 100 v).
Proof.
  intros H. apply LimitSpin_range in H as (Hmin & Hmax & _).
  cbn. now rewrite Hmin, Hmax.
Qed.

Lemma params_before_length_keys f k :
  k <> "name" -> k <> "author" -> k <> "order1" -> k <> "environment" ->
  k <> "difficulty" -> params_before_length f !! k = None.
Proof.
  intros. unfold params_before_length.
  destruct (String.eqb (strip (name_input f)) ""),
    (String.eqb (strip (author_input f)) ""), (sort_options !! sort_combo f),
    (String.eqb (env_combo f) "All"), (env_map !! env_combo f),
    (String.eqb (difficulty_combo f) "All"), (diff_map !! difficulty_combo f);
    rewrite ?lookup_insert_ne by congruence; apply lookup_empty.
Qed.

Lemma search_browse_length f :
  search_browse f =
  <["count" := JNum (sb_value (limit_spin f))]>
    (if String.eqb (length_combo f) "All" then params_before_length f
     else match length_map !! length_combo f with
          | Some (min_len, max_len) =>
              <["lengthmax" := JNum max_len]>
                (<["lengthmin" := JNum min_len]> (params_before_length f))
          | None => params_before_length f
          end).
Proof. reflexivity. Qed.

Lemma length_map_table label lo hi :
  (label, (lo, hi)) ∈ length_table ->
  label <> "All" /\ length_map !! label = Some (lo, hi).
Proof.
  unfold length_table. rewrite !elem_of_cons, elem_of_nil.
  intros [H|[H|[H|[H|[H|[]]]]]]; injection H as -> -> ->; split;
    solve [discriminate | vm_compute; reflexivity].
Qed.

(** C5: for each of the five length buckets the query carries the
    [lengthmin] and [lengthmax] of the table, 999999999 standing for no
    upper bound; with "All" selected it carries neither key. *)
Theorem length_bucket_range f :
  (forall label lo hi,
     (label, (lo, hi)) ∈ length_table -> length_combo f = label ->
     search_query f !! "lengthmin" = Some (JNum lo) /\
     search_query f !! "lengthmax" = Some (JNum hi)) /\
  (length_combo f = "All" ->
     search_query f !! "lengthmin" = None /\ search_query f !! "lengthmax" = None).
Proof.
  unfold search_query. rewrite search_browse_length.
  generalize (JStr (join "," COMMON_FIELDS)) as fields.
  generalize (JNum (sb_value (limit_spin f))) as count.
  intros count fields. split.
  - intros label lo hi Hin Hsel.
    apply length_map_table in Hin as [Hne Hmap].
    rewrite Hsel, Hmap. apply String.eqb_neq in Hne. rewrite Hne.
    split; repeat (rewrite lookup_insert_ne by discriminate); apply lookup_insert_eq.
  - intros ->. change (String.eqb "All" "All") with true. cbv iota.
    split; repeat (rewrite lookup_insert_ne by discriminate);
      apply params_before_length_keys; discriminate.
Qed.

Lemma length_bucket_range_witness :
  (search_query medium_filters !! "lengthmin" = Some (JNum 30000) /\
   search_query medium_filters !! "lengthmax" = Some (JNum 60000)) /\
  (search_query (default_filters 25) !! "lengthmin" = None /\
   search_query (default_filters 25) !! "lengthmax" = None).
Proof.
  split.
  - apply (proj1 (length_bucket_range medium_filters) "30-60 sec" 30000 60000);
      [unfold length_table; repeat constructor | reflexivity].
  - apply (proj2 (length_bucket_range (default_filters 25))). reflexivity.
Defined.

Lemma sort_items_options s : s ∈ sort_items -> is_Some (sort_options !! s).
Proof.
  unfold sort_items. rewrite !elem_of_cons, elem_of_nil.
  intros H. repeat (destruct H as [-> | H]; [vm_compute; eauto|]). destruct H.
Qed.

(** C1, as the code has it: with every optional filter absent the query
    holds the projection under "fields", the count under "count", a value
    of the spin box between 10 and 100, and the sort order under "order1"
    whenever the sort selector shows one of its items; it holds none of
    the filter keys. *)
Theorem absent_filters_query f :
  filters_absent f -> LimitSpin (limit_spin f) ->
  search_query f =
    <["fields" := JStr (join "," COMMON_FIELDS)]>
      (<["count" := JNum (sb_value (limit_spin f))]>
         (match sort_options !! sort_combo f with
          | Some o => {["order1" := JNum o]}
          | None => ∅
          end)) /\
  10 <= sb_value (limit_spin f) <= 100 /\
  (forall k, k ∈ filter_keys -> search_query f !! k = None) /\
  (sort_combo f ∈ sort_items -> is_Some (search_query f !! "order1")).
Proof.
  intros (Hname & Hauthor & Henv & Hdiff & Hlen) Hspin.
  assert (Hq : search_query f =
    <["fields" := JStr (join "," COMMON_FIELDS)]>
      (<["count" := JNum (sb_value (limit_spin f))]>
         (match sort_options !! sort_combo f with
          | Some o => {["order1" := JNum o]}
          | None => ∅
          end))).
  { unfold search_query, search_browse.
    rewrite Hname, Hauthor, Henv, Hdiff, Hlen.
    change (String.eqb "" "") with true. change (String.eqb "All" "All") with true.
    cbv iota. destruct (sort_options !! sort_combo f); reflexivity. }
  split; [exact Hq|]. split; [apply LimitSpin_range, Hspin|]. split.
  - intros k Hk. rewrite Hq. clear Hq.
    generalize (JStr (join "," COMMON_FIELDS)) as fields. intros fields.
    unfold filter_keys in Hk. rewrite !elem_of_cons, elem_of_nil in Hk.
    destruct (sort_options !! sort_combo f);
      repeat (destruct Hk as [-> | Hk];
              [repeat (rewrite lookup_insert_ne by discriminate);
               first [apply lookup_singleton_ne; discriminate | apply lookup_empty]|]);
      destruct Hk.
  - intros Hsort. apply sort_items_options in Hsort as [o Ho].
    rewrite Hq, Ho. repeat (rewrite lookup_insert_ne by discriminate).
    rewrite lookup_singleton_eq. eauto.
Qed.

Lemma absent_filters_query_witness :
  search_query (default_filters 25) =
    <["fields" := JStr (join "," COMMON_FIELDS)]>
      (<["count" := JNum 25]> {["order1" := JNum 6]}).
Proof.
  pose proof (absent_filters_query (default_filters 25)) as H.
  destruct H as [H _].
  - unfold filters_absent. repeat split; reflexivity.
  - apply LimitSpin_created.
  - rewrite H. reflexivity.
Defined.

(** C1 as stated fails on the window as it opens: every optional filter is
    absent, and the query has the key "order1" beside the projection and
    the count. *)
Lemma default_query_has_sort_order :
  filters_absent (default_filters 25) /\
  search_query (default_filters 25) !! "order1" = Some (JNum 6) /\
  ~ dom (search_query (default_filters 25)) ⊆ ({["fields"; "count"]} : gset string).
Proof.
  split; [unfold filters_absent; repeat split; reflexivity|].
  split; [vm_compute; reflexivity|].
  intros Hsub.
  assert (Hin : "order1" ∈ dom (search_query (default_filters 25))).
  { apply elem_of_dom. exists (JNum 6). vm_compute. reflexivity. }
  apply Hsub in Hin.
  rewrite elem_of_union, !elem_of_singleton in Hin. destruct Hin; discriminate.
Qed.

(** ** The favorites file *)

(** C7: [Config.load_favorites] always returns, whatever opening the file
    and decoding it do.  Without a file it returns the two empty lists and
    prints nothing.  When opening the file, decoding its bytes or decoding
    its JSON text raises, it prints the exception and returns the same
    empty store; so it does when the text is a JSON value that is not an
    object.  For an object it returns the members "maps" and "mappacks",
    an empty list for a missing one, and prints nothing. *)
Theorem load_favorites_missing_or_malformed (json_load : string -> result json) :
  (forall w, favorites_file w = None ->
     load_favorites_with json_load w = (empty_favorites, w)) /\
  (forall w text e,
     favorites_file w = Some text -> json_load text = Raise e ->
     load_favorites_with json_load w =
       (empty_favorites, print (FavoritesLoadingError e) w)) /\
  (forall w text data,
     favorites_file w = Some text -> json_load text = Ok data ->
     Py.isinstance_dict data = false ->
     load_favorites_with json_load w =
       (empty_favorites, print (FavoritesLoadingError AttributeError) w)) /\
  (forall w text d,
     favorites_file w = Some text -> json_load text = Ok (JDict d) ->
     load_favorites_with json_load w =
       ({| fav_maps := default (JList []) (Py.dict_lookup "maps" d);
           fav_mappacks := default (JList []) (Py.dict_lookup "mappacks" d) |}, w)).
Proof.
  unfold load_favorites_with. split; [|split; [|split]].
  - intros w H. now rewrite H.
  - intros w text e H He. now rewrite H, He.
  - intros w text data H Hd Ho. rewrite H, Hd.
    destruct data; try discriminate; reflexivity.
  - intros w text d H Hd. rewrite H, Hd. cbn [rbind Py.get].
    destruct (Py.dict_lookup "maps" d), (Py.dict_lookup "mappacks" d); reflexivity.
Qed.

Lemma load_favorites_missing_or_malformed_witness :
  load_favorites_utf8 no_file = (empty_favorites, no_file) /\
  load_favorites_utf8 truncated_file =
    (empty_favorites, print (FavoritesLoadingError JSONDecodeError) truncated_file) /\
  load_favorites_utf8 latin1_file =
    (empty_favorites, print (FavoritesLoadingError UnicodeDecodeError) latin1_file) /\
  load_favorites_utf8 list_file =
    (empty_favorites, print (FavoritesLoadingError AttributeError) list_file).
Proof.
  destruct (load_favorites_missing_or_malformed json_load_utf8)
    as (Hmissing & Hraises & Hshape & _).
  split; [|split; [|split]].
  - apply Hmissing. reflexivity.
  - apply (Hraises truncated_file "{maps: [1, 2"); [reflexivity | vm_compute; reflexivity].
  - apply (Hraises latin1_file (String "233" "t" ++ String "233" "")%string);
      [reflexivity | vm_compute; reflexivity].
  - apply (Hshape list_file "[1, 2]" (JList [JNum 1; JNum 2]));
      [reflexivity | vm_compute; reflexivity | reflexivity].
Defined.

(** A decoded text that is not an object is treated the same way. *)
Lemma load_favorites_not_object w text data :
  favorites_file w = Some text -> Json.loads text = Ok data ->
  Py.isinstance_dict data = false ->
  load_favorites w = (empty_favorites, print (FavoritesLoadingError AttributeError) w).
Proof.
  intros H Hd Ho. unfold load_favorites, load_favorites_with. rewrite H, Hd.
  destruct data; try discriminate; reflexivity.
Qed.

Lemma favorites_json_wf favs :
  json_wf (fav_maps favs) = true -> json_wf (fav_mappacks favs) = true ->
  json_wf (favorites_json favs) = true.
Proof. intros Hm Hp. cbn. now rewrite Hm, Hp. Qed.

Lemma save_favorites_file favs w :
  favorites_file (save_favorites favs w) = Some (Json.dumps (favorites_json favs)) /\
  console (save_favorites favs w) = (console w ++ [FavoritesSaved])%list.
Proof. split; reflexivity. Qed.

(** Saving the store and loading it again gives the store back and prints
    no error. *)
Lemma load_save_favorites favs w :
  json_wf (fav_maps favs) = true -> json_wf (fav_mappacks favs) = true ->
  load_favorites (save_favorites favs w) = (favs, save_favorites favs w).
Proof.
  intros Hm Hp. unfold load_favorites, load_favorites_with.
  destruct (save_favorites_file favs w) as [-> _].
  rewrite loads_dumps by now apply favorites_json_wf.
  destruct favs; reflexivity.
Qed.

(** ** The encoding of the file *)

Lemma utf8_run_app st a b : utf8_run st (a ++ b) = utf8_run (utf8_run st a) b.
Proof. revert st. induction a as [|c a IH]; intros st; [reflexivity | apply IH]. Qed.

Lemma valid_utf8_app a b : valid_utf8 a = true -> valid_utf8 (a ++ b) = valid_utf8 b.
Proof.
  unfold valid_utf8. rewrite utf8_run_app.
  destruct (utf8_run Start a); try discriminate. reflexivity.
Qed.

Lemma valid_utf8_append a b :
  valid_utf8 a = true -> valid_utf8 b = true -> valid_utf8 (a ++ b) = true.
Proof. intros Ha Hb. now rewrite valid_utf8_app. Qed.

(** Escaping a text changes ASCII characters only. *)
Lemma utf8_run_escape_char st c : utf8_run st (escape_char c) = utf8_step st c.
Proof. destruct c as [[] [] [] [] [] [] [] []]; destruct st; reflexivity. Qed.

Lemma utf8_run_escape st s : utf8_run st (escape s) = utf8_run st s.
Proof.
  revert st. induction s as [|c s IH]; intros st; [reflexivity|].
  cbn [escape utf8_run]. rewrite utf8_run_app, utf8_run_escape_char. apply IH.
Qed.

Lemma valid_encode_basestring s :
  valid_utf8 s = true -> valid_utf8 (encode_basestring s) = true.
Proof.
  unfold valid_utf8, encode_basestring. cbn [utf8_run].
  change (utf8_step Start dquote) with Start.
  rewrite utf8_run_app, utf8_run_escape.
  destruct (utf8_run Start s); try discriminate. reflexivity.
Qed.

Lemma valid_spaces n : valid_utf8 (spaces n) = true.
Proof. induction n as [|n IH]; [reflexivity | exact IH]. Qed.

Lemma valid_nl lvl : valid_utf8 (nl lvl) = true.
Proof. apply (valid_spaces (2 * lvl)). Qed.

Lemma valid_uint u : valid_utf8 (NilEmpty.string_of_uint u) = true.
Proof. induction u; [reflexivity | exact IHu ..]. Qed.

Lemma valid_int_str n : valid_utf8 (int_str n) = true.
Proof.
  unfold int_str. destruct (Z.to_int n) as [u | u]; cbn [NilZero.string_of_int].
  - destruct u; try reflexivity; apply (valid_uint (_ u)).
  - apply (valid_utf8_append "-"); [reflexivity|].
    destruct u; try reflexivity; apply (valid_uint (_ u)).
Qed.

(** ** The chunks of the encoder *)

Lemma chunks_of_one text : valid_utf8 text = true -> chunks_of [Ok text] text.
Proof.
  intros H. exists [text]. cbn. rewrite H, app_nil_r_s. repeat split.
Qed.

Lemma chunks_of_nil : chunks_of [] "".
Proof. exists []. repeat split. Qed.

Lemma chunks_of_app cs1 t1 cs2 t2 :
  chunks_of cs1 t1 -> chunks_of cs2 t2 -> chunks_of (cs1 ++ cs2) (t1 ++ t2).
Proof.
  intros (ts1 & -> & Hv1 & <-) (ts2 & -> & Hv2 & <-). exists (ts1 ++ ts2)%list.
  rewrite map_app, forallb_app, Hv1, Hv2. repeat split.
  clear. induction ts1 as [|t ts IH]; [reflexivity|].
  cbn [app fold_right]. now rewrite IH, app_assoc_s.
Qed.

Lemma chunks_of_cons text cs t :
  valid_utf8 text = true -> chunks_of cs t -> chunks_of (Ok text :: cs) (text ++ t).
Proof. intros H Hcs. apply (chunks_of_app [Ok text]); [now apply chunks_of_one | exact Hcs]. Qed.

Lemma chunks_of_valid cs text : chunks_of cs text -> valid_utf8 text = true.
Proof.
  intros (ts & _ & Hv & <-). induction ts as [|t ts IH]; [reflexivity|].
  cbn [forallb fold_right] in *. apply andb_true_iff in Hv as [Ht Hts].
  apply valid_utf8_append; [exact Ht | now apply IH].
Qed.

Lemma intstr_encodable n : encodable (JNum n) = true -> intstr n = Ok (int_str n).
Proof.
  cbn [encodable]. unfold intstr.
  destruct (4300 <? String.length (int_str (Z.abs n)))%nat; [discriminate | reflexivity].
Qed.

Lemma iterencode_list lvl x r :
  iterencode lvl (JList (x :: r)) =
  (chunks_elem lvl (list_open lvl) x ++
   flat_map (chunks_elem lvl (item_sep lvl)) r ++ [Ok (nl lvl); Ok "]"])%list.
Proof. reflexivity. Qed.

Lemma iterencode_dict lvl kv r :
  iterencode lvl (JDict (kv :: r)) =
  (Ok "{" :: Ok (nl (S lvl)) ::
   chunks_item lvl kv ++
   flat_map (fun kv => Ok (item_sep lvl) :: chunks_item lvl kv) r ++
   [Ok (nl lvl); Ok "}"])%list.
Proof. destruct kv. reflexivity. Qed.

Lemma join_fold sep p ps :
  join sep (p :: ps) = p ++ fold_right (fun q acc => sep ++ q ++ acc) "" ps.
Proof.
  revert p. induction ps as [|q ps IH]; intros p.
  - cbn. now rewrite app_nil_r_s.
  - rewrite join_cons2, IH. reflexivity.
Qed.

Lemma chunks_elem_ok lvl buf x :
  (forall lvl, encodable x = true -> chunks_of (iterencode lvl x) (encode lvl x)) ->
  encodable x = true -> valid_utf8 buf = true ->
  chunks_of (chunks_elem lvl buf x) (buf ++ encode (S lvl) x).
Proof.
  intros IH He Hb. unfold chunks_elem.
  destruct x as [| [] | n | s | l | d]; cbn [scalar_chunk glue].
  - apply chunks_of_one. now apply valid_utf8_append.
  - apply chunks_of_one. now apply valid_utf8_append.
  - apply chunks_of_one. now apply valid_utf8_append.
  - rewrite (intstr_encodable n He). cbn [glue encode].
    apply chunks_of_one, valid_utf8_append; [exact Hb | apply valid_int_str].
  - apply chunks_of_one, valid_utf8_append; [exact Hb|].
    now apply valid_encode_basestring.
  - apply chunks_of_cons; [exact Hb | now apply IH].
  - apply chunks_of_cons; [exact Hb | now apply IH].
Qed.

Lemma chunks_item_ok lvl k x :
  (forall lvl, encodable x = true -> chunks_of (iterencode lvl x) (encode lvl x)) ->
  valid_utf8 k = true -> encodable x = true ->
  chunks_of (chunks_item lvl (k, x)) (encode_item lvl (k, x)).
Proof.
  intros IH Hk He. unfold chunks_item, encode_item.
  apply chunks_of_cons; [now apply valid_encode_basestring|].
  apply (chunks_of_cons ": "); [reflexivity | now apply IH].
Qed.

(** For a value that can be encoded, the chunks are the pieces of its
    text. *)
Lemma iterencode_ok v : forall lvl,
  encodable v = true -> chunks_of (iterencode lvl v) (encode lvl v).
Proof.
  induction v as [| b | n | s | l IH | d IH] using json_ind'; intros lvl He.
  - now apply chunks_of_one.
  - destruct b; now apply chunks_of_one.
  - cbn [iterencode]. rewrite (intstr_encodable n He). apply chunks_of_one, valid_int_str.
  - apply chunks_of_one. now apply valid_encode_basestring.
  - destruct l as [|x r]; [now apply chunks_of_one|].
    rewrite iterencode_list. cbn [encodable forallb] in He.
    apply andb_true_iff in He as [Hx Hr]. apply Forall_cons in IH as [IHx IHr].
    assert (Hopen : valid_utf8 (list_open lvl) = true)
      by (apply (valid_utf8_append "["); [reflexivity | apply valid_nl]).
    assert (Hsep : valid_utf8 (item_sep lvl) = true)
      by (apply (valid_utf8_append ","); [reflexivity | apply valid_nl]).
    replace (encode lvl (JList (x :: r))) with
      ((list_open lvl ++ encode (S lvl) x) ++
       fold_right (fun q acc => item_sep lvl ++ q ++ acc) "" (map (encode (S lvl)) r) ++
       nl lvl ++ "]").
    2:{ change (encode lvl (JList (x :: r))) with
          ("[" ++ nl (S lvl) ++ join (item_sep lvl) (map (encode (S lvl)) (x :: r)) ++
           nl lvl ++ "]").
        cbn [map]. rewrite join_fold. unfold list_open.
        now rewrite !app_assoc_s. }
    apply chunks_of_app; [now apply chunks_elem_ok|].
    apply chunks_of_app.
    { clear IHx Hx. induction r as [|y r IHl]; [apply chunks_of_nil|].
      cbn [forallb] in Hr. apply andb_true_iff in Hr as [Hy Hr].
      apply Forall_cons in IHr as [IHy IHr].
      cbn [map fold_right flat_map].
      rewrite <- (app_assoc_s (item_sep lvl)).
      apply chunks_of_app; [now apply chunks_elem_ok | now apply IHl]. }
    apply chunks_of_cons; [apply valid_nl | now apply chunks_of_one].
  - destruct d as [|[k x] r]; [now apply chunks_of_one|].
    rewrite iterencode_dict. cbn [encodable forallb] in He.
    apply andb_true_iff in He as [Hkx Hr]. apply andb_true_iff in Hkx as [Hk Hx].
    apply Forall_cons in IH as [IHx IHr]. cbn [snd] in IHx.
    assert (Hsep : valid_utf8 (item_sep lvl) = true)
      by (apply (valid_utf8_append ","); [reflexivity | apply valid_nl]).
    replace (encode lvl (JDict ((k, x) :: r))) with
      ("{" ++ nl (S lvl) ++ encode_item lvl (k, x) ++
       fold_right (fun q acc => item_sep lvl ++ q ++ acc) "" (map (encode_item lvl) r) ++
       nl lvl ++ "}").
    2:{ change (encode lvl (JDict ((k, x) :: r))) with
          ("{" ++ nl (S lvl) ++
           join (item_sep lvl) (map (encode_item lvl) ((k, x) :: r)) ++ nl lvl ++ "}").
        cbn [map]. rewrite join_fold. now rewrite !app_assoc_s. }
    apply (chunks_of_cons "{"); [reflexivity|].
    apply chunks_of_cons; [apply valid_nl|].
    apply chunks_of_app; [now apply chunks_item_ok|].
    apply chunks_of_app.
    { clear IHx Hx Hk. induction r as [|[k' y] r IHl]; [apply chunks_of_nil|].
      cbn [forallb] in Hr. apply andb_true_iff in Hr as [Hky Hr].
      apply andb_true_iff in Hky as [Hk' Hy].
      apply Forall_cons in IHr as [IHy IHr]. cbn [snd] in IHy.
      cbn [map fold_right flat_map]. rewrite <- app_comm_cons.
      apply chunks_of_cons; [exact Hsep|].
      apply chunks_of_app; [now apply chunks_item_ok | now apply IHl]. }
    apply chunks_of_cons; [apply valid_nl | now apply chunks_of_one].
Qed.

(** ** Saving to the UTF-8 file *)

Lemma file_write_twice a b w old :
  favorites_file w = Some old ->
  file_write b (file_write a w) = file_write (a ++ b) w.
Proof.
  intros H. unfold file_write. cbn [favorites_file console]. rewrite H.
  now rewrite app_assoc_s.
Qed.

Lemma write_chunks_texts ts : forall w old,
  favorites_file w = Some old -> forallb valid_utf8 ts = true ->
  write_chunks (map Ok ts) w = (file_write (fold_right String.append "" ts) w, None).
Proof.
  induction ts as [|t ts IH]; intros w old Hw Hv.
  - cbn. unfold file_write. rewrite Hw, app_nil_r_s. destruct w; cbn in *; now subst.
  - cbn [forallb] in Hv. apply andb_true_iff in Hv as [Ht Hts].
    cbn [map write_chunks fold_right]. rewrite Ht.
    rewrite (IH (file_write t w) (old ++ t)); [| unfold file_write; cbn; now rewrite Hw | exact Hts].
    now rewrite (file_write_twice _ _ _ old).
Qed.

(** A store that can be encoded is saved as in the run without failure. *)
Lemma save_favorites_utf8_encodable favs w :
  encodable (favorites_json favs) = true ->
  save_favorites_utf8 favs w = save_favorites favs w.
Proof.
  intros He. unfold save_favorites_utf8, save_favorites, save_favorites_with, json_dump.
  destruct (iterencode_ok (favorites_json favs) 0 He) as (ts & -> & Hv & Htext).
  rewrite (write_chunks_texts ts (open_w w) "" eq_refl Hv). unfold dumps.
  now rewrite Htext.
Qed.

Lemma load_favorites_utf8_valid w text :
  favorites_file w = Some text -> valid_utf8 text = true ->
  load_favorites_utf8 w = load_favorites w.
Proof.
  intros Hw Hv. unfold load_favorites_utf8, load_favorites, load_favorites_with, json_load_utf8.
  now rewrite Hw, Hv.
Qed.

Lemma encodable_favorites favs :
  encodable (fav_maps favs) = true -> encodable (fav_mappacks favs) = true ->
  encodable (favorites_json favs) = true.
Proof. intros Hm Hp. cbn. now rewrite Hm, Hp. Qed.

(** Saving a store that can be encoded and loading it again gives the
    store back: the file is UTF-8 and the decoder reads it. *)
Lemma load_save_favorites_utf8 favs w :
  json_wf (fav_maps favs) = true -> json_wf (fav_mappacks favs) = true ->
  encodable (fav_maps favs) = true -> encodable (fav_mappacks favs) = true ->
  load_favorites_utf8 (save_favorites_utf8 favs w) = (favs, save_favorites favs w).
Proof.
  intros Hm Hp Hem Hep.
  pose proof (encodable_favorites favs Hem Hep) as He.
  rewrite (save_favorites_utf8_encodable favs w He).
  rewrite (load_favorites_utf8_valid _ (dumps (favorites_json favs))).
  - now apply load_save_favorites.
  - reflexivity.
  - eapply chunks_of_valid, iterencode_ok, He.
Qed.

(** C3, as the code has it: a store of two lists whose numbers are
    integers of at most 4300 digits, whose strings can be encoded in UTF-8
    (none holds a lone surrogate) and whose entries are nested at most 100
    deep, saved to the UTF-8 file and loaded again in a run in which the
    disk does not fail, is the same store: the file holds the text of the store, each
    list has the same identities in the same order, and nothing but the
    line of the save is printed.  An entry that is a bare identifier (a
    number, a text, a bool or null) is its own identity, has the
    placeholder author "Unknown" (which the text of its item leaves out),
    and makes an item of the favorites list without an exception, as a map
    and as a mappack. *)
Theorem favorites_round_trip (maps mappacks : list json) (w : World) :
  forallb json_wf maps = true -> forallb json_wf mappacks = true ->
  forallb encodable maps = true -> forallb encodable mappacks = true ->
  forallb shallow maps = true -> forallb shallow mappacks = true ->
  let favs := {| fav_maps := JList maps; fav_mappacks := JList mappacks |} in
  let saved := save_favorites_utf8 favs w in
  let loaded := fst (load_favorites_utf8 saved) in
  favorites_file saved = Some (dumps (favorites_json favs)) /\
  loaded = favs /\
  identities (fav_maps loaded) = Ok (map fav_identity maps) /\
  identities (fav_mappacks loaded) = Ok (map fav_identity mappacks) /\
  console (snd (load_favorites_utf8 saved)) = (console w ++ [FavoritesSaved])%list /\
  (forall fav, fav ∈ (maps ++ mappacks)%list -> scalar fav = true ->
     fav_identity fav = fav /\ fav_author fav = JStr "Unknown" /\
     map_item fav =
       {| item_parts := ["Map " ++ Py.str fav]; item_id := fav; item_kind := "map" |} /\
     mappack_item fav =
       Ok {| item_parts := ["Mappack " ++ Py.str fav]; item_id := fav;
             item_kind := "mappack" |}).
Proof.
  intros Hm Hp Hem Hep _ _ favs saved loaded.
  assert (Hl : load_favorites_utf8 saved = (favs, save_favorites favs w))
    by (apply load_save_favorites_utf8; assumption).
  assert (Hs : saved = save_favorites favs w).
  { apply save_favorites_utf8_encodable, encodable_favorites; assumption. }
  subst loaded. rewrite Hl, Hs. cbn [fst snd].
  repeat split; try reflexivity.
  all: destruct fav; try discriminate; reflexivity.
Qed.

Lemma favorites_round_trip_witness :
  fst (load_favorites_utf8 (save_favorites_utf8 sample_favorites no_file)) = sample_favorites /\
  identities (fav_maps (fst (load_favorites_utf8
                               (save_favorites_utf8 sample_favorites no_file))))
  = Ok [JNum 42; JNum 7].
Proof.
  pose proof (favorites_round_trip sample_maps sample_mappacks no_file
                eq_refl eq_refl eq_refl eq_refl eq_refl eq_refl) as H.
  cbv zeta in H. destruct H as (_ & H1 & H2 & _). split; [exact H1 | exact H2].
Defined.

(** C3 as stated fails for a store the program can hold.  A favorites file
    may name a map by an escaped lone surrogate: the file is ASCII, the
    decoder accepts the escape, and the window opens with the store.  The
    next save, which closing the window is enough to cause, empties the
    file, writes the text up to the name, and then cannot encode the name:
    what is persisted and loaded again is the empty store. *)
Lemma lone_surrogate_store_is_lost :
  load_favorites_utf8 surrogate_file = (surrogate_store, surrogate_file) /\
  json_wf (favorites_json surrogate_store) = true /\
  let saved := save_favorites_utf8 surrogate_store surrogate_file in
  saved = {| favorites_file := Some text_before_name;
             console := [FavoritesSavingError UnicodeEncodeError] |} /\
  fst (load_favorites_utf8 saved) = empty_favorites /\
  fst (load_favorites_utf8 saved) <> surrogate_store.
Proof.
  split; [vm_compute; reflexivity|]. split; [reflexivity|].
  cbv zeta. split; [vm_compute; reflexivity|].
  split; [vm_compute; reflexivity | vm_compute; discriminate].
Qed.

(** ** Saving and failures *)

(** C9 as stated fails: the file is emptied when it is opened, before the
    encoder has produced anything, and a dump that fails after five
    characters leaves a file that holds those five characters.  The store
    that was in the file is lost: the next load prints an error and
    returns the empty store. *)
Lemma interrupted_save_loses_store :
  fst (load_favorites good_world) = sample_favorites /\
  favorites_file (open_w good_world) = Some "" /\
  let w' := save_favorites_with (Some 5%nat) one_more good_world in
  console w' = [FavoritesSaved; FavoritesSavingError OSError] /\
  favorites_file w' <> favorites_file good_world /\
  (exists text, favorites_file w' = Some text /\ String.length text = 5%nat) /\
  fst (load_favorites w') = empty_favorites.
Proof.
  split; [vm_compute; reflexivity|]. split; [reflexivity|].
  cbv zeta. split; [vm_compute; reflexivity|]. split.
  - vm_compute. discriminate.
  - split; [eexists; split; vm_compute; reflexivity | vm_compute; reflexivity].
Qed.

(** C9, as the code has it: saving empties the file and writes the encoding
    of the store as the encoder produces it.  After a save without failure
    the file holds the whole encoding; after a failure it holds the part
    written before it, whatever the file held before; either way one line
    is printed and the call returns. *)
Theorem save_favorites_file_content fault favs w :
  let text := Json.dumps (favorites_json favs) in
  let w' := save_favorites_with fault favs w in
  match fault with
  | Some k =>
      if (k <? String.length text)%nat
      then favorites_file w' = Some (String.substring 0 k text) /\
           console w' = (console w ++ [FavoritesSavingError OSError])%list
      else favorites_file w' = Some text /\
           console w' = (console w ++ [FavoritesSaved])%list
  | None =>
      favorites_file w' = Some text /\ console w' = (console w ++ [FavoritesSaved])%list
  end.
Proof.
  cbv zeta. unfold save_favorites_with, json_dump.
  destruct fault as [k|]; [|split; reflexivity].
  destruct (k <? String.length (Json.dumps (favorites_json favs)))%nat; split; reflexivity.
Qed.

(** ** Equality of JSON values *)

Lemma dict_lookup_distinct d k v :
  distinct (map fst d) = true -> (k, v) ∈ d -> Py.dict_lookup k d = Some v.
Proof.
  induction d as [|[k' v'] d IH]; cbn [map fst distinct Py.dict_lookup].
  - intros _ Hin. inversion Hin.
  - intros [Hk Hd]%andb_true_iff Hin. apply elem_of_cons in Hin as [[= -> ->] | Hin].
    + now rewrite String.eqb_refl.
    + destruct (String.eqb_spec k' k) as [-> | _]; [|now apply IH].
      apply negb_true_iff in Hk. exfalso.
      apply not_true_iff_false in Hk. apply Hk, existsb_exists.
      exists k. split; [|apply String.eqb_refl].
      apply list_elem_of_In, list_elem_of_fmap. now exists (k, v).
Qed.

Lemma eq_items_sub (whole d : list (string * json)) :
  Forall (fun kv => json_wf (snd kv) = true -> Py.eq (snd kv) (snd kv) = true) d ->
  forallb (fun kv => match kv with (_, x) => json_wf x end) d = true ->
  (forall k v, (k, v) ∈ d -> Py.dict_lookup k whole = Some v) ->
  (fix eq_items (d : list (string * json)) {struct d} : bool :=
     match d with
     | [] => true
     | (k, v) :: r =>
         match Py.dict_lookup k whole with
         | Some v' => Py.eq v v'
         | None => false
         end && eq_items r
     end) d = true.
Proof.
  induction 1 as [|[k x] r Hx _ IHr]; [reflexivity|]. intros Hwf Hsub.
  cbn [forallb] in Hwf. apply andb_true_iff in Hwf as [Hwx Hwr].
  rewrite (Hsub k x) by left. cbn [snd] in Hx. rewrite (Hx Hwx). cbn [andb].
  apply IHr; [exact Hwr|]. intros k' v' Hin. apply Hsub. now right.
Qed.

(** A value is equal to itself. *)
Lemma Py_eq_refl v : json_wf v = true -> Py.eq v v = true.
Proof.
  induction v as [| b | n | s | l IH | d IH] using json_ind'; cbn [Py.eq json_wf].
  - reflexivity.
  - intros _. now destruct b.
  - intros _. apply Z.eqb_refl.
  - intros _. apply String.eqb_refl.
  - intros Hwf. induction IH as [|x r Hx _ IHr]; [reflexivity|].
    cbn [forallb] in Hwf. apply andb_true_iff in Hwf as [Hwx Hwr].
    now rewrite (Hx Hwx), (IHr Hwr).
  - intros [Hkeys Hwf]%andb_true_iff. rewrite Nat.eqb_refl. cbn [andb].
    apply eq_items_sub; [exact IH | exact Hwf |].
    intros k v. now apply dict_lookup_distinct.
Qed.

(** ** Adding and removing favorites *)

Lemma getitem_id_ok fav : has_id fav = true -> Py.getitem fav "id" = Ok (fav_identity fav).
Proof.
  destruct fav as [| | | | |d]; try discriminate. cbn.
  destruct (Py.dict_lookup "id" d); [reflexivity | discriminate].
Qed.

Lemma getitem_id_total fav : is_ok (Py.getitem fav "id") = has_id fav.
Proof.
  destruct fav as [| | | | |d]; try reflexivity. cbn.
  destruct (Py.dict_lookup "id" d); reflexivity.
Qed.

Lemma ids_of_ok favs :
  forallb has_id favs = true -> ids_of favs = Ok (map fav_identity favs).
Proof.
  induction favs as [|fav rest IH]; [reflexivity|].
  cbn [forallb ids_of map]. intros [Hf Hr]%andb_true_iff.
  now rewrite (getitem_id_ok fav Hf), (IH Hr).
Qed.

Lemma ids_of_total favs : is_ok (ids_of favs) = forallb has_id favs.
Proof.
  induction favs as [|fav rest IH]; [reflexivity|].
  cbn [forallb ids_of]. rewrite <- getitem_id_total, <- IH.
  destruct (Py.getitem fav "id"); [|reflexivity].
  cbn [rbind is_ok andb]. destruct (ids_of rest); reflexivity.
Qed.

Lemma getitem_id_raises fav e :
  Py.getitem fav "id" = Raise e ->
  e = TypeError /\ legacy fav = true \/ e = KeyError /\ favorite_entry fav = false.
Proof.
  destruct fav as [| | | | |d]; cbn; try (intros [= <-]; left; split; reflexivity).
  unfold favorite_entry, legacy, has_id. cbn.
  destruct (Py.dict_lookup "id" d); [discriminate|]. intros [= <-]. right. split; reflexivity.
Qed.

(** A bare identifier in the list ends the comprehension with an
    exception: a [TypeError], unless an object without "id" comes first. *)
Lemma ids_of_legacy favs :
  existsb legacy favs = true ->
  exists e, ids_of favs = Raise e /\
            (forallb favorite_entry favs = true -> e = TypeError).
Proof.
  induction favs as [|fav rest IH]; [discriminate|].
  cbn [forallb existsb ids_of]. intros Hex.
  destruct (Py.getitem fav "id") as [id|e] eqn:Hget.
  - assert (Hl : legacy fav = false).
    { destruct fav; try discriminate Hget; reflexivity. }
    rewrite Hl in Hex. destruct (IH Hex) as (e & -> & He).
    exists e. split; [reflexivity|]. intros [_ Hr]%andb_true_iff. auto.
  - exists e. split; [reflexivity|]. intros [Hf _]%andb_true_iff.
    destruct (getitem_id_raises fav e Hget) as [[-> _] | [_ Hn]]; congruence.
Qed.

Lemma without_id_ok item_id favs :
  forallb has_id favs = true ->
  without_id item_id favs =
  Ok (List.filter (fun fav => negb (Py.eq (fav_identity fav) item_id)) favs).
Proof.
  induction favs as [|fav rest IH]; [reflexivity|].
  cbn [forallb without_id List.filter]. intros [Hf Hr]%andb_true_iff.
  rewrite (getitem_id_ok fav Hf), (IH Hr). cbn [rbind].
  destruct (Py.eq (fav_identity fav) item_id); reflexivity.
Qed.

Lemma without_id_total item_id favs :
  is_ok (without_id item_id favs) = forallb has_id favs.
Proof.
  induction favs as [|fav rest IH]; [reflexivity|].
  cbn [forallb without_id]. rewrite <- getitem_id_total, <- IH.
  destruct (Py.getitem fav "id"); [|reflexivity].
  cbn [rbind is_ok andb]. destruct (without_id item_id rest); reflexivity.
Qed.

Lemma without_id_legacy item_id favs :
  existsb legacy favs = true ->
  exists e, without_id item_id favs = Raise e /\
            (forallb favorite_entry favs = true -> e = TypeError).
Proof.
  induction favs as [|fav rest IH]; [discriminate|].
  cbn [forallb existsb without_id]. intros Hex.
  destruct (Py.getitem fav "id") as [id|e] eqn:Hget.
  - assert (Hl : legacy fav = false).
    { destruct fav; try discriminate Hget; reflexivity. }
    rewrite Hl in Hex. destruct (IH Hex) as (e & -> & He).
    exists e. split; [reflexivity|]. intros [_ Hr]%andb_true_iff. auto.
  - exists e. split; [reflexivity|]. intros [Hf _]%andb_true_iff.
    destruct (getitem_id_raises fav e Hget) as [[-> _] | [_ Hn]]; congruence.
Qed.

(** C10: the list of ids that [add] builds and the filter of [remove]
    subscript every entry with ["id"]; they return exactly when every entry
    is an object with an "id".  When the list an operation works on holds a
    bare identifier, each of the three operations, with something
    selected, ends with an exception and changes nothing; the exception is
    a [TypeError] when the entries are those of the favorites file, bare
    identifiers and objects with an "id". *)
Theorem bare_identifier_raises :
  (forall favs, is_ok (ids_of favs) = forallb has_id favs) /\
  (forall item_id favs, is_ok (without_id item_id favs) = forallb has_id favs) /\
  (forall b m favs,
     selected_map b = Some m -> fav_maps (favorites b) = JList favs ->
     existsb legacy favs = true ->
     exists e, add_to_favorites b = (b, Some e) /\
               (forallb favorite_entry favs = true -> e = TypeError)) /\
  (forall b p favs,
     selected_mappack b = Some p -> fav_mappacks (favorites b) = JList favs ->
     existsb legacy favs = true ->
     exists e, add_mappack_to_favorites b = (b, Some e) /\
               (forallb favorite_entry favs = true -> e = TypeError)) /\
  (forall b item favs,
     current_item b = Some item -> target_list item (favorites b) = JList favs ->
     existsb legacy favs = true ->
     exists e, remove_favorite b = (b, Some e) /\
               (forallb favorite_entry favs = true -> e = TypeError)).
Proof.
  split; [exact ids_of_total|]. split; [exact without_id_total|].
  split; [|split].
  - intros b m favs Hsel Hl Hleg. unfold add_to_favorites.
    rewrite Hsel, Hl. cbn [Py.iter rbind].
    destruct (ids_of_legacy favs Hleg) as (e & -> & He). eauto.
  - intros b p favs Hsel Hl Hleg. unfold add_mappack_to_favorites.
    rewrite Hsel, Hl. cbn [Py.iter rbind].
    destruct (ids_of_legacy favs Hleg) as (e & -> & He). eauto.
  - intros b item favs Hcur Hl Hleg. unfold remove_favorite, target_list in *.
    rewrite Hcur. destruct (String.eqb (item_kind item) "map"); rewrite Hl;
      cbn [Py.iter rbind];
      destruct (without_id_legacy (item_id item) favs Hleg) as (e & -> & He); eauto.
Qed.

Lemma bare_identifier_raises_witness :
  (exists e, add_to_favorites (select_map scenario_map legacy_browser)
               = (select_map scenario_map legacy_browser, Some e) /\ e = TypeError) /\
  (exists e, add_mappack_to_favorites (select_mappack scenario_pack legacy_browser)
               = (select_mappack scenario_pack legacy_browser, Some e) /\ e = TypeError) /\
  (exists e, remove_favorite (select_item 0 legacy_browser)
               = (select_item 0 legacy_browser, Some e) /\ e = TypeError).
Proof.
  destruct bare_identifier_raises as (_ & _ & Hadd & Hpack & Hremove).
  split; [|split].
  - destruct (Hadd (select_map scenario_map legacy_browser) scenario_map [JNum 1001]
                eq_refl eq_refl eq_refl) as (e & H & He).
    exists e. split; [exact H | apply He; reflexivity].
  - destruct (Hpack (select_mappack scenario_pack legacy_browser) scenario_pack [JNum 5]
                eq_refl eq_refl eq_refl) as (e & H & He).
    exists e. split; [exact H | apply He; reflexivity].
  - destruct (Hremove (select_item 0 legacy_browser)
                {| item_parts := ["Map 1001"]; item_id := JNum 1001; item_kind := "map" |}
                [JNum 1001] eq_refl eq_refl eq_refl) as (e & H & He).
    exists e. split; [exact H | apply He; reflexivity].
Defined.

(** An object without "id" before the bare identifier: a [KeyError]. *)
Example ids_of_missing_id :
  ids_of [JDict [("name", JStr "x")]; JNum 5] = Raise KeyError.
Proof. reflexivity. Qed.

Lemma refresh_favorites_keeps b :
  favorites (fst (refresh_favorites b)) = favorites b /\
  world (fst (refresh_favorites b)) = world b /\
  status_label (fst (refresh_favorites b)) = status_label b.
Proof. unfold refresh_favorites. destruct (render_favorites (favorites b)). repeat split. Qed.

(** On a list of objects with ids, adding a map whose id is in the list
    changes nothing but the status. *)
Lemma add_to_favorites_present b m favs :
  selected_map b = Some m -> fav_maps (favorites b) = JList favs ->
  forallb has_id favs = true ->
  Py.contains (TrackID m) (map fav_identity favs) = true ->
  add_to_favorites b = (set_status AlreadyInFavorites b, None).
Proof.
  intros Hsel Hl Hids Hin. unfold add_to_favorites.
  rewrite Hsel, Hl. cbn [Py.iter rbind]. rewrite (ids_of_ok favs Hids). cbn [rbind].
  now rewrite Hin.
Qed.

(** On a list of objects with ids, adding a map whose id is not in the
    list puts its entry at the end and writes the store to the file. *)
Lemma add_to_favorites_fresh b m favs :
  selected_map b = Some m -> fav_maps (favorites b) = JList favs ->
  forallb has_id favs = true ->
  Py.contains (TrackID m) (map fav_identity favs) = false ->
  let favs' := {| fav_maps := JList (favs ++ [map_entry m]);
                  fav_mappacks := fav_mappacks (favorites b) |} in
  let b' := fst (add_to_favorites b) in
  favorites b' = favs' /\
  status_label b' = AddedToFavorites /\
  favorites_file (world b') = Some (Json.dumps (favorites_json favs')).
Proof.
  intros Hsel Hl Hids Hin. cbv zeta. unfold add_to_favorites.
  rewrite Hsel, Hl. cbn [Py.iter rbind]. rewrite (ids_of_ok favs Hids). cbn [rbind].
  rewrite Hin. cbn [Py.append rbind].
  match goal with |- context [refresh_favorites ?x] =>
    destruct (refresh_favorites_keeps x) as (-> & -> & ->) end.
  repeat split.
Qed.

Lemma contains_app_last x xs : Py.eq x x = true -> Py.contains x (xs ++ [x]) = true.
Proof.
  intros H. unfold Py.contains. rewrite existsb_app. cbn. rewrite H. now rewrite orb_true_r.
Qed.

(** On a list of objects with ids, adding the selected map a second time
    reports that it is there and changes nothing else: the first call has
    left its id in the list, once if it was not there before. *)
Lemma add_to_favorites_twice b m favs :
  selected_map b = Some m -> fav_maps (favorites b) = JList favs ->
  forallb has_id favs = true -> json_wf (TrackID m) = true ->
  let b1 := fst (add_to_favorites b) in
  add_to_favorites b1 = (set_status AlreadyInFavorites b1, None) /\
  (Py.contains (TrackID m) (map fav_identity favs) = false ->
   fav_maps (favorites b1) = JList (favs ++ [map_entry m])).
Proof.
  intros Hsel Hl Hids Hwf. cbv zeta.
  destruct (Py.contains (TrackID m) (map fav_identity favs)) eqn:Hin.
  - rewrite (add_to_favorites_present b m favs Hsel Hl Hids Hin). cbn [fst].
    split; [|discriminate].
    apply (add_to_favorites_present _ m favs); assumption.
  - destruct (add_to_favorites_fresh b m favs Hsel Hl Hids Hin) as (Hf & _ & _).
    cbv zeta in Hf. split; [|intros _; now rewrite Hf].
    apply (add_to_favorites_present _ m (favs ++ [map_entry m])).
    + unfold add_to_favorites. rewrite Hsel, Hl. cbn [Py.iter rbind].
      rewrite (ids_of_ok favs Hids). cbn [rbind]. rewrite Hin. cbn [Py.append rbind].
      unfold refresh_favorites. now destruct (render_favorites _).
    + now rewrite Hf.
    + rewrite forallb_app, Hids. reflexivity.
    + rewrite map_app. cbn [map fav_identity map_entry Py.dict_lookup].
      change (String.eqb "id" "id") with true. cbv iota.
      now apply contains_app_last, Py_eq_refl.
Qed.

(** On a list of objects with ids, removing an item keeps the entries
    with another id, in their order, and writes the store to the file. *)
Lemma remove_favorite_objects b item favs :
  current_item b = Some item -> item_kind item = "map" ->
  fav_maps (favorites b) = JList favs -> forallb has_id favs = true ->
  let kept := List.filter (fun fav => negb (Py.eq (fav_identity fav) (item_id item))) favs in
  let favs' := {| fav_maps := JList kept; fav_mappacks := fav_mappacks (favorites b) |} in
  let b' := fst (remove_favorite b) in
  favorites b' = favs' /\
  favorites_file (world b') = Some (Json.dumps (favorites_json favs')).
Proof.
  intros Hcur Hkind Hl Hids. cbv zeta. unfold remove_favorite.
  rewrite Hcur, Hkind, Hl. change (String.eqb "map" "map") with true. cbv iota.
  cbn [Py.iter rbind]. rewrite (without_id_ok _ favs Hids). cbn [rbind].
  match goal with |- context [refresh_favorites ?x] =>
    destruct (refresh_favorites_keeps x) as (-> & -> & _) end.
  repeat split.
Qed.


(** C2: on a store whose map list holds a bare identifier, adding the
    selected map ends with a [TypeError]: no entry is added, nothing is
    written, the status does not change.  The store of the older format
    loads and fills the favorites tab without an error. *)
Theorem add_to_favorites_legacy_store :
  startup legacy_world =
    ({| favorites := {| fav_maps := JList [JNum 1001]; fav_mappacks := JList [JNum 5] |};
        selected_map := None; selected_mappack := None; status_label := Ready;
        favorites_list :=
          [{| item_parts := ["Map 1001"]; item_id := JNum 1001; item_kind := "map" |};
           {| item_parts := ["Mappack 5"]; item_id := JNum 5; item_kind := "mappack" |}];
        current_item := None; world := legacy_world |}, None) /\
  Py.contains (TrackID scenario_map) [JNum 1001] = false /\
  add_to_favorites (select_map scenario_map legacy_browser)
    = (select_map scenario_map legacy_browser, Some TypeError).
Proof. vm_compute. repeat split. Qed.

(** C8: on the same store, removing the item of the bare identifier 1001
    ends with a [TypeError]: the entry stays in the list and nothing is
    written; removing with an identity that is in no entry fails the same
    way. *)
Theorem remove_favorite_legacy_store :
  current_item (select_item 0 legacy_browser)
    = Some {| item_parts := ["Map 1001"]; item_id := JNum 1001; item_kind := "map" |} /\
  remove_favorite (select_item 0 legacy_browser)
    = (select_item 0 legacy_browser, Some TypeError) /\
  favorites (fst (remove_favorite (select_item 0 legacy_browser)))
    = {| fav_maps := JList [JNum 1001]; fav_mappacks := JList [JNum 5] |} /\
  without_id (JNum 1000) [JNum 1001] = Raise TypeError.
Proof. vm_compute. repeat split. Qed.

(** * Further properties of the code *)

Example format_time_samples :
  format_time (JNum 45000) = Ok "00:45.000" /\
  format_time (JNum 83456) = Ok "01:23.456" /\
  format_time (JNum 7) = Ok "00:00.007" /\
  format_time (JNum 6000000) = Ok "100:00.000" /\
  format_time (JNum (-1)) = Ok "-1:59.999" /\
  format_time (JNum 0) = Ok "---" /\
  format_time (JBool true) = Ok "00:00.001" /\
  format_time JNull = Raise TypeError.
Proof. repeat split. Qed.

(** ** Times *)

Lemma int_str_nonneg n :
  0 <= n ->
  exists u, Json.int_str n = NilEmpty.string_of_uint u /\ Z.of_uint u = n.
Proof.
  intros Hn. unfold Json.int_str.
  pose proof (DecimalZ.of_to n) as Hval.
  destruct n as [|p|p]; [exists Decimal.zero; split; reflexivity | | lia].
  cbn [Z.to_int] in *. cbn [Z.of_int] in Hval.
  exists (Pos.to_uint p). split; [|exact Hval].
  cbn [NilZero.string_of_int]. unfold NilZero.string_of_uint.
  destruct (Pos.to_uint p) eqn:E; try reflexivity.
  exfalso. revert E. apply DecimalPos.Unsigned.to_uint_nonnil.
Qed.

Lemma digit_string_uint u : digit_string (NilEmpty.string_of_uint u) = true.
Proof. induction u; cbn; auto. Qed.

Lemma digit_string_zeros k s : digit_string (zeros k ++ s) = digit_string s.
Proof. induction k as [|k IH]; [reflexivity | exact IH]. Qed.

Lemma dec_value_zeros k s : dec_value (zeros k ++ s) = dec_value s.
Proof.
  induction k as [|k IH]; [reflexivity|].
  cbn [zeros String.append]. unfold dec_value in *. cbn [NilEmpty.uint_of_string].
  destruct (NilEmpty.uint_of_string (zeros k ++ s)) as [u|] eqn:E;
    destruct (NilEmpty.uint_of_string s) as [u'|]; cbn; try discriminate; try reflexivity.
  exact IH.
Qed.

(** A nonnegative number shown with [format_d] is a string of digits that
    reads back as the number. *)
Lemma format_d_nonneg w n :
  0 <= n ->
  digit_string (format_d w n) = true /\ dec_value (format_d w n) = Some n.
Proof.
  intros Hn. unfold format_d.
  assert ((n <? 0) = false) as -> by (apply Z.ltb_ge; lia).
  rewrite Z.abs_eq by lia. cbn [String.append].
  destruct (int_str_nonneg n Hn) as (u & -> & Hu).
  rewrite digit_string_zeros, dec_value_zeros, digit_string_uint.
  split; [reflexivity|]. unfold dec_value. now rewrite NilEmpty.usu, Hu.
Qed.

Lemma split_at_digits c a r :
  Json.is_digit c = false -> digit_string a = true ->
  split_at c (a ++ String c r) = (a, r).
Proof.
  intros Hc. induction a as [|x a IH]; cbn [digit_string String.append split_at].
  - intros _. now rewrite Ascii.eqb_refl.
  - intros [Hx Ha]%andb_true_iff.
    destruct (Ascii.eqb_spec x c) as [-> | _]; [congruence|].
    now rewrite (IH Ha).
Qed.

(** The text of a positive time reads back as the time. *)
Lemma read_format_time ms :
  0 < ms -> exists text, format_time (JNum ms) = Ok text /\ read_time text = Some ms.
Proof.
  intros Hms. unfold format_time. cbn [Py.eq].
  assert ((ms =? 0) = false) as -> by (apply Z.eqb_neq; lia).
  cbn [Py.floordiv Py_mod rbind]. eexists. split; [reflexivity|].
  assert (H1 : 0 <= ms / 1000) by (apply Z.div_pos; lia).
  assert (Hm : 0 <= ms / 1000 / 60) by (apply Z.div_pos; lia).
  assert (Hs : 0 <= (ms / 1000) mod 60) by (apply Z.mod_pos_bound; lia).
  assert (Hl : 0 <= ms mod 1000) by (apply Z.mod_pos_bound; lia).
  destruct (format_d_nonneg 2 _ Hm) as [Dm Vm].
  destruct (format_d_nonneg 2 _ Hs) as [Ds Vs].
  destruct (format_d_nonneg 3 _ Hl) as [Dl Vl].
  unfold read_time.
  change (":" ++ ?x) with (String ":" x). rewrite split_at_digits by (reflexivity || assumption).
  change ("." ++ ?x) with (String "." x). rewrite split_at_digits by (reflexivity || assumption).
  rewrite Vm, Vs, Vl. f_equal.
  pose proof (Z.div_mod ms 1000). pose proof (Z.div_mod (ms / 1000) 60). lia.
Qed.

(** X1: different nonnegative times are shown differently, and only the time
    zero is shown as the placeholder. *)
Theorem format_time_injective a b :
  0 <= a -> 0 <= b -> format_time (JNum a) = format_time (JNum b) -> a = b.
Proof.
  intros Ha Hb Heq.
  destruct (Z.eq_dec a 0) as [-> | Hna]; destruct (Z.eq_dec b 0) as [-> | Hnb];
    [reflexivity | | |].
  - destruct (read_format_time b) as (t & Ht & Hr); [lia|].
    rewrite Ht in Heq. change (format_time (JNum 0)) with (Ok "---") in Heq.
    injection Heq as <-. discriminate Hr.
  - destruct (read_format_time a) as (t & Ht & Hr); [lia|].
    rewrite Ht in Heq. change (format_time (JNum 0)) with (Ok "---") in Heq.
    injection Heq as ->. discriminate Hr.
  - destruct (read_format_time a) as (t & Ht & Hr); [lia|].
    destruct (read_format_time b) as (t' & Ht' & Hr'); [lia|].
    rewrite Ht, Ht' in Heq. injection Heq as <-. congruence.
Qed.

Lemma format_time_injective_witness : 61001 = 61001.
Proof. apply (format_time_injective 61001 61001); [lia | lia | reflexivity]. Defined.

(** ** Labels of lengths and enumerations *)

Lemma get_length_name_int n :
  get_length_name (JNum n) =
  Ok (if n <? 30000 then "0-30 sec"
      else if n <? 60000 then "30-60 sec"
      else if n <? 120000 then "1-2 min"
      else if n <? 300000 then "2-5 min"
      else "5+ min").
Proof.
  unfold get_length_name. cbn [Py.eq Py.floordiv rbind].
  destruct (Z.eqb_spec n 0) as [-> | Hn]; [reflexivity|].
  assert (Hdiv : forall k, 0 < k -> (n / 1000 <? k) = (n <? k * 1000)).
  { intros k Hk. apply eq_iff_eq_true. rewrite !Z.ltb_lt.
    split; intros H.
    - apply Z.nle_gt. intros Hge. apply Z.nle_gt in H. apply H.
      apply Z.div_le_lower_bound; lia.
    - apply Z.div_lt_upper_bound; lia. }
  rewrite (Hdiv 30), (Hdiv 60), (Hdiv 120), (Hdiv 300) by lia.
  change (30 * 1000) with 30000. change (60 * 1000) with 60000.
  change (120 * 1000) with 120000. change (300 * 1000) with 300000.
  repeat (destruct (_ <? _); [reflexivity|]). reflexivity.
Qed.

(** X2: the label of a length agrees with the length filter: a length from
    the minimum of a bucket up to, but not including, its maximum gets the
    label of that bucket. *)
Theorem length_label_of_bucket label lo hi n :
  length_map !! label = Some (lo, hi) -> lo <= n < hi ->
  get_length_name (JNum n) = Ok label.
Proof.
  intros Hmap Hn. rewrite get_length_name_int.
  apply elem_of_list_to_map_2 in Hmap.
  rewrite !elem_of_cons, elem_of_nil in Hmap.
  destruct Hmap as [H|[H|[H|[H|[H|[]]]]]]; injection H as -> -> ->;
    repeat match goal with
           | |- context [?a <? ?b] =>
               destruct (Z.ltb_spec a b); try lia
           end; reflexivity.
Qed.

Lemma length_label_of_bucket_witness :
  get_length_name (JNum 59999) = Ok "30-60 sec".
Proof.
  apply (length_label_of_bucket "30-60 sec" 30000 60000 59999); [reflexivity | lia].
Defined.

(** A length equal to the maximum of a bucket gets the label of the next
    bucket. *)
Example length_label_at_maximum :
  get_length_name (JNum 30000) = Ok "30-60 sec" /\
  get_length_name (JNum 300000) = Ok "5+ min" /\
  get_length_name (JNum 999999999) = Ok "5+ min" /\
  get_length_name (JNum (-5)) = Ok "0-30 sec".
Proof. repeat split. Qed.

(** X3: the label of a length is found exactly for a number or a bool, and
    is then one of the five buckets of the length selector. *)
Theorem get_length_name_defined v :
  is_ok (get_length_name v) =
    match v with JNum _ | JBool _ => true | _ => false end /\
  (forall label, get_length_name v = Ok label ->
     label ∈ length_items /\ label <> "All").
Proof.
  split.
  - destruct v as [| [] | n | s | l | d]; try reflexivity.
    rewrite get_length_name_int. reflexivity.
  - intros label H. destruct v as [| [] | n | s | l | d]; try discriminate H.
    + injection H as <-. split; [unfold length_items; set_solver | discriminate].
    + injection H as <-. split; [unfold length_items; set_solver | discriminate].
    + rewrite get_length_name_int in H. injection H as <-.
      repeat (destruct (_ <? _);
              [split; [unfold length_items; set_solver | discriminate]|]).
      split; [unfold length_items; set_solver | discriminate].
Qed.

Lemma get_length_name_defined_witness :
  "30-60 sec" ∈ length_items /\ "30-60 sec" <> "All".
Proof.
  apply (proj2 (get_length_name_defined (JNum 45000)) "30-60 sec"). reflexivity.
Defined.

(** X4: the ordinal the query builder sends for an environment or a
    difficulty is shown under the same name when it comes back in a
    record; the difficulty 4, shown as "Expert+", is the ordinal of no item
    of the difficulty filter. *)
Theorem enum_ordinal_round_trip :
  (forall name o,
     env_map !! name = Some o -> get_enum_name (JNum o) "environment" = Ok name) /\
  (forall name o,
     diff_map !! name = Some o -> get_enum_name (JNum o) "difficulty" = Ok name) /\
  get_enum_name (JNum 4) "difficulty" = Ok "Expert+" /\
  (forall name, diff_map !! name <> Some 4).
Proof.
  split; [|split; [|split; [reflexivity|]]].
  - intros name o H. apply elem_of_list_to_map_2 in H.
    rewrite !elem_of_cons, elem_of_nil in H.
    destruct H as [H|[H|[H|[H|[]]]]]; injection H as -> ->; reflexivity.
  - intros name o H. apply elem_of_list_to_map_2 in H.
    rewrite !elem_of_cons, elem_of_nil in H.
    destruct H as [H|[H|[H|[H|[]]]]]; injection H as -> ->; reflexivity.
  - intros name H. apply elem_of_list_to_map_2 in H.
    rewrite !elem_of_cons, elem_of_nil in H.
    destruct H as [H|[H|[H|[H|[]]]]]; discriminate H.
Qed.

Lemma enum_ordinal_round_trip_witness :
  get_enum_name (JNum 2) "environment" = Ok "Rally" /\
  get_enum_name (JNum 3) "difficulty" = Ok "Expert".
Proof.
  destruct enum_ordinal_round_trip as (Henv & Hdiff & _). split.
  - apply Henv. reflexivity.
  - apply Hdiff. reflexivity.
Defined.

Lemma environment_names_other n :
  ~ 0 <= n <= 3 -> environment_names !! n = None.
Proof.
  intros H. unfold environment_names.
  repeat (rewrite lookup_insert_ne by lia). apply lookup_empty.
Qed.

Lemma difficulty_names_other n :
  ~ 0 <= n <= 4 -> difficulty_names !! n = None.
Proof.
  intros H. unfold difficulty_names.
  repeat (rewrite lookup_insert_ne by lia). apply lookup_empty.
Qed.

(** X5: the name of an environment or a difficulty is found for every value
    but a list or an object, for which the lookup raises; an integer
    outside the table is shown by its digits, a string as it is, a missing
    value as "None". *)
Theorem get_enum_name_fallback v :
  (is_ok (get_enum_name v "environment") =
     match v with JList _ | JDict _ => false | _ => true end) /\
  (is_ok (get_enum_name v "difficulty") =
     match v with JList _ | JDict _ => false | _ => true end) /\
  (forall n, v = JNum n -> ~ 0 <= n <= 3 ->
     get_enum_name v "environment" = Ok (Json.int_str n)) /\
  (forall n, v = JNum n -> ~ 0 <= n <= 4 ->
     get_enum_name v "difficulty" = Ok (Json.int_str n)) /\
  (forall s, v = JStr s ->
     get_enum_name v "environment" = Ok s /\ get_enum_name v "difficulty" = Ok s) /\
  (v = JNull ->
     get_enum_name v "environment" = Ok "None" /\ get_enum_name v "difficulty" = Ok "None").
Proof.
  assert (Hok : forall t table, enum_map t = Some table ->
            is_ok (get_enum_name v t) = match v with JList _ | JDict _ => false | _ => true end).
  { intros t table Ht. unfold get_enum_name. rewrite Ht.
    destruct v as [| b | n | s | l | d]; cbn [enum_key rbind mbind option_bind];
      try reflexivity.
    - cbn. destruct (table !! Py.bool_to_Z b); reflexivity.
    - cbn. destruct (table !! n); reflexivity. }
  split; [apply (Hok _ environment_names); reflexivity|].
  split; [apply (Hok _ difficulty_names); reflexivity|].
  split; [|split; [|split]].
  - intros n -> Hn. unfold get_enum_name.
    change (enum_map "environment") with (Some environment_names).
    cbn. now rewrite environment_names_other.
  - intros n -> Hn. unfold get_enum_name.
    change (enum_map "difficulty") with (Some difficulty_names).
    cbn. now rewrite difficulty_names_other.
  - intros s ->. split; reflexivity.
  - intros ->. split; reflexivity.
Qed.

Lemma get_enum_name_fallback_witness :
  get_enum_name (JNum 7) "environment" = Ok "7".
Proof.
  apply (proj1 (proj2 (proj2 (get_enum_name_fallback (JNum 7)))) 7); [reflexivity | lia].
Defined.

(** ** Records of mappacks and the workers *)



Lemma map_results_Forall2 ms : forall infos,
  map_results ms = Ok infos -> Forall2 (fun m info => MapInfo_init m = Ok info) ms infos.
Proof.
  induction ms as [|m ms IH]; intros infos; cbn [map_results].
  - intros [= <-]. constructor.
  - destruct (MapInfo_init m) as [info|e] eqn:Hm; [|discriminate]. cbn [rbind].
    destruct (map_results ms) as [rest|e]; [|discriminate]. cbn [rbind].
    intros [= <-]. constructor; [exact Hm | now apply IH].
Qed.

Lemma map_results_failure ms m :
  m ∈ ms -> is_ok (MapInfo_init m) = false -> is_ok (map_results ms) = false.
Proof.
  induction ms as [|x ms IH]; [intros H; inversion H|].
  intros Hin Hbad. cbn [map_results].
  destruct (MapInfo_init x) as [info|e] eqn:Hx; [|reflexivity]. cbn [rbind].
  apply elem_of_cons in Hin as [-> | Hin]; [rewrite Hx in Hbad; discriminate|].
  specialize (IH Hin Hbad). destruct (map_results ms); [discriminate | reflexivity].
Qed.

(** X7: a map search emits either one record for every result, in the order
    of the results, or an error: one result the constructor raises on makes
    the worker emit the error instead of the other maps. *)
Theorem SearchWorker_all_or_nothing d ms :
  Py.dict_lookup "Results" d = Some (JList ms) ->
  (forall infos,
     SearchWorker_run (Ok (JDict d)) = finished infos ->
     Forall2 (fun m info => MapInfo_init m = Ok info) ms infos) /\
  (forall m, m ∈ ms -> is_ok (MapInfo_init m) = false ->
     exists e, SearchWorker_run (Ok (JDict d)) = error (Failure e)).
Proof.
  intros Hd. unfold SearchWorker_run, search_results. cbn [rbind]. rewrite Hd.
  cbn [Py.iter rbind]. split.
  - intros infos H. apply map_results_Forall2.
    destruct (map_results ms); [injection H as ->; reflexivity | discriminate].
  - intros m Hin Hbad. pose proof (map_results_failure ms m Hin Hbad) as H.
    destruct (map_results ms) as [|e]; [discriminate|]. exists e. reflexivity.
Qed.

Lemma SearchWorker_all_or_nothing_witness :
  exists e,
    SearchWorker_run
      (Ok (JDict [("Results", JList [scenario_record; JDict [("Length", JNull)]])]))
    = error (Failure e).
Proof.
  apply (proj2 (SearchWorker_all_or_nothing
                  [("Results", JList [scenario_record; JDict [("Length", JNull)]])]
                  [scenario_record; JDict [("Length", JNull)]] eq_refl)
           (JDict [("Length", JNull)])).
  - repeat constructor.
  - reflexivity.
Defined.

(** X8: the worker for one map looks at the first result only: it emits the
    record of the first result, or the error of its constructor, whatever
    the other results are; without a non-empty "Results" it emits "Map not
    found", and the exception of the request becomes the error. *)
Theorem MapInfoWorker_first_result :
  (forall d m rest,
     Py.dict_lookup "Results" d = Some (JList (m :: rest)) ->
     MapInfoWorker_run (Ok (JDict d)) = emit (MapInfo_init m)) /\
  (forall d, Py.dict_lookup "Results" d = None \/
             Py.dict_lookup "Results" d = Some (JList []) ->
     MapInfoWorker_run (Ok (JDict d)) = error MapNotFound) /\
  (forall data, Py.isinstance_dict data = false ->
     MapInfoWorker_run (Ok data) = error MapNotFound) /\
  (forall e, MapInfoWorker_run (Raise e) = error (Failure e)).
Proof.
  split; [|split; [|split]].
  - intros d m rest Hd. unfold MapInfoWorker_run. cbn [rbind]. rewrite Hd.
    cbn [Py.len rbind].
    assert ((0 <? Z.of_nat (length (m :: rest))) = true) as ->
      by (apply Z.ltb_lt; cbn [length]; lia).
    cbn [Py.getitem0 rbind]. destruct (MapInfo_init m); reflexivity.
  - intros d [Hd | Hd]; unfold MapInfoWorker_run; cbn [rbind]; rewrite Hd; reflexivity.
  - intros data Hd. destruct data; try discriminate; reflexivity.
  - reflexivity.
Qed.

Lemma MapInfoWorker_first_result_witness :
  MapInfoWorker_run (Ok (JDict [("Results", JList [scenario_record; JNull])]))
  = finished scenario_map.
Proof.
  rewrite (proj1 MapInfoWorker_first_result
             [("Results", JList [scenario_record; JNull])] scenario_record [JNull] eq_refl).
  reflexivity.
Defined.

(** ** Every query for maps *)

Lemma search_query_fixed f :
  search_query f !! "fields" = Some (JStr (join "," COMMON_FIELDS)) /\
  search_query f !! "count" = Some (JNum (sb_value (limit_spin f))).
Proof.
  unfold search_query. split; [apply lookup_insert_eq|].
  rewrite lookup_insert_ne by discriminate. unfold search_browse.
  apply lookup_insert_eq.
Qed.

(** X9: every query of a map search, whatever the filters, has the
    projection under "fields" and a count from 10 to 100 under "count". *)
Theorem search_query_count_and_fields f :
  LimitSpin (limit_spin f) ->
  search_query f !! "fields" = Some (JStr (join "," COMMON_FIELDS)) /\
  exists c, search_query f !! "count" = Some (JNum c) /\ 10 <= c <= 100.
Proof.
  intros Hspin. destruct (search_query_fixed f) as [Hf Hc].
  split; [exact Hf|]. exists (sb_value (limit_spin f)).
  split; [exact Hc | apply LimitSpin_range, Hspin].
Qed.

Lemma search_query_count_and_fields_witness :
  exists c, search_query (default_filters 500) !! "count" = Some (JNum c) /\ 10 <= c <= 100.
Proof.
  apply (search_query_count_and_fields (default_filters 500)). apply LimitSpin_created.
Defined.

Lemma length_map_inv label lo hi :
  length_map !! label = Some (lo, hi) -> 0 <= lo < hi.
Proof.
  intros H. apply elem_of_list_to_map_2 in H.
  rewrite !elem_of_cons, elem_of_nil in H.
  destruct H as [H|[H|[H|[H|[H|[]]]]]]; injection H as -> -> ->; lia.
Qed.

(** X10: a query of a map search has no key outside [query_keys]; it has
    "lengthmin" exactly when it has "lengthmax", and the minimum is then
    nonnegative and below the maximum. *)
Theorem search_query_keys f :
  (forall k, is_Some (search_query f !! k) -> k ∈ query_keys) /\
  (is_Some (search_query f !! "lengthmin") <-> is_Some (search_query f !! "lengthmax")) /\
  (forall lo hi,
     search_query f !! "lengthmin" = Some (JNum lo) ->
     search_query f !! "lengthmax" = Some (JNum hi) -> 0 <= lo < hi).
Proof.
  unfold search_query. rewrite search_browse_length.
  generalize (JStr (join "," COMMON_FIELDS)) as fields.
  generalize (JNum (sb_value (limit_spin f))) as count. intros count fields.
  assert (Hmin : params_before_length f !! "lengthmin" = None)
    by (apply params_before_length_keys; discriminate).
  assert (Hmax : params_before_length f !! "lengthmax" = None)
    by (apply params_before_length_keys; discriminate).
  split; [|split].
  - intros k Hk. destruct (decide (k ∈ query_keys)) as [|Hnot]; [assumption|exfalso].
    unfold query_keys in Hnot. rewrite !not_elem_of_cons in Hnot.
    destruct Hnot as (? & ? & ? & ? & ? & ? & ? & ? & ? & _).
    repeat (rewrite lookup_insert_ne in Hk by congruence).
    destruct (String.eqb (length_combo f) "All");
      [|destruct (length_map !! length_combo f) as [[lo hi]|]];
      repeat (rewrite lookup_insert_ne in Hk by congruence);
      rewrite params_before_length_keys in Hk by congruence;
      destruct Hk as [? Hk]; discriminate Hk.
  - repeat (rewrite lookup_insert_ne by discriminate).
    destruct (String.eqb (length_combo f) "All");
      [|destruct (length_map !! length_combo f) as [[lo hi]|]];
      repeat (rewrite lookup_insert_ne by discriminate);
      rewrite ?lookup_insert_eq, ?Hmin, ?Hmax; split; intros [? H]; eauto; discriminate H.
  - intros lo hi. repeat (rewrite lookup_insert_ne by discriminate).
    destruct (String.eqb (length_combo f) "All");
      [|destruct (length_map !! length_combo f) as [[lo' hi']|] eqn:Hmap];
      repeat (rewrite lookup_insert_ne by discriminate);
      rewrite ?lookup_insert_eq, ?Hmin, ?Hmax; try discriminate.
    intros [= <-] [= <-]. eapply length_map_inv, Hmap.
Qed.

Lemma search_query_keys_witness : "lengthmin" ∈ query_keys /\ 0 <= 30000 < 60000.
Proof.
  destruct (search_query_keys medium_filters) as (Hkeys & _ & Hpair). split.
  - apply Hkeys. exists (JNum 30000). reflexivity.
  - apply Hpair; reflexivity.
Defined.

(** ** The single filters *)

Lemma lookup_opt_insert_ne k k' o (m : gmap string json) :
  k <> k' -> opt_insert k o m !! k' = m !! k'.
Proof. intros H. destruct o; [apply lookup_insert_ne, H | reflexivity]. Qed.

Lemma lookup_opt_insert_eq k o (m : gmap string json) :
  m !! k = None -> opt_insert k o m !! k = o.
Proof. intros H. destruct o; [apply lookup_insert_eq | exact H]. Qed.

(** The params, one widget after the other. *)
Lemma search_browse_layers f :
  search_browse f =
  <["count" := JNum (sb_value (limit_spin f))]>
    (opt_insert "lengthmax" (JNum <$> (snd <$> length_params f))
       (opt_insert "lengthmin" (JNum <$> (fst <$> length_params f))
          (opt_insert "difficulty" (difficulty_param f)
             (opt_insert "environment" (environment_param f)
                (opt_insert "order1" (order_param f)
                   (opt_insert "author" (author_param f)
                      (opt_insert "name" (name_param f) ∅))))))).
Proof.
  unfold search_browse, length_params, difficulty_param, environment_param,
    order_param, author_param, name_param.
  destruct (String.eqb (strip (name_input f)) ""),
    (String.eqb (strip (author_input f)) ""),
    (sort_options !! sort_combo f),
    (String.eqb (env_combo f) "All"), (env_map !! env_combo f),
    (String.eqb (difficulty_combo f) "All"), (diff_map !! difficulty_combo f),
    (String.eqb (length_combo f) "All"),
    (length_map !! length_combo f) as [[min_len max_len]|]; reflexivity.
Qed.

Ltac query_lookup :=
  unfold search_query; rewrite search_browse_layers;
  repeat first [ rewrite lookup_insert_ne by discriminate
               | rewrite lookup_opt_insert_ne by discriminate ];
  first [ apply lookup_insert_eq
        | apply lookup_opt_insert_eq;
          repeat (rewrite lookup_opt_insert_ne by discriminate); apply lookup_empty ].

Lemma search_query_environment f : search_query f !! "environment" = environment_param f.
Proof. query_lookup. Qed.

Lemma search_query_difficulty f : search_query f !! "difficulty" = difficulty_param f.
Proof. query_lookup. Qed.

Lemma search_query_order f : search_query f !! "order1" = order_param f.
Proof. query_lookup. Qed.

Lemma search_query_name f : search_query f !! "name" = name_param f.
Proof. query_lookup. Qed.

Lemma search_query_author f : search_query f !! "author" = author_param f.
Proof. query_lookup. Qed.

(** X11: the environment and the difficulty are sent as the ordinals of the
    tables, whatever the other filters are, and not at all for "All". *)
Theorem enum_filter_ordinals f :
  (forall name o, (name, o) ∈ environment_table -> env_combo f = name ->
     search_query f !! "environment" = Some (JNum o)) /\
  (env_combo f = "All" -> search_query f !! "environment" = None) /\
  (forall name o, (name, o) ∈ difficulty_table -> difficulty_combo f = name ->
     search_query f !! "difficulty" = Some (JNum o)) /\
  (difficulty_combo f = "All" -> search_query f !! "difficulty" = None).
Proof.
  rewrite search_query_environment, search_query_difficulty.
  unfold environment_param, difficulty_param. repeat split.
  - intros name o Hin <-. unfold environment_table in Hin.
    rewrite !elem_of_cons, elem_of_nil in Hin.
    destruct Hin as [H|[H|[H|[H|[]]]]]; injection H as -> ->; reflexivity.
  - intros ->. reflexivity.
  - intros name o Hin <-. unfold difficulty_table in Hin.
    rewrite !elem_of_cons, elem_of_nil in Hin.
    destruct Hin as [H|[H|[H|[H|[]]]]]; injection H as -> ->; reflexivity.
  - intros ->. reflexivity.
Qed.

Lemma enum_filter_ordinals_witness :
  search_query snow_expert_filters !! "environment" = Some (JNum 1) /\
  search_query snow_expert_filters !! "difficulty" = Some (JNum 3).
Proof.
  destruct (enum_filter_ordinals snow_expert_filters) as (Henv & _ & Hdiff & _). split.
  - apply (Henv "Snow"); [unfold environment_table; repeat constructor | reflexivity].
  - apply (Hdiff "Expert"); [unfold difficulty_table; repeat constructor | reflexivity].
Defined.

(** ** Stripped texts *)

Lemma string_length_ind (P : string -> Prop) :
  (forall s, (forall r, (String.length r < String.length s)%nat -> P r) -> P s) ->
  forall s, P s.
Proof.
  intros H s. remember (String.length s) as n eqn:Hn.
  revert s Hn. induction n as [n IH] using lt_wf_ind. intros s ->.
  apply H. intros r Hr. now apply (IH (String.length r)).
Qed.

Lemma is_space_cases w :
  is_space w = true -> In w (map utf8 whitespace).
Proof.
  unfold is_space. intros H. apply existsb_exists in H as (x & Hin & Heq).
  apply String.eqb_eq in Heq. now subst x.
Qed.

Ltac space_cases H :=
  apply is_space_cases in H; vm_compute in H;
  repeat (destruct H as [<- | H]); [.. | destruct H].

Lemma lstrip_step s :
  lstrip s = match drop_space s with Some r => lstrip r | None => s end.
Proof.
  destruct s as [|a r]; [reflexivity|].
  change (lstrip (String a r)) with
    (if is_space (String a "") then lstrip r
     else match r with
          | String b r2 =>
              if is_space (String a (String b "")) then lstrip r2
              else match r2 with
                   | String c r3 =>
                       if is_space (String a (String b (String c ""))) then lstrip r3
                       else String a r
                   | EmptyString => String a r
                   end
          | EmptyString => String a r
          end).
  unfold drop_space. destruct (is_space (String a "")); [reflexivity|].
  destruct r as [|b r2]; [reflexivity|].
  destruct (is_space (String a (String b ""))); [reflexivity|].
  destruct r2 as [|c r3]; [reflexivity|].
  destruct (is_space (String a (String b (String c "")))); reflexivity.
Qed.

Lemma blank_step s :
  blank s =
  match s with
  | EmptyString => true
  | _ => match drop_space s with Some r => blank r | None => false end
  end.
Proof.
  destruct s as [|a r]; [reflexivity|].
  change (blank (String a r)) with
    (if is_space (String a "") then blank r
     else match r with
          | String b r2 =>
              if is_space (String a (String b "")) then blank r2
              else match r2 with
                   | String c r3 =>
                       is_space (String a (String b (String c ""))) && blank r3
                   | EmptyString => false
                   end
          | EmptyString => false
          end).
  unfold drop_space. destruct (is_space (String a "")); [reflexivity|].
  destruct r as [|b r2]; [reflexivity|].
  destruct (is_space (String a (String b ""))); [reflexivity|].
  destruct r2 as [|c r3]; [reflexivity|].
  destruct (is_space (String a (String b (String c "")))); reflexivity.
Qed.

Lemma drop_space_inv s r :
  drop_space s = Some r -> exists w, is_space w = true /\ s = w ++ r.
Proof.
  destruct s as [|a [|b [|c r3]]]; cbn [drop_space]; try discriminate.
  - destruct (is_space (String a "")) eqn:E1; [|discriminate].
    intros [= <-]. now exists (String a "").
  - destruct (is_space (String a "")) eqn:E1; [intros [= <-]; now exists (String a "")|].
    destruct (is_space (String a (String b ""))) eqn:E2; [|discriminate].
    intros [= <-]. now exists (String a (String b "")).
  - destruct (is_space (String a "")) eqn:E1; [intros [= <-]; now exists (String a "")|].
    destruct (is_space (String a (String b ""))) eqn:E2;
      [intros [= <-]; now exists (String a (String b ""))|].
    destruct (is_space (String a (String b (String c "")))) eqn:E3; [|discriminate].
    intros [= <-]. now exists (String a (String b (String c ""))).
Qed.

Lemma drop_space_app w rest : is_space w = true -> drop_space (w ++ rest) = Some rest.
Proof. intros H. space_cases H; vm_compute; reflexivity. Qed.

Lemma drop_space_length s r :
  drop_space s = Some r -> (String.length r < String.length s)%nat.
Proof.
  intros H. apply drop_space_inv in H as (w & Hw & ->). rewrite length_app_s.
  destruct w; [discriminate Hw | cbn; lia].
Qed.

Lemma blank_app_space w z : is_space w = true -> blank (w ++ z) = blank z.
Proof.
  intros H. rewrite blank_step, (drop_space_app w z H).
  destruct w; [discriminate H | reflexivity].
Qed.

Lemma lstrip_blank s : blank s = true -> lstrip s = "".
Proof.
  induction s as [s IH] using string_length_ind.
  rewrite blank_step, lstrip_step. destruct s as [|a r]; [reflexivity|].
  destruct (drop_space (String a r)) as [r'|] eqn:E; [|discriminate].
  apply IH. now apply drop_space_length.
Qed.

Lemma blank_lstrip s : blank (lstrip s) = blank s.
Proof.
  induction s as [s IH] using string_length_ind.
  rewrite lstrip_step, (blank_step s). destruct s as [|a r]; [reflexivity|].
  destruct (drop_space (String a r)) as [r'|] eqn:E.
  - apply IH. now apply drop_space_length.
  - rewrite blank_step, E. reflexivity.
Qed.

(** What [rstrip] removes is whitespace. *)
Lemma rstrip_split s : exists z, s = rstrip s ++ z /\ blank z = true.
Proof.
  induction s as [|c r (z & Hr & Hz)]; [now exists ""|]. cbn [rstrip].
  destruct (is_space (String c (rstrip r))) eqn:E.
  - exists (String c (rstrip r) ++ z). split.
    + cbn. now rewrite <- Hr.
    + now rewrite blank_app_space.
  - exists z. split; [cbn; now rewrite <- Hr | exact Hz].
Qed.

Lemma rstrip_space w r : is_space w = true -> rstrip r = "" -> rstrip (w ++ r) = "".
Proof.
  intros H Hr. space_cases H; cbn [String.append rstrip]; rewrite Hr; vm_compute; reflexivity.
Qed.

Lemma rstrip_blank s : rstrip s = "" <-> blank s = true.
Proof.
  split.
  - intros H. destruct (rstrip_split s) as (z & Hs & Hz). rewrite H in Hs. now subst s.
  - induction s as [s IH] using string_length_ind.
    rewrite blank_step. destruct s as [|a r]; [reflexivity|].
    destruct (drop_space (String a r)) as [r'|] eqn:E; [|discriminate].
    intros Hb. pose proof (drop_space_length _ _ E) as Hlen.
    destruct (drop_space_inv _ _ E) as (w & Hw & Hs). rewrite Hs.
    apply rstrip_space; [exact Hw|]. now apply IH.
Qed.

Lemma strip_blank s : strip s = "" <-> blank s = true.
Proof.
  unfold strip. rewrite rstrip_blank, blank_lstrip. reflexivity.
Qed.

Lemma lstrip_head s w rest : is_space w = true -> lstrip s <> w ++ rest.
Proof.
  intros Hw. induction s as [s IH] using string_length_ind.
  rewrite lstrip_step. destruct (drop_space s) as [r|] eqn:E.
  - apply IH. now apply drop_space_length.
  - intros ->. rewrite (drop_space_app w rest Hw) in E. discriminate.
Qed.

Lemma rstrip_tail s w init : is_space w = true -> rstrip s <> init ++ w.
Proof.
  intros Hw. revert init. induction s as [|c r IH]; intros init; cbn [rstrip].
  - intros H. symmetry in H. destruct init; [|discriminate H].
    cbn in H. subst w. discriminate Hw.
  - destruct (is_space (String c (rstrip r))) eqn:E.
    + intros H. symmetry in H. destruct init; [|discriminate H].
      cbn in H. subst w. discriminate Hw.
    + destruct init as [|c' init']; cbn [String.append].
      * intros H. rewrite <- H in Hw. congruence.
      * intros [= _ H]. exact (IH init' H).
Qed.

Lemma strip_trimmed s : blank s = false -> trimmed (strip s).
Proof.
  intros Hb. split.
  - intros H. apply strip_blank in H. congruence.
  - intros w rest Hw. split.
    + unfold strip. destruct (rstrip_split (lstrip s)) as (z & Hs & _).
      intros H. rewrite H, app_assoc_s in Hs. exact (lstrip_head s w _ Hw Hs).
    + apply rstrip_tail, Hw.
Qed.

(** X12: the name and the author are sent only when the text has a
    character that is not whitespace, and then without the whitespace
    characters at its ends, those outside ASCII included. *)
Theorem text_filters_stripped f :
  (blank (name_input f) = true -> search_query f !! "name" = None) /\
  (blank (name_input f) = false ->
     search_query f !! "name" = Some (JStr (strip (name_input f))) /\
     trimmed (strip (name_input f))) /\
  (blank (author_input f) = true -> search_query f !! "author" = None) /\
  (blank (author_input f) = false ->
     search_query f !! "author" = Some (JStr (strip (author_input f))) /\
     trimmed (strip (author_input f))).
Proof.
  rewrite search_query_name, search_query_author. unfold name_param, author_param.
  split; [|split; [|split]].
  - intros H. apply strip_blank in H. now rewrite H.
  - intros H. split; [|apply strip_trimmed, H].
    destruct (String.eqb_spec (strip (name_input f)) "") as [E|_]; [|reflexivity].
    apply strip_blank in E. congruence.
  - intros H. apply strip_blank in H. now rewrite H.
  - intros H. split; [|apply strip_trimmed, H].
    destruct (String.eqb_spec (strip (author_input f)) "") as [E|_]; [|reflexivity].
    apply strip_blank in E. congruence.
Qed.

Lemma text_filters_stripped_witness :
  search_query spaced_filters !! "name" = Some (JStr "ice") /\
  search_query spaced_filters !! "author" = None.
Proof.
  destruct (text_filters_stripped spaced_filters) as (_ & Hname & Hauthor & _). split.
  - apply Hname. vm_compute. reflexivity.
  - apply Hauthor. vm_compute. reflexivity.
Defined.

(** X13: the mappack search starts no request for a text of whitespace
    characters only, those outside ASCII included; for any other text it
    asks for the stripped name, 25 results, newest first, with the
    projection of the mappacks, and for nothing else. *)
Theorem search_mappacks_query text :
  (blank text = true -> search_mappacks text = None) /\
  (blank text = false ->
     exists params,
       search_mappacks text = Some params /\
       trimmed (strip text) /\
       mappack_query params =
         <["fields" := JStr (join "," MAPPACK_FIELDS)]>
           (<["order1" := JNum 6]>
              (<["count" := JNum 25]> {["name" := JStr (strip text)]}))).
Proof.
  unfold search_mappacks. split.
  - intros H. apply strip_blank in H. now rewrite H.
  - intros H. destruct (String.eqb_spec (strip text) "") as [E|_].
    + apply strip_blank in E. congruence.
    + eexists. split; [reflexivity|]. split; [apply strip_trimmed, H | reflexivity].
Qed.

Lemma search_mappacks_query_witness :
  search_mappacks (utf8 8195) = None /\
  exists params, search_mappacks (utf8 160 ++ "rpg ") = Some params /\
                 params !! "name" = Some (JStr "rpg").
Proof.
  split.
  - apply (proj1 (search_mappacks_query (utf8 8195))). vm_compute. reflexivity.
  - destruct (proj2 (search_mappacks_query (utf8 160 ++ "rpg ")))
      as (params & Hs & _ & _); [vm_compute; reflexivity|].
    exists params. split; [exact Hs|].
    assert (Some params = search_mappacks (utf8 160 ++ "rpg ")) as Hp
      by (symmetry; exact Hs).
    vm_compute in Hp. injection Hp as ->. reflexivity.
Defined.

(** ** The sort order *)

(** X14: every item of the sort selector sends its ordinal under "order1",
    whatever the other filters are, and no two items send the same
    ordinal: the query tells which order was chosen. *)
Theorem sort_order_tells_item f g :
  sort_combo f ∈ sort_items -> sort_combo g ∈ sort_items ->
  (exists o, search_query f !! "order1" = Some (JNum o) /\
             sort_options !! sort_combo f = Some o) /\
  (search_query f !! "order1" = search_query g !! "order1" -> sort_combo f = sort_combo g).
Proof.
  rewrite !search_query_order. unfold order_param, sort_items.
  rewrite !elem_of_cons, !elem_of_nil. intros Hf Hg. split.
  - repeat (destruct Hf as [-> | Hf]; [vm_compute; eauto|]). destruct Hf.
  - repeat (destruct Hf as [-> | Hf];
            [repeat (destruct Hg as [-> | Hg];
                     [vm_compute; intros H; first [reflexivity | discriminate H]|]);
             destruct Hg|]).
    destruct Hf.
Qed.

Lemma sort_order_tells_item_witness :
  exists o, search_query snow_expert_filters !! "order1" = Some (JNum o) /\
            sort_options !! "Awards (Most)" = Some o.
Proof.
  apply (proj1 (sort_order_tells_item snow_expert_filters snow_expert_filters
                  ltac:(unfold sort_items; cbn; repeat constructor)
                  ltac:(unfold sort_items; cbn; repeat constructor))).
Defined.

(** ** The projection and the constructors *)

Lemma MapInfo_init_frame d d' :
  (forall k, k ∈ MapInfo_members -> Py.dict_lookup k d = Py.dict_lookup k d') ->
  MapInfo_init (JDict d) = MapInfo_init (JDict d').
Proof.
  intros H. unfold MapInfo_init, Py.get.
  repeat match goal with
         | |- context [Py.dict_lookup ?k d] =>
             rewrite (H k) by (unfold MapInfo_members; repeat constructor)
         end.
  reflexivity.
Qed.

Lemma MappackInfo_init_frame d d' :
  (forall k, k ∈ MappackInfo_members -> Py.dict_lookup k d = Py.dict_lookup k d') ->
  MappackInfo_init (JDict d) = MappackInfo_init (JDict d').
Proof.
  intros H. unfold MappackInfo_init, Py.get.
  repeat match goal with
         | |- context [Py.dict_lookup ?k d] =>
             rewrite (H k) by (unfold MappackInfo_members; repeat constructor)
         end.
  reflexivity.
Qed.

Lemma only_projected_lookup fields d k :
  only_projected fields d = true -> projected fields k = false ->
  Py.dict_lookup k d = None.
Proof.
  intros Hd Hk. induction d as [|[k' v] d IH]; [reflexivity|].
  cbn [only_projected forallb fst] in Hd. apply andb_true_iff in Hd as [Hk' Hd].
  cbn [Py.dict_lookup]. destruct (String.eqb_spec k' k) as [-> | _]; [congruence|].
  apply IH, Hd.
Qed.

(** X15: the constructors read nothing of a record but the members of their
    lists, and each list has one member its projection does not ask for:
    the vehicle of a map and the count of a mappack.  So on a record that
    holds only what was asked for, the vehicle is the empty text and the
    count of maps is 0, whatever the map or the mappack is. *)
Theorem projection_misses_a_member :
  (forall d d',
     (forall k, k ∈ MapInfo_members -> Py.dict_lookup k d = Py.dict_lookup k d') ->
     MapInfo_init (JDict d) = MapInfo_init (JDict d')) /\
  (forall d d',
     (forall k, k ∈ MappackInfo_members -> Py.dict_lookup k d = Py.dict_lookup k d') ->
     MappackInfo_init (JDict d) = MappackInfo_init (JDict d')) /\
  List.filter (fun k => negb (projected COMMON_FIELDS k)) MapInfo_members = ["VehicleName"] /\
  List.filter (fun k => negb (projected MAPPACK_FIELDS k)) MappackInfo_members = ["TrackCount"] /\
  (forall d info,
     only_projected COMMON_FIELDS d = true -> MapInfo_init (JDict d) = Ok info ->
     VehicleName info = JStr "") /\
  (forall d pack,
     only_projected MAPPACK_FIELDS d = true -> MappackInfo_init (JDict d) = Ok pack ->
     TrackCount pack = JNum 0).
Proof.
  split; [exact MapInfo_init_frame|]. split; [exact MappackInfo_init_frame|].
  split; [vm_compute; reflexivity|]. split; [vm_compute; reflexivity|]. split.
  - intros d info Hd. unfold MapInfo_init, Py.get. cbn [rbind].
    rewrite (only_projected_lookup COMMON_FIELDS d "VehicleName" Hd)
      by (vm_compute; reflexivity).
    destruct (author_login _); cbn [rbind]; [|discriminate].
    destruct (get_enum_name _ "environment"); cbn [rbind]; [|discriminate].
    destruct (get_enum_name _ "difficulty"); cbn [rbind]; [|discriminate].
    destruct (get_length_name _); cbn [rbind]; [|discriminate].
    intros [= <-]. reflexivity.
  - intros d pack Hd. unfold MappackInfo_init, Py.get. cbn [rbind].
    rewrite (only_projected_lookup MAPPACK_FIELDS d "TrackCount" Hd)
      by (vm_compute; reflexivity).
    intros [= <-]. reflexivity.
Qed.

Lemma projection_misses_a_member_witness :
  VehicleName scenario_map = JStr "".
Proof.
  apply (proj1 (proj2 (proj2 (proj2 (proj2 projection_misses_a_member))))
           [("MapId", JNum 42); ("Name", JStr "Test Track");
            ("Length", JNum 45000); ("Environment", JNum 1)]);
    reflexivity.
Defined.

(** ** The list of the favorites tab *)

Lemma add_items_all_ok mk f l acc :
  (forall x, x ∈ l -> mk x = Ok (f x)) ->
  add_items mk l acc = ((acc ++ map f l)%list, None).
Proof.
  revert acc. induction l as [|x l IH]; intros acc H; cbn [add_items map].
  - now rewrite app_nil_r.
  - rewrite (H x) by left. rewrite IH by (intros y Hy; apply H; now right).
    now rewrite <- app_assoc.
Qed.


Lemma add_items_fails mk l acc :
  forallb (fun x => is_ok (mk x)) l = false ->
  exists e, snd (add_items mk l acc) = Some e.
Proof.
  revert acc. induction l as [|x l IH]; intros acc; cbn [add_items forallb];
    [discriminate|].
  destruct (mk x) as [item | e]; cbn [is_ok andb].
  - apply IH.
  - intros _. now exists e.
Qed.

Lemma forallb_eq {A} (f g : A -> bool) l :
  (forall x, f x = g x) -> forallb f l = forallb g l.
Proof. intros H. induction l as [|x l IH]; [reflexivity|]. cbn. now rewrite H, IH. Qed.

Lemma add_items_maps maps acc :
  add_items (fun fav => Ok (map_item fav)) maps acc = ((acc ++ map map_item maps)%list, None).
Proof. now apply add_items_all_ok. Qed.

Lemma mappack_item_ok fav : is_ok (mappack_item fav) = countable fav.
Proof.
  unfold mappack_item, countable. now destruct (Py.gt0 (fav_map_count fav)).
Qed.

Lemma mappack_item_id fav item :
  mappack_item fav = Ok item -> item_id item = fav_identity fav /\ item_kind item = "mappack".
Proof.
  unfold mappack_item. destruct (Py.gt0 (fav_map_count fav)); cbn [rbind]; [|discriminate].
  intros [= <-]. split; reflexivity.
Qed.

Lemma map_repeat_length {A B} (f : A -> B) (c : B) (l : list A) :
  (forall x, x ∈ l -> f x = c) -> map f l = repeat c (length l).
Proof.
  induction l as [|x l IH]; intros H; [reflexivity|]. cbn [map length repeat].
  rewrite (H x) by left. f_equal. apply IH. intros y Hy. apply H. now right.
Qed.


(** X16: for a store of two lists, the favorites tab is filled without an
    exception exactly when the count of every mappack can be compared with
    0; it then has one item per entry, the maps first, each list in the
    order of the store, every item with the identity of its entry. *)
Theorem render_favorites_order maps packs :
  let favs := {| fav_maps := JList maps; fav_mappacks := JList packs |} in
  (snd (render_favorites favs) = None <-> forallb countable packs = true) /\
  (forallb countable packs = true ->
   map item_id (fst (render_favorites favs)) = map fav_identity (maps ++ packs) /\
   map item_kind (fst (render_favorites favs)) =
     (repeat "map" (length maps) ++ repeat "mappack" (length packs))%list).
Proof.
  cbv zeta. unfold render_favorites. cbn [fav_maps fav_mappacks Py.iter].
  rewrite add_items_maps. cbn [app].
  assert (Hok : forallb countable packs = true ->
                add_items mappack_item packs (map map_item maps) =
                ((map map_item maps ++
                  map (fun fav => match mappack_item fav with
                                  | Ok item => item
                                  | Raise _ => map_item fav
                                  end) packs)%list, None)).
  { intros H. apply add_items_all_ok. intros x Hx.
    rewrite forallb_forall in H. specialize (H x (proj1 (list_elem_of_In _ _) Hx)).
    rewrite <- mappack_item_ok in H. now destruct (mappack_item x). }
  split; [split|].
  - intros Hnone. destruct (forallb countable packs) eqn:E; [reflexivity|].
    destruct (add_items_fails mappack_item packs (map map_item maps)) as [e He].
    + rewrite <- E. apply forallb_eq. intros x. apply mappack_item_ok.
    + rewrite He in Hnone. discriminate.
  - intros H. now rewrite (Hok H).
  - intros H. rewrite (Hok H). cbn [fst]. rewrite !map_app, !map_map. split.
    + f_equal. apply map_ext_in. intros fav Hin.
      rewrite forallb_forall in H. specialize (H fav Hin).
      rewrite <- mappack_item_ok in H.
      destruct (mappack_item fav) as [item|] eqn:E; [|discriminate].
      now destruct (mappack_item_id fav item E).
    + f_equal.
      * now apply map_repeat_length.
      * apply map_repeat_length. intros fav Hin.
        rewrite forallb_forall in H.
        specialize (H fav (proj1 (list_elem_of_In _ _) Hin)).
        rewrite <- mappack_item_ok in H.
        destruct (mappack_item fav) as [item|] eqn:E; [|discriminate].
        now destruct (mappack_item_id fav item E).
Qed.

Lemma render_favorites_order_witness :
  map item_id (fst (render_favorites sample_favorites)) = [JNum 42; JNum 7; JStr "pack-3"] /\
  map item_kind (fst (render_favorites sample_favorites)) = ["map"; "map"; "mappack"].
Proof.
  exact (proj2 (render_favorites_order sample_maps sample_mappacks) eq_refl).
Defined.

(** ** What the operations do to the store *)

Lemma add_mappack_present b p favs :
  selected_mappack b = Some p -> fav_mappacks (favorites b) = JList favs ->
  forallb has_id favs = true ->
  Py.contains (ID p) (map fav_identity favs) = true ->
  add_mappack_to_favorites b = (set_status AlreadyInFavorites b, None).
Proof.
  intros Hsel Hl Hids Hin. unfold add_mappack_to_favorites.
  rewrite Hsel, Hl. cbn [Py.iter rbind]. rewrite (ids_of_ok favs Hids). cbn [rbind].
  now rewrite Hin.
Qed.

Lemma add_mappack_fresh b p favs :
  selected_mappack b = Some p -> fav_mappacks (favorites b) = JList favs ->
  forallb has_id favs = true ->
  Py.contains (ID p) (map fav_identity favs) = false ->
  let favs' := {| fav_maps := fav_maps (favorites b);
                  fav_mappacks := JList (favs ++ [mappack_entry p]) |} in
  add_mappack_to_favorites b =
    refresh_favorites (set_status MappackAddedToFavorites (store_and_save favs' b)).
Proof.
  intros Hsel Hl Hids Hin. cbv zeta. unfold add_mappack_to_favorites.
  rewrite Hsel, Hl. cbn [Py.iter rbind]. rewrite (ids_of_ok favs Hids). cbn [rbind].
  rewrite Hin. reflexivity.
Qed.

Lemma remove_favorite_mappacks b item favs :
  current_item b = Some item -> item_kind item <> "map" ->
  fav_mappacks (favorites b) = JList favs -> forallb has_id favs = true ->
  let kept := List.filter (fun fav => negb (Py.eq (fav_identity fav) (item_id item))) favs in
  let favs' := {| fav_maps := fav_maps (favorites b); fav_mappacks := JList kept |} in
  let b' := fst (remove_favorite b) in
  favorites b' = favs' /\
  favorites_file (world b') = Some (Json.dumps (favorites_json favs')).
Proof.
  intros Hcur Hkind Hl Hids. cbv zeta. unfold remove_favorite.
  rewrite Hcur, Hl. destruct (String.eqb_spec (item_kind item) "map") as [E|_]; [easy|].
  cbn [Py.iter rbind]. rewrite (without_id_ok _ favs Hids). cbn [rbind].
  match goal with |- context [refresh_favorites ?x] =>
    destruct (refresh_favorites_keeps x) as (-> & -> & _) end.
  repeat split.
Qed.

(** ** No two entries with one identity *)

Lemma eq_scalar_sym a b : scalar a = true -> scalar b = true -> Py.eq a b = Py.eq b a.
Proof.
  destruct a, b; try discriminate; intros _ _; cbn [Py.eq]; try reflexivity.
  - now destruct b, b0.
  - apply Z.eqb_sym.
  - apply Z.eqb_sym.
  - apply Z.eqb_sym.
  - apply String.eqb_sym.
Qed.

Lemma unique_ids_has_id favs : unique_ids favs = true -> forallb has_id favs = true.
Proof.
  induction favs as [|fav rest IH]; [reflexivity|]. cbn [unique_ids forallb].
  rewrite !andb_true_iff. intros [[[H _] _] Hr]. split; [exact H | apply IH, Hr].
Qed.

Lemma contains_app x l l' : Py.contains x (l ++ l') = Py.contains x l || Py.contains x l'.
Proof. unfold Py.contains. apply existsb_app. Qed.

Lemma unique_ids_app favs entry :
  unique_ids favs = true -> has_id entry = true -> scalar (fav_identity entry) = true ->
  Py.contains (fav_identity entry) (map fav_identity favs) = false ->
  unique_ids (favs ++ [entry]) = true.
Proof.
  intros Hu He Hs. induction favs as [|fav rest IH]; cbn [app map unique_ids].
  - intros _. now rewrite He, Hs.
  - cbn [unique_ids] in Hu. rewrite !andb_true_iff in Hu.
    destruct Hu as [[[Hid Hsc] Hnot] Hr].
    unfold Py.contains at 1. cbn [existsb]. fold (Py.contains (fav_identity entry) (map fav_identity rest)).
    intros [Hne Hrest]%orb_false_iff.
    rewrite Hid, Hsc, (IH Hr Hrest). rewrite map_app, contains_app.
    apply negb_true_iff in Hnot. rewrite Hnot. unfold Py.contains. cbn [map existsb].
    rewrite (eq_scalar_sym _ _ Hs Hsc), Hne. reflexivity.
Qed.

Lemma contains_filter x p favs :
  Py.contains x (map fav_identity favs) = false ->
  Py.contains x (map fav_identity (List.filter p favs)) = false.
Proof.
  unfold Py.contains. induction favs as [|fav rest IH]; [reflexivity|].
  cbn [map existsb List.filter]. intros [H Hr]%orb_false_iff.
  destruct (p fav); [cbn [map existsb]; now rewrite H, IH | now apply IH].
Qed.

Lemma unique_ids_filter p favs :
  unique_ids favs = true -> unique_ids (List.filter p favs) = true.
Proof.
  induction favs as [|fav rest IH]; [reflexivity|]. cbn [unique_ids List.filter].
  rewrite !andb_true_iff. intros [[[Hid Hsc] Hnot] Hr].
  destruct (p fav); [|now apply IH]. cbn [unique_ids].
  rewrite Hid, Hsc, (IH Hr). apply negb_true_iff in Hnot.
  now rewrite (contains_filter _ p rest Hnot).
Qed.

(** X17: a store of two lists of objects in which no two maps and no two
    mappacks have equal identities stays such a store under every
    operation of the favorites tab, whatever is selected. *)
Theorem favorites_unique_ids b op :
  store_unique (favorites b) = true -> selection_scalar b = true ->
  op ∈ operations ->
  store_unique (favorites (fst (op b))) = true.
Proof.
  unfold store_unique, selection_scalar, operations.
  destruct (fav_maps (favorites b)) as [| | | |maps|] eqn:Hm; try discriminate.
  destruct (fav_mappacks (favorites b)) as [| | | |packs|] eqn:Hp; try discriminate.
  intros [Hum Hup]%andb_true_iff [Hsm Hsp]%andb_true_iff Hop.
  pose proof (unique_ids_has_id _ Hum) as Him.
  pose proof (unique_ids_has_id _ Hup) as Hip.
  rewrite !elem_of_cons, elem_of_nil in Hop. destruct Hop as [-> | [-> | [-> | []]]].
  - destruct (selected_map b) as [m|] eqn:Hsel.
    + destruct (Py.contains (TrackID m) (map fav_identity maps)) eqn:Hin.
      * rewrite (add_to_favorites_present b m maps Hsel Hm Him Hin).
        cbn [fst set_status favorites]. now rewrite Hm, Hp, Hum, Hup.
      * destruct (add_to_favorites_fresh b m maps Hsel Hm Him Hin) as (-> & _ & _).
        cbn [fav_maps fav_mappacks]. rewrite Hp, Hup.
        now rewrite unique_ids_app.
    + unfold add_to_favorites. rewrite Hsel. cbn [fst]. now rewrite Hm, Hp, Hum, Hup.
  - destruct (selected_mappack b) as [p|] eqn:Hsel.
    + destruct (Py.contains (ID p) (map fav_identity packs)) eqn:Hin.
      * rewrite (add_mappack_present b p packs Hsel Hp Hip Hin).
        cbn [fst set_status favorites]. now rewrite Hm, Hp, Hum, Hup.
      * rewrite (add_mappack_fresh b p packs Hsel Hp Hip Hin).
        match goal with |- context [refresh_favorites ?x] =>
          destruct (refresh_favorites_keeps x) as (-> & _ & _) end.
        cbn [set_status store_and_save favorites fav_maps fav_mappacks].
        rewrite Hm, Hum. now rewrite unique_ids_app.
    + unfold add_mappack_to_favorites. rewrite Hsel. cbn [fst]. now rewrite Hm, Hp, Hum, Hup.
  - destruct (current_item b) as [item|] eqn:Hcur.
    + destruct (String.eqb_spec (item_kind item) "map") as [Hk | Hk].
      * destruct (remove_favorite_objects b item maps Hcur Hk Hm Him) as [-> _].
        cbn [fav_maps fav_mappacks]. rewrite Hp, Hup. now rewrite unique_ids_filter.
      * destruct (remove_favorite_mappacks b item packs Hcur Hk Hp Hip) as [-> _].
        cbn [fav_maps fav_mappacks]. rewrite Hm, Hum. now rewrite unique_ids_filter.
    + unfold remove_favorite. rewrite Hcur. cbn [fst]. now rewrite Hm, Hp, Hum, Hup.
Qed.

Lemma favorites_unique_ids_witness :
  store_unique
    (favorites (fst (add_to_favorites (select_map scenario_map fresh_browser)))) = true.
Proof.
  apply (favorites_unique_ids (select_map scenario_map fresh_browser) add_to_favorites).
  - reflexivity.
  - reflexivity.
  - unfold operations. repeat constructor.
Defined.

(** ** The file and the store *)








(** ** A mappack whose count is not a number *)



(** ** Adding a map and removing it again *)




(** ** The thumbnail cache *)

Lemma show_thumbnail_keeps cfg net path url d p n :
  files d !! p = Some n -> files (show_thumbnail cfg net path url d) !! p = Some n.
Proof.
  intros Hp. unfold show_thumbnail.
  destruct (files d !! path) as [n'|] eqn:Hpath; [exact Hp|].
  destruct (AUTO_CACHE cfg); cbn [negb]; [|exact Hp].
  destruct (net url) as [content|e]; [|exact Hp].
  unfold write_file. cbn [request files]. rewrite Hpath. cbn [set_thumbnail files].
  rewrite lookup_insert_ne; [exact Hp|]. intros ->. congruence.
Qed.

Lemma run_load_keeps cfg l d p n :
  files d !! p = Some n -> files (run_load cfg l d) !! p = Some n.
Proof. destruct l; apply show_thumbnail_keeps. Qed.

Lemma run_loads_keeps cfg ls d p n :
  files d !! p = Some n -> files (run_loads cfg ls d) !! p = Some n.
Proof.
  unfold run_loads. revert d. induction ls as [|l ls IH]; intros d Hp; [exact Hp|].
  cbn [fold_left]. apply IH, run_load_keeps, Hp.
Qed.

Lemma show_thumbnail_disabled cfg net path url d :
  AUTO_CACHE cfg = false ->
  files (show_thumbnail cfg net path url d) = files d /\
  requested (show_thumbnail cfg net path url d) = requested d.
Proof.
  intros Hoff. unfold show_thumbnail. rewrite Hoff.
  destruct (files d !! path); split; reflexivity.
Qed.

(** X21: the thumbnail cache never loses or changes what it holds: whatever
    thumbnails are loaded afterwards, and whatever the network answers, a
    path that names something keeps naming it.  With caching switched off
    the loads ask the network for nothing and write nothing. *)
Theorem thumbnail_cache_keeps cfg ls d :
  (forall p n, files d !! p = Some n -> files (run_loads cfg ls d) !! p = Some n) /\
  (AUTO_CACHE cfg = false ->
   files (run_loads cfg ls d) = files d /\ requested (run_loads cfg ls d) = requested d).
Proof.
  split; [intros p n; apply run_loads_keeps|].
  intros Hoff. unfold run_loads. revert d.
  induction ls as [|l ls IH]; intros d; [split; reflexivity|].
  cbn [fold_left]. destruct (IH (run_load cfg l d)) as [-> ->].
  destruct l; apply show_thumbnail_disabled, Hoff.
Qed.

Lemma thumbnail_cache_keeps_witness :
  files (run_loads sample_settings
           [MapThumbnail jpeg_network (JNum 7); MappackThumbnail no_network (JNum 7)]
           sample_desk) !! "C:/Trackmania.exe" = Some (File "exe").
Proof.
  apply (proj1 (thumbnail_cache_keeps sample_settings
                  [MapThumbnail jpeg_network (JNum 7); MappackThumbnail no_network (JNum 7)]
                  sample_desk)).
  reflexivity.
Defined.

(** X22: a thumbnail that is not in the cache is asked for once: when the
    network answers, the answer is written under the path of the map and
    shown, and every later load of that map, whatever was loaded in
    between and whatever the network does by then, shows the file without
    a request and without a write. *)
Theorem thumbnail_fetched_once cfg net map_id d content :
  AUTO_CACHE cfg = true ->
  files d !! thumbnail_path cfg map_id = None ->
  net (thumbnail_url cfg map_id) = Ok content ->
  let cached := load_thumbnail cfg net map_id d in
  files cached = <[thumbnail_path cfg map_id := File content]> (files d) /\
  requested cached = (requested d ++ [thumbnail_url cfg map_id])%list /\
  browse_thumbnail cached = Pixmap content /\
  forall ls net',
    let later := run_loads cfg ls cached in
    load_thumbnail cfg net' map_id later = set_thumbnail (Pixmap content) later.
Proof.
  intros Hon Hmiss Hnet. cbv zeta.
  assert (Hc : load_thumbnail cfg net map_id d =
               set_thumbnail (Pixmap content)
                 {| files := <[thumbnail_path cfg map_id := File content]> (files d);
                    requested := requested d ++ [thumbnail_url cfg map_id];
                    browse_thumbnail := browse_thumbnail d;
                    tm_path_input := tm_path_input d; processes := processes d;
                    hidden := hidden d; launch_label := launch_label d;
                    mappack_maps_worker := mappack_maps_worker d |}).
  { unfold load_thumbnail, show_thumbnail. rewrite Hmiss, Hon. cbn [negb]. rewrite Hnet.
    unfold write_file. cbn [request files]. now rewrite Hmiss. }
  rewrite Hc. cbn [set_thumbnail files requested browse_thumbnail].
  repeat split. intros ls net'.
  match goal with |- context [run_loads cfg ls ?c] =>
    pose proof (run_loads_keeps cfg ls c (thumbnail_path cfg map_id) (File content)) as Hk end.
  cbn [files] in Hk. specialize (Hk (lookup_insert_eq _ _ _)).
  unfold load_thumbnail at 1, show_thumbnail. now rewrite Hk.
Qed.

Lemma thumbnail_fetched_once_witness :
  requested (load_thumbnail sample_settings no_network (JNum 7)
               (load_thumbnail sample_settings jpeg_network (JNum 7) sample_desk))
  = ["https://trackmania.exchange/mapthumb/7"] /\
  browse_thumbnail (load_thumbnail sample_settings no_network (JNum 7)
                      (load_thumbnail sample_settings jpeg_network (JNum 7) sample_desk))
  = Pixmap "jpeg".
Proof.
  destruct (thumbnail_fetched_once sample_settings jpeg_network (JNum 7) sample_desk "jpeg"
              eq_refl eq_refl eq_refl) as (_ & Hreq & _ & Hlater).
  specialize (Hlater [] no_network). cbv zeta in Hlater.
  change (run_loads sample_settings []
            (load_thumbnail sample_settings jpeg_network (JNum 7) sample_desk))
    with (load_thumbnail sample_settings jpeg_network (JNum 7) sample_desk) in Hlater.
  rewrite Hlater. cbn [set_thumbnail requested browse_thumbnail].
  split; [exact Hreq | reflexivity].
Defined.

(** X23: a thumbnail load that fails at the request or at the status
    shows "No image", leaves the files as they were and is not remembered:
    the next load of the same map asks the network again. *)
Theorem thumbnail_failure_not_cached cfg net map_id d e :
  AUTO_CACHE cfg = true ->
  files d !! thumbnail_path cfg map_id = None ->
  net (thumbnail_url cfg map_id) = Raise e ->
  let failed := load_thumbnail cfg net map_id d in
  files failed = files d /\
  browse_thumbnail failed = NoImage /\
  forall net',
    requested (load_thumbnail cfg net' map_id failed) =
    (requested d ++ [thumbnail_url cfg map_id; thumbnail_url cfg map_id])%list.
Proof.
  intros Hon Hmiss Hnet. cbv zeta.
  assert (Hf : load_thumbnail cfg net map_id d =
               set_thumbnail NoImage (request (thumbnail_url cfg map_id) d)).
  { unfold load_thumbnail, show_thumbnail. now rewrite Hmiss, Hon, Hnet. }
  rewrite Hf. cbn [set_thumbnail request files browse_thumbnail].
  repeat split. intros net'.
  unfold load_thumbnail, show_thumbnail. cbn [files set_thumbnail request].
  rewrite Hmiss, Hon. cbn [negb].
  destruct (net' _) as [content|e'].
  - unfold write_file. cbn [request files set_thumbnail]. rewrite Hmiss.
    cbn [set_thumbnail request requested]. now rewrite <- app_assoc.
  - cbn [set_thumbnail request requested]. now rewrite <- app_assoc.
Qed.

Lemma thumbnail_failure_not_cached_witness :
  files (load_thumbnail sample_settings no_network (JNum 7) sample_desk) = files sample_desk /\
  browse_thumbnail (load_thumbnail sample_settings no_network (JNum 7) sample_desk) = NoImage.
Proof.
  destruct (thumbnail_failure_not_cached sample_settings no_network (JNum 7) sample_desk
              OSError eq_refl eq_refl eq_refl) as (Hfiles & Hlabel & _).
  split; [exact Hfiles | exact Hlabel].
Defined.

(** ** Paths *)

Lemma str_app_inv_head (p a b : string) : p ++ a = p ++ b -> a = b.
Proof. induction p as [|c p IH]; cbn; [easy|]. intros [= H]. now apply IH. Qed.

Lemma str_app_inv_tail (a b s : string) : a ++ s = b ++ s -> a = b.
Proof.
  revert b. induction a as [|c a IH]; intros [|c' b] H.
  - reflexivity.
  - apply (f_equal String.length) in H. cbn in H. rewrite length_app_s in H. lia.
  - apply (f_equal String.length) in H. cbn in H. rewrite length_app_s in H. lia.
  - cbn in H. injection H as -> H. f_equal. now apply IH.
Qed.

Lemma int_str_inj n m : Json.int_str n = Json.int_str m -> n = m.
Proof.
  intros H. pose proof (parse_number_int n "" I) as Hn.
  pose proof (parse_number_int m "" I) as Hm.
  rewrite H, Hm in Hn. now injection Hn.
Qed.

Lemma os_path_join_relative a b :
  starts_with_sep b = false -> os_path_join a b = dir_prefix a ++ b.
Proof.
  intros H. unfold os_path_join, dir_prefix. rewrite H.
  destruct (String.eqb a "" || ends_with_sep a); [reflexivity|].
  now rewrite app_assoc_s.
Qed.

Lemma int_name_relative n suffix : starts_with_sep (Json.int_str n ++ suffix) = false.
Proof.
  destruct (int_str_head n) as (c & s & -> & [Hc | ->]); [|reflexivity].
  cbn. destruct (Ascii.eqb_spec c "/") as [-> | _]; [discriminate | reflexivity].
Qed.

(** X24: for identities that are integers, the path of a thumbnail tells the
    map, the path of a mappack thumbnail tells the mappack, no map shares
    its thumbnail with a mappack, and the path of a map file tells the
    map, whatever the directories are. *)
Theorem paths_tell_identity cfg n m :
  (thumbnail_path cfg (JNum n) = thumbnail_path cfg (JNum m) -> n = m) /\
  (mappack_thumbnail_path cfg (JNum n) = mappack_thumbnail_path cfg (JNum m) -> n = m) /\
  thumbnail_path cfg (JNum n) <> mappack_thumbnail_path cfg (JNum m) /\
  (map_file_path cfg (JNum n) = map_file_path cfg (JNum m) -> n = m).
Proof.
  unfold thumbnail_path, mappack_thumbnail_path, map_file_path.
  change (Py.str (JNum n)) with (Json.int_str n).
  change (Py.str (JNum m)) with (Json.int_str m).
  rewrite !(os_path_join_relative _ (Json.int_str _ ++ _)) by apply int_name_relative.
  rewrite !(os_path_join_relative _ ("mappack_" ++ _)) by reflexivity.
  repeat split.
  - intros H. now apply str_app_inv_head, str_app_inv_tail, int_str_inj in H.
  - intros H. apply str_app_inv_head, (str_app_inv_head "mappack_") in H.
    now apply str_app_inv_tail, int_str_inj in H.
  - intros H. apply str_app_inv_head in H.
    destruct (int_str_head n) as (c & s & E & Hc). rewrite E in H.
    cbn in H. injection H as -> _. destruct Hc as [Hc | Hc]; discriminate.
  - intros H. now apply str_app_inv_head, str_app_inv_tail, int_str_inj in H.
Qed.

(** ** Launching *)

(** X25: a launch starts at most one process, and only the game with the
    map file as its argument, only when the map file and the executable
    both exist, and it changes no file; the window is hidden by it only
    after such a start and only when the settings say so. *)
Theorem launch_map_guarded cfg popen map_file d :
  let d' := launch_map cfg popen map_file d in
  files d' = files d /\
  (processes d' = processes d /\ hidden d' = hidden d /\ launch_label d' <> Launched \/
   processes d' =
     (processes d ++ [command_line (tm_path_input d) map_file])%list /\
   launch_label d' = Launched /\
   hidden d' = LAUNCH_HIDDEN cfg || hidden d /\
   os_path_exists map_file d = true /\ os_path_exists (tm_path_input d) d = true /\
   popen (command_line (tm_path_input d) map_file) = None).
Proof.
  cbv zeta. unfold launch_map.
  destruct (os_path_exists map_file d); cbn [negb];
    [|split; [reflexivity | left; repeat split; discriminate]].
  destruct (os_path_exists (tm_path_input d) d); cbn [negb];
    [|split; [reflexivity | left; repeat split; discriminate]].
  destruct (popen _) as [e|] eqn:Hp;
    [split; [reflexivity | left; repeat split; discriminate]|].
  split; [reflexivity|]. right. cbn [processes launch_label hidden].
  now destruct (LAUNCH_HIDDEN cfg).
Qed.

Lemma exists_after_write path content d written p :
  write_file path content d = Ok written ->
  os_path_exists p d = true -> os_path_exists p written = true.
Proof.
  unfold write_file, os_path_exists.
  destruct (files d !! path) as [[old|]|] eqn:E; try discriminate; intros [= <-]; cbn [files].
  all: destruct (decide (path = p)) as [-> | Hne];
    [now rewrite lookup_insert_eq | now rewrite lookup_insert_ne].
Qed.

(** X26: a download writes the chunks it received under the very path that
    launching looks at, also when the stream broke and the worker emitted
    an error; from the browse tab and from the favorites tab alike, the
    game is then started on that file. *)
Theorem download_then_launch cfg net popen (m : MapInfo) d response total :
  net (download_url cfg (TrackID m)) = Ok response ->
  content_length response = Ok total ->
  files d !! map_file_path cfg (TrackID m) <> Some Directory ->
  os_path_exists (tm_path_input d) d = true ->
  popen (command_line (tm_path_input d) (map_file_path cfg (TrackID m))) = None ->
  let downloaded := fst (DownloadWorker_run cfg net (TrackID m) d) in
  let started :=
    (processes d ++ [command_line (tm_path_input d) (map_file_path cfg (TrackID m))])%list in
  files downloaded !! map_file_path cfg (TrackID m)
    = Some (File (String.concat "" (chunks response))) /\
  snd (DownloadWorker_run cfg net (TrackID m) d) =
    match broken response with
    | Some e => error (Failure e)
    | None => finished (map_file_path cfg (TrackID m))
    end /\
  processes (launch_selected cfg popen (Some m) downloaded) = started /\
  forall item, item_kind item = "map" -> item_id item = TrackID m ->
    processes (launch_favorite cfg popen (Some item) downloaded) = started.
Proof.
  intros Hnet Hlen Hdir Hexe Hpopen. cbv zeta.
  set (path := map_file_path cfg (TrackID m)) in *.
  assert (Hw : exists written,
             write_file path (String.concat "" (chunks response))
               (request (download_url cfg (TrackID m)) d) = Ok written /\
             files written !! path = Some (File (String.concat "" (chunks response))) /\
             processes written = processes d /\ tm_path_input written = tm_path_input d).
  { unfold write_file. cbn [request files].
    destruct (files d !! path) as [[old|]|] eqn:E; [|congruence|];
      eexists; (split; [reflexivity|]); cbn [files processes tm_path_input];
      now rewrite lookup_insert_eq. }
  destruct Hw as (written & Hw & Hfile & Hproc & Hinput).
  assert (Hexe' : os_path_exists (tm_path_input written) written = true).
  { rewrite Hinput. eapply exists_after_write; [exact Hw|]. exact Hexe. }
  assert (Hlaunch : processes (launch_map cfg popen path written) =
                    (processes d ++ [command_line (tm_path_input d) path])%list).
  { unfold launch_map. unfold os_path_exists at 1. rewrite Hfile. cbn [negb].
    rewrite Hexe'. cbn [negb]. rewrite Hinput, Hpopen. cbn [processes].
    now rewrite Hproc. }
  assert (Hrun : DownloadWorker_run cfg net (TrackID m) d =
                 (written, match broken response with
                           | Some e => error (Failure e)
                           | None => finished path
                           end)).
  { unfold DownloadWorker_run. rewrite Hnet, Hlen. fold path. rewrite Hw.
    now destruct (broken response). }
  rewrite Hrun. cbn [fst snd]. split; [exact Hfile|]. split; [reflexivity|].
  split; [exact Hlaunch|].
  intros item Hkind Hid. unfold launch_favorite. rewrite Hkind, Hid.
  change (String.eqb "map" "mappack") with false. cbv iota. fold path.
  unfold os_path_exists at 1. rewrite Hfile. exact Hlaunch.
Qed.

Lemma download_then_launch_witness :
  snd (DownloadWorker_run sample_settings broken_network (JNum 42) sample_desk)
    = error (Failure OSError) /\
  processes (launch_selected sample_settings popen_starts (Some scenario_map)
               (fst (DownloadWorker_run sample_settings broken_network (JNum 42) sample_desk)))
    = [["C:/Trackmania.exe"; "/useexedir"; "/singleinst"; "/file=./maps/42.Map.Gbx"]].
Proof.
  destruct (download_then_launch sample_settings broken_network popen_starts scenario_map
              sample_desk broken_response 100 eq_refl eq_refl) as (_ & Hsig & Hsel & _).
  - discriminate.
  - reflexivity.
  - reflexivity.
  - split; [exact Hsig | exact Hsel].
Defined.

Lemma paths_tell_identity_witness :
  thumbnail_path sample_settings (JNum 7) <> mappack_thumbnail_path sample_settings (JNum 7).
Proof.
  exact (proj1 (proj2 (proj2 (paths_tell_identity sample_settings 7 7)))).
Defined.

Lemma launch_map_guarded_witness :
  processes (launch_map sample_settings popen_starts "./maps/42.Map.Gbx" sample_desk) = [].
Proof.
  destruct (launch_map_guarded sample_settings popen_starts "./maps/42.Map.Gbx" sample_desk)
    as [_ [(H & _ & _) | (_ & _ & _ & H & _)]].
  - exact H.
  - discriminate H.
Defined.
